(* ===== verification/_CoqProject ===== *)
-Q . S2P
Prelude.v
Machine.v
OneWire.v
Ds18b20.v
Rtos.v
Clock.v
Script.v
AppMain.v
AppFacts.v
Crc8.v
Scratchpad.v
Search.v
Scenarios.v
Enumeration.v
StaticBus.v
Devices.v
Sampling.v
Timing.v
Lifecycle.v
Safety.v
Phases.v
