(* ===== verification/Prelude.v ===== *)
(** * esp32-ds18b20-example: a verification development for [app_main]

    ** The program

    [src/main/app_main.c] is the whole application: one FreeRTOS task,
    [app_main], that drives DS18B20 thermometers on a 1-Wire bus.  It
      - waits two seconds, creates the bus on the RMT peripheral and switches
        ROM-code CRC checking on (lines 51-63);
      - enumerates the devices with [owb_search_first]/[owb_search_next] into
        the fixed array [device_rom_codes[MAX_DEVICES]] (lines 67-83);
      - asks whether one known ROM code is present (lines 90-100);
      - allocates and configures one [DS18B20_Info] per device found, in solo
        mode when exactly one device answered (lines 111-133);
      - loops for ever: read the tick counter, broadcast a conversion, wait for
        it, read every device, print every reading with its running count of
        CRC errors, sleep for what is left of the sample period (148-188);
      - frees the handles (190-196), which is reached only when no device was
        found.
    Everything else the program uses (esp32-owb, esp32-ds18b20, FreeRTOS,
    stdio) is outside [src/]; the specification describes those parts by
    contract and they are modelled here as interfaces.

    ** The model

    The program is a shallow embedding in a state-and-fault monad
    ([Prelude.prog]): a statement is a function from the program state to
    either [Ok] with a result and the next state, or [Fault] with the
    undefined behaviour the C code would run into (an array written or read
    out of bounds, a NULL handle given to the library, a signed counter
    incremented past [INT_MAX]) or [OutOfFuel] for a loop cut short.  The state
    ([AppMain.AppState]) holds the locals and globals of [app_main] under their
    C names, the state of the outside world, and a ghost [trace] of every
    library call in program order, which is what the ordering theorems speak
    about.  The outside world is a type parameter [W]: a library call is a
    function on [W] given by a type class, and the theorems hold for every
    world, or for every world that meets a contract stated as a class of
    laws.

    - [Prelude] (this file): the monad and its loops ([for_loop], [for_lt],
      [while_loop], [repeat_n]), array access with the bound check C does
      not make ([load_at], [store_at]), the predicates [wp] (ends without
      fault in a state that satisfies), [wlp] (if it ends without fault)
      and [faults], the class [Steps] of the relations every statement of a
      program respects, the relation [outcome_rel] between two runs, the
      tactics and hint databases the other files use.
    - [Machine]: the machine integers of the target (32-bit [int],
      32-bit unsigned [TickType_t], bytes), with wrap-around written out.
    - [OneWire]: the data of esp32-owb that the program touches
      ([OneWireBus_ROMCode], [OneWireBus_SearchState]), the interface [Owb]
      of the calls it makes, and the enumerator of section 4.2 of the
      specification ([enumerate]).
    - [Ds18b20]: [DS18B20_Info], the resolutions, and the interface
      [Ds18b20] of esp32-ds18b20 with its contract ([Ds18b20Laws], section
      4.3 of the specification).
    - [Rtos]: the interface of FreeRTOS and stdio ([Rtos]).
    - [Clock]: time as a count of ticks ([Clock]) and the contract of the
      calls that let it pass ([ClockLaws]).
    - [Script]: a scripted world, an instance of the interfaces in which
      every answer of the outside is read off a script; it meets the
      contracts, and it is where the theorems are applied to concrete runs.
    - [AppMain]: [app_main], statement group by statement group, under
      the names of the code: [startup] (51-63), [find_devices] with
      [find_devices_body] (67-83), [verify_known_device] (90-100),
      [create_devices] with [create_device] (111-133), [sampling] with
      [sample_once], [read_temps], [print_results], [periodic_delay]
      (148-188), [cleanup] (190-196), and one [do_...] operation per library
      call, which moves the world and logs the call.
    - [AppFacts]: the relations [trace_grows], [time_passes] and [emits],
      the calls made between two states ([new_calls], [calls]) and one [wp]
      rule per library call.
    - [Crc8]: the CRC-8 of ROM codes, bit by bit and by table.
    - [Scratchpad]: the scratchpad of a device and the decoding of a
      reading from it, from sections 3, 4.3 and 8 of the specification.
    - [Scenarios]: the scripts of the concrete runs (three devices with one
      CRC failure, one device, none, nine, a duplicate) and the states the
      program reaches in them.
    - [Enumeration], [Devices], [Sampling], [Timing], [Lifecycle]: the
      theorems, one file per phase of the program.
    - [StaticBus]: the search loop on a bus whose answers depend on the
      search state alone, with two runs compared side by side
      ([outcome_rel], [same_search]).
    - [Safety]: the faults of a run of [app_main], all of them.
    - [Phases]: the state machine of the specification as an automaton over
      the calls ([phase], [allowed], [step], [run]) and the theorems that
      hold of every run of the program.

    The definitions of [Script] and [Scenarios] model no line of the
    program: they are an environment for it.  The definitions of the
    theorem files ([padded], [slots_ok], [find_calls], [create_calls],
    [sample_calls], [run_calls], [system_calls], [count_errors],
    [delay_ok], [run], ...) are specifications.

    ** What the theorems show

    - The whole program ([Lifecycle.app_main_refines_system]): when the
      search ends without fault, the calls of a run of [app_main] up to its
      [n]th sample are exactly [system_calls]: the start-up, the search
      with its lines ([find_calls]), the question for the known device
      ([verify_calls]), one handle per ROM code found ([create_calls]) and
      [n] samples ([run_calls]), or no handle and no sample and a return
      when nothing was found.  The theorems below are about its parts.
    - Enumeration: the search loop never needs more than [MAX_DEVICES + 1]
      iterations; when the enumerator of the specification accepts what the
      bus answered, the loop stores exactly that list, in order; with more
      than [MAX_DEVICES] answers it writes [device_rom_codes[MAX_DEVICES]],
      past the array, where the specification reports [TooManyDevices];
      a ROM code answered twice is stored twice, where the specification
      reports [EnumerationError].  On a static bus the loop is a function
      of the bus: it gives the same ROM codes from any two states with the
      same [owb], and again when it is run a second time ([StaticBus]).
    - Devices: after [create_devices] slot [i < num_devices] holds a handle
      bound to the bus with CRC checking on, in solo mode iff one device was
      found and else with [device_rom_codes[i]]; the other slots are NULL.
    - Sampling: [k] iterations of [while (1)] refine [k] samples of the
      Sampler of the specification, given as the list of calls of a sample
      ([sample_calls]): tick read, broadcast, wait, reads in slot order,
      header, one line per device, delay.  Nothing goes to the bus after the
      last read of a sample; an error counter moves by one exactly when its
      reading is the invalid sentinel; counters never decrease; at
      [INT_MAX] the sample counter overflows.
    - Timing: under [ClockLaws] a sample never starts less than a period
      after the previous one, whatever the 32-bit counter wraps; the test of
      the delay is right across a wrap; the delay is the remainder of the
      period when both tick reads are within it, and 2^32 ticks less the
      overrun when the period ends between the two reads.
    - Lifecycle: the phases composed (above); [startup] creates the bus
      on pin 26 whatever [CONFIG_ONE_WIRE_GPIO] is; with a device
      [app_main] is still sampling after any number of samples; without
      one it checks for the known device and returns, freeing nothing.
    - Safety: a run of [app_main] stops in undefined behaviour when the
      search stores a ninth ROM code, or when there is a device and the
      sample counter overflows, and in no other case.
    - Phases: every run of [app_main], faulting or not, is a run of the
      automaton [Init -> Enumerating -> Configured -> Sampling] that never
      enters [Stopped]; so once a conversion has been started the bus is
      not searched and no handle is created or configured again, and
      [ds18b20_free] is never called.
    - Crc8: the table-driven CRC agrees with the bitwise one; a message
      followed by its CRC checks to zero; a change of one byte is detected;
      [known_device] passes the check and any one-byte corruption of it
      does not.
    - Scratchpad: the decode laws of section 8; the bits a resolution does
      not use are zero in a reading, and at [DS18B20_RESOLUTION] the reading
      is the 16-bit word itself; a word stored in the two temperature bytes
      is read back; a scratchpad that arrives with one byte changed is read
      as the sentinel when the CRC is checked.

    ** Bounds and fuel

    [while (found)] is run with fuel [MAX_DEVICES + 1]: the theorem
    [find_devices_fuel] shows that this is never exhausted, since the ninth
    iteration already faults.  [while (1)] is run for [n] iterations, for
    every [n]: [app_main n] is the prefix of the behaviour that holds at most
    [n] samples, and its result says whether the program returned or is
    still sampling.  The counters are C [int]s: the theorems about [k]
    samples ask that the counters have room for [k] increments ([budget]),
    which from zero is [k <= INT_MAX], 68 years at one sample per second.

    ** Not modelled

    The line driver under esp32-owb (pulse timing on the RMT peripheral),
    the search algorithm inside the library, the bus transactions that
    fetch a scratchpad (its decoding is in [Scratchpad], and in the model
    of [app_main] a reading is the answer of the interface [Ds18b20]), the
    FreeRTOS scheduler, and the formatting done inside [printf] (a call is
    recorded with its format string and its arguments).
    A temperature is the fixed-point number of sixteenths of a degree that the
    [float] denotes; allocation does not fail.  The build with [USE_STATIC]
    and the text under [#if 0] are not compiled and not modelled. *)

From Stdlib Require Import ZArith Lia String.
From stdpp Require Import prelude strings.

#[local] Open Scope Z_scope.

(** ** Faults: the undefined behaviours of the C program, and fuel. *)

Inductive fault : Type :=
| OutOfBounds (array : string) (index : Z)
| NullPointer (what : string)
| SignedOverflow (what : string)
| OutOfFuel.

#[export] Instance fault_eq_dec : EqDecision fault.
Proof. solve_decision. Defined.

(** ** The state-and-fault monad. *)

Inductive outcome (S A : Type) : Type :=
| Ok (a : A) (s : S)
| Fault (f : fault) (s : S).
Arguments Ok {S A} a s.
Arguments Fault {S A} f s.

Definition prog (S A : Type) : Type := S -> outcome S A.

Definition ret {S A} (a : A) : prog S A := fun s => Ok a s.

Definition bind {S A B} (m : prog S A) (k : A -> prog S B) : prog S B :=
  fun s => match m s with
           | Ok a s' => k a s'
           | Fault f s' => Fault f s'
           end.

Definition gets {S A} (f : S -> A) : prog S A := fun s => Ok (f s) s.
Definition modify {S} (f : S -> S) : prog S unit := fun s => Ok tt (f s).
Definition fail {S A} (f : fault) : prog S A := fun s => Fault f s.

Declare Scope prog_scope.
Delimit Scope prog_scope with prog.
Notation "x ← y ; z" := (bind y (fun x => z)) : prog_scope.
Notation "y ;; z" := (bind y (fun _ => z)) : prog_scope.
#[local] Open Scope prog_scope.

(** The final state of a run, whatever its outcome, and its fault if any. *)
Definition final {S A} (o : outcome S A) : S :=
  match o with Ok _ s => s | Fault _ s => s end.

Definition fault_of {S A} (o : outcome S A) : option fault :=
  match o with Ok _ _ => None | Fault f _ => Some f end.

Definition is_ok {S A} (o : outcome S A) : bool :=
  match o with Ok _ _ => true | Fault _ _ => false end.

(** The run was cut short: a loop ran out of fuel. *)
Definition out_of_fuel {S A} (o : outcome S A) : bool :=
  bool_decide (fault_of o = Some OutOfFuel).

(** ** Loops.

    [for_loop body i n] is [for (j = i; j < i + n; ++j) body(j)];
    [for_lt bound body] is the C loop [for (int i = 0; i < bound; ++i)] whose
    body does not assign [bound]: no iteration at all when [bound <= 0]. *)

Fixpoint for_loop {S} (body : Z -> prog S unit) (i : Z) (n : nat) : prog S unit :=
  match n with
  | O => ret tt
  | S n' => body i ;; for_loop body (i + 1) n'
  end.

Definition for_lt {S} (bound : Z) (body : Z -> prog S unit) : prog S unit :=
  for_loop body 0 (Z.to_nat bound).

(** [while_loop fuel cond body] is [while (cond) body], cut after [fuel]
    iterations with the fault [OutOfFuel]. *)
Fixpoint while_loop {S} (fuel : nat) (cond : S -> bool) (body : prog S unit)
  : prog S unit :=
  fun s =>
    if cond s then
      match fuel with
      | O => Fault OutOfFuel s
      | S fuel' => (body ;; while_loop fuel' cond body) s
      end
    else Ok tt s.

(** [repeat_n n body] runs [body] [n] times: the first [n] iterations of
    [while (1) body]. *)
Fixpoint repeat_n {S} (n : nat) (body : prog S unit) : prog S unit :=
  match n with
  | O => ret tt
  | S n' => body ;; repeat_n n' body
  end.

(** ** C arrays: a list read and written by an [int] index.  An access
    outside [0 .. length - 1] is undefined behaviour: the fault
    [OutOfBounds] with the array's name and the index. *)

Definition index_ok {A} (l : list A) (i : Z) : bool :=
  (0 <=? i) && (i <? Z.of_nat (length l)).

Definition load_at {S A} (name : string) (get : S -> list A) (i : Z) : prog S A :=
  fun s =>
    if index_ok (get s) i then
      match get s !! Z.to_nat i with
      | Some x => Ok x s
      | None => Fault (OutOfBounds name i) s
      end
    else Fault (OutOfBounds name i) s.

Definition store_at {S A} (name : string) (get : S -> list A)
    (set : list A -> S -> S) (i : Z) (x : A) : prog S unit :=
  fun s =>
    if index_ok (get s) i then Ok tt (set (<[Z.to_nat i := x]> (get s)) s)
    else Fault (OutOfBounds name i) s.

(** ** Weakest preconditions.

    [wp m Q s]: run from [s], [m] ends without fault in a state and with a
    result that satisfy [Q]. *)
Definition wp {S A} (m : prog S A) (Q : A -> S -> Prop) (s : S) : Prop :=
  match m s with
  | Ok a s' => Q a s'
  | Fault _ _ => False
  end.

(** [wlp m Q s]: if [m] ends without fault from [s], it ends with a result
    and in a state that satisfy [Q].  What a run does to a quantity it never
    tests (the clock) is proved with [wlp], apart from the proof that the
    run does not fault, and joined to it by [wp_wlp_conj]. *)
Definition wlp {S A} (m : prog S A) (Q : A -> S -> Prop) (s : S) : Prop :=
  match m s with
  | Ok a s' => Q a s'
  | Fault _ _ => True
  end.

(** [faults m f P s]: run from [s], [m] stops with fault [f] in a state that
    satisfies [P]. *)
Definition faults {S A} (m : prog S A) (f : fault) (P : S -> Prop) (s : S) : Prop :=
  match m s with
  | Ok _ _ => False
  | Fault f' s' => f' = f /\ P s'
  end.

(** ** Two runs side by side.

    [outcome_rel R o1 o2]: two runs ended alike, both without fault with the
    same result and in states related by [R], or both with the same fault.
    A statement [m] with [Proper (P ==> outcome_rel Q) m] takes states
    related by [P] to outcomes related by [Q]: what [m] does depends only on
    what [P] compares. *)
Definition outcome_rel {S A} (R : relation S) : relation (outcome S A) :=
  fun o1 o2 =>
    match o1, o2 with
    | Ok a1 s1, Ok a2 s2 => a1 = a2 /\ R s1 s2
    | Fault f1 _, Fault f2 _ => f1 = f2
    | _, _ => False
    end.

(** ** Relations that every step of a run respects.

    [Steps R m]: whatever [m] does from a state [s], faulting or not, the
    state it ends in is related to [s] by [R].  With [R] a preorder this is
    how facts that hold along a whole run are stated once per statement and
    derived for the programs built from them: a field the statement leaves
    alone ([unchanged f]), a trace that only grows, a clock that only
    advances. *)
Class Steps {S A} (R : relation S) (m : prog S A) : Prop :=
  steps : forall s, R s (final (m s)).
#[global] Hint Mode Steps + + + + : typeclass_instances.

(** [unchanged f]: the relation of a step that leaves [f] alone. *)
Definition unchanged {S B} (f : S -> B) : relation S := fun s s' => f s' = f s.

(** Two relations at once. *)
Definition both {S} (R1 R2 : relation S) : relation S := fun s s' => R1 s s' /\ R2 s s'.

Create HintDb prog discriminated.
Create Rewrite HintDb prog_rw.

(** ** Equations of the monad. *)

Section Monad.
Context {St : Type}.
Implicit Types s : St.

Lemma bind_ret_l {A B} (a : A) (k : A -> prog St B) s : bind (ret a) k s = k a s.
Proof. reflexivity. Qed.

Lemma bind_ret_r {A} (m : prog St A) s : bind m ret s = m s.
Proof. unfold bind, ret. by destruct (m s). Qed.

Lemma bind_assoc {A B C} (m : prog St A) (k : A -> prog St B) (h : B -> prog St C) s :
  bind (bind m k) h s = bind m (fun a => bind (k a) h) s.
Proof. unfold bind. by destruct (m s). Qed.

Lemma bind_Ok {A B} (m : prog St A) (k : A -> prog St B) s a s' :
  m s = Ok a s' -> bind m k s = k a s'.
Proof. unfold bind. by intros ->. Qed.

Lemma bind_Fault {A B} (m : prog St A) (k : A -> prog St B) s f s' :
  m s = Fault f s' -> bind m k s = Fault f s'.
Proof. unfold bind. by intros ->. Qed.

Lemma bind_Ok_inv {A B} (m : prog St A) (k : A -> prog St B) s b s2 :
  bind m k s = Ok b s2 -> exists a s1, m s = Ok a s1 /\ k a s1 = Ok b s2.
Proof. unfold bind. destruct (m s); [eauto | done]. Qed.

(** ** Rules of [wp]. *)

Lemma wp_ret {A} (a : A) (Q : A -> St -> Prop) s : Q a s -> wp (ret a) Q s.
Proof. done. Qed.

Lemma wp_bind {A B} (m : prog St A) (k : A -> prog St B) (Q : B -> St -> Prop) s :
  wp m (fun a => wp (k a) Q) s -> wp (bind m k) Q s.
Proof. unfold wp, bind. by destruct (m s). Qed.

Lemma wp_bind_inv {A B} (m : prog St A) (k : A -> prog St B) (Q : B -> St -> Prop) s :
  wp (bind m k) Q s -> wp m (fun a => wp (k a) Q) s.
Proof. unfold wp, bind. by destruct (m s). Qed.

Lemma wp_gets {A} (f : St -> A) (Q : A -> St -> Prop) s : Q (f s) s -> wp (gets f) Q s.
Proof. done. Qed.

Lemma wp_modify (f : St -> St) (Q : unit -> St -> Prop) s : Q tt (f s) -> wp (modify f) Q s.
Proof. done. Qed.

Lemma wp_mono {A} (m : prog St A) (Q Q' : A -> St -> Prop) s :
  (forall a s', Q a s' -> Q' a s') -> wp m Q s -> wp m Q' s.
Proof. unfold wp. destruct (m s); eauto. Qed.

Lemma wp_conj {A} (m : prog St A) (Q Q' : A -> St -> Prop) s :
  wp m Q s -> wp m Q' s -> wp m (fun a s' => Q a s' /\ Q' a s') s.
Proof. unfold wp. by destruct (m s). Qed.

Lemma wp_Ok {A} (m : prog St A) (Q : A -> St -> Prop) s :
  wp m Q s <-> exists a s', m s = Ok a s' /\ Q a s'.
Proof.
  unfold wp. destruct (m s) as [a s'|f s']; split; try done.
  - eauto.
  - by intros (? & ? & [= <- <-] & ?).
  - by intros (? & ? & ? & ?).
Qed.

Lemma wp_is_ok {A} (m : prog St A) (Q : A -> St -> Prop) s :
  wp m Q s -> is_ok (m s) = true.
Proof. unfold wp. by destruct (m s). Qed.

Lemma wp_final {A} (m : prog St A) (Q : A -> St -> Prop) s :
  wp m Q s -> exists a, Q a (final (m s)).
Proof. unfold wp. destruct (m s); [eauto | done]. Qed.

Lemma wp_wlp {A} (m : prog St A) (Q : A -> St -> Prop) s : wp m Q s -> wlp m Q s.
Proof. unfold wp, wlp. by destruct (m s). Qed.

Lemma wp_wlp_conj {A} (m : prog St A) (Q Q' : A -> St -> Prop) s :
  wp m Q s -> wlp m Q' s -> wp m (fun a s' => Q a s' /\ Q' a s') s.
Proof. unfold wp, wlp. by destruct (m s). Qed.

Lemma wlp_bind {A B} (m : prog St A) (k : A -> prog St B) (Q : B -> St -> Prop) s :
  wlp m (fun a => wlp (k a) Q) s -> wlp (bind m k) Q s.
Proof. unfold wlp, bind. by destruct (m s). Qed.

Lemma wlp_mono {A} (m : prog St A) (Q Q' : A -> St -> Prop) s :
  (forall a s', Q a s' -> Q' a s') -> wlp m Q s -> wlp m Q' s.
Proof. unfold wlp. destruct (m s); eauto. Qed.

(** A run faults when its first part does, or when its first part succeeds
    and the rest faults. *)
Lemma faults_bind_fault {A B} (m : prog St A) (k : A -> prog St B) f P s :
  faults m f P s -> faults (bind m k) f P s.
Proof. unfold faults, bind. by destruct (m s). Qed.

Lemma faults_bind_ok {A B} (m : prog St A) (k : A -> prog St B) f P s :
  wp m (fun a s' => faults (k a) f P s') s -> faults (bind m k) f P s.
Proof. unfold wp, faults, bind. by destruct (m s). Qed.

Lemma faults_mono {A} (m : prog St A) f (P P' : St -> Prop) s :
  (forall s', P s' -> P' s') -> faults m f P s -> faults m f P' s.
Proof. unfold faults. destruct (m s); [done|]. intros HP [-> ?]. eauto. Qed.

Lemma faults_fail {A} f (P : St -> Prop) s : P s -> faults (fail (A:=A) f) f P s.
Proof. done. Qed.

(** A fault of the first statement is the fault of the sequence. *)
Lemma fault_of_bind {A B} (m : prog St A) (k : A -> prog St B) s :
  is_ok (m s) = false -> fault_of (bind m k s) = fault_of (m s).
Proof. unfold bind. by destruct (m s). Qed.

Lemma wp_fault_of {A} (m : prog St A) (Q : A -> St -> Prop) s :
  wp m Q s -> fault_of (m s) = None.
Proof. unfold wp. by destruct (m s). Qed.

Lemma faults_fault_of {A} (m : prog St A) f P s :
  faults m f P s -> fault_of (m s) = Some f /\ P (final (m s)).
Proof. unfold faults. destruct (m s); [done|]. by intros [-> ?]. Qed.

(** The invariant rule of the counted loop. *)
Lemma wp_for_loop (I : Z -> St -> Prop) (body : Z -> prog St unit) n i s :
  I i s ->
  (forall j s', i <= j < i + Z.of_nat n -> I j s' -> wp (body j) (fun _ => I (j + 1)) s') ->
  wp (for_loop body i n) (fun _ => I (i + Z.of_nat n)) s.
Proof.
  revert i s. induction n as [|n IH]; intros i s Hi Hbody.
  - cbn. by rewrite Z.add_0_r.
  - cbn [for_loop]. apply wp_bind.
    eapply wp_mono; [|apply Hbody; [lia | done]].
    intros [] s' Hs'. cbn beta.
    replace (i + Z.of_nat (S n)) with ((i + 1) + Z.of_nat n) by lia.
    apply IH; [done|]. intros j s'' Hj. apply Hbody. lia.
Qed.

Lemma wp_for_lt (I : Z -> St -> Prop) (body : Z -> prog St unit) bound s :
  0 <= bound ->
  I 0 s ->
  (forall j s', 0 <= j < bound -> I j s' -> wp (body j) (fun _ => I (j + 1)) s') ->
  wp (for_lt bound body) (fun _ => I bound) s.
Proof.
  intros Hb H0 Hbody. unfold for_lt.
  pose proof (wp_for_loop I body (Z.to_nat bound) 0 s H0) as H.
  rewrite Z.add_0_l, Z2Nat.id in H by done.
  apply H. intros j s' Hj. apply Hbody. lia.
Qed.

Lemma for_lt_nonpos (body : Z -> prog St unit) bound s :
  bound <= 0 -> for_lt bound body s = Ok tt s.
Proof. intros Hb. unfold for_lt. by replace (Z.to_nat bound) with O by lia. Qed.

(** The invariant rule of [repeat_n]: the invariant is indexed by the number
    of iterations done. *)
Lemma wp_repeat_n (I : nat -> St -> Prop) (body : prog St unit) n s :
  I O s ->
  (forall k s', (k < n)%nat -> I k s' -> wp body (fun _ => I (S k)) s') ->
  wp (repeat_n n body) (fun _ => I n) s.
Proof.
  revert I s. induction n as [|n IH]; intros I s H0 Hbody; [done|].
  cbn [repeat_n]. apply wp_bind.
  eapply wp_mono; [|apply (Hbody O); [lia | done]].
  intros [] s' Hs'. cbn beta.
  apply (IH (fun k => I (S k))); [done|].
  intros k s'' Hk. apply Hbody. lia.
Qed.

Lemma repeat_n_add (body : prog St unit) n m s :
  repeat_n (n + m) body s = bind (repeat_n n body) (fun _ => repeat_n m body) s.
Proof.
  revert s. induction n as [|n IH]; intros s; [done|].
  cbn [repeat_n Nat.add]. rewrite bind_assoc.
  unfold bind at 1 2. destruct (body s); [apply IH | done].
Qed.

(** A [while] loop whose condition is false does nothing; one whose
    condition holds and has fuel left runs its body once more. *)
Lemma while_loop_false fuel (cond : St -> bool) body s :
  cond s = false -> while_loop fuel cond body s = Ok tt s.
Proof. destruct fuel; cbn; by intros ->. Qed.

Lemma while_loop_true fuel (cond : St -> bool) body s :
  cond s = true ->
  while_loop (S fuel) cond body s = bind body (fun _ => while_loop fuel cond body) s.
Proof. cbn. by intros ->. Qed.

(** The same for what the loop ensures if it ends: out of fuel it does
    not end. *)
Lemma wlp_while_loop_false fuel (cond : St -> bool) body (Q : unit -> St -> Prop) s :
  cond s = false -> Q tt s -> wlp (while_loop fuel cond body) Q s.
Proof. intros Hc HQ. unfold wlp. by rewrite while_loop_false. Qed.

Lemma wlp_while_loop_true fuel (cond : St -> bool) body (Q : unit -> St -> Prop) s :
  cond s = true ->
  (forall fuel', fuel = S fuel' ->
     wlp body (fun _ => wlp (while_loop fuel' cond body) Q) s) ->
  wlp (while_loop fuel cond body) Q s.
Proof.
  intros Hc HQ. destruct fuel as [|fuel']; unfold wlp at 1.
  - cbn. by rewrite Hc.
  - rewrite while_loop_true by done. by apply wlp_bind, HQ.
Qed.

End Monad.

(** ** [Steps] through the constructions of the monad. *)

#[export] Instance unchanged_preorder {St B} (f : St -> B) : PreOrder (unchanged f).
Proof. split; [done|]. unfold unchanged. intros x y z -> ->. done. Qed.

Section Steps.
Context {St : Type} (R : relation St) `{!PreOrder R}.

#[export] Instance steps_ret {A} (a : A) : Steps R (ret a).
Proof. intros s. cbn. reflexivity. Qed.

#[export] Instance steps_fail {A} e : Steps R (fail (A:=A) e).
Proof. intros s. cbn. reflexivity. Qed.

#[export] Instance steps_gets {A} (g : St -> A) : Steps R (gets g).
Proof. intros s. cbn. reflexivity. Qed.

#[export] Instance steps_bind {A C} (m : prog St A) (k : A -> prog St C) :
  Steps R m -> (forall a, Steps R (k a)) -> Steps R (bind m k).
Proof.
  intros Hm Hk s. unfold bind. specialize (Hm s).
  destruct (m s) as [a s'|e s']; cbn in *; [|done].
  etrans; [done | apply Hk].
Qed.

#[export] Instance steps_for_loop (body : Z -> prog St unit) i n :
  (forall j, Steps R (body j)) -> Steps R (for_loop body i n).
Proof. intros Hb. revert i. induction n; intros i; cbn; apply _. Qed.

#[export] Instance steps_for_lt (body : Z -> prog St unit) n :
  (forall j, Steps R (body j)) -> Steps R (for_lt n body).
Proof. intros. unfold for_lt. apply _. Qed.

#[export] Instance steps_repeat_n (body : prog St unit) n :
  Steps R body -> Steps R (repeat_n n body).
Proof. intros Hb. induction n; cbn; apply _. Qed.

#[export] Instance steps_while_loop fuel (cond : St -> bool) (body : prog St unit) :
  Steps R body -> Steps R (while_loop fuel cond body).
Proof.
  intros Hb. induction fuel as [|fuel IH]; intros s; cbn;
    destruct (cond s); cbn; try reflexivity.
  by apply (steps_bind body).
Qed.

#[export] Instance steps_load_at {A} name (get : St -> list A) i :
  Steps R (load_at name get i).
Proof.
  intros s. unfold load_at. destruct (index_ok _ _); cbn; [|reflexivity].
  destruct (_ !! _); cbn; reflexivity.
Qed.

#[export] Instance both_preorder (R' : relation St) `{!PreOrder R'} : PreOrder (both R R').
Proof.
  split; [by split|]. intros x y z [? ?] [? ?]. split; by etrans.
Qed.

(** What holds after every step holds at the end of a run that succeeds. *)
Lemma steps_Ok {A} (m : prog St A) `{!Steps R m} s a s' : m s = Ok a s' -> R s s'.
Proof. intros Hm. pose proof (steps (R:=R) (m:=m) s) as Hs. by rewrite Hm in Hs. Qed.

Lemma steps_wp {A} (m : prog St A) `{!Steps R m} (Q : A -> St -> Prop) s :
  wp m Q s -> wp m (fun a s' => Q a s' /\ R s s') s.
Proof.
  unfold wp. pose proof (steps (R:=R) (m:=m) s) as Hs. by destruct (m s).
Qed.

Lemma steps_wlp {A} (m : prog St A) `{!Steps R m} s : wlp m (fun _ s' => R s s') s.
Proof.
  unfold wlp. pose proof (steps (R:=R) (m:=m) s) as Hs. by destruct (m s).
Qed.

(** Past a statement that respects [R]. *)
Lemma wlp_bind_steps {A B} (m : prog St A) `{!Steps R m} (k : A -> prog St B)
    (Q : B -> St -> Prop) s :
  (forall a s', R s s' -> wlp (k a) Q s') -> wlp (bind m k) Q s.
Proof.
  intros Hk. apply wlp_bind. eapply wlp_mono; [|by apply steps_wlp]. cbn. eauto.
Qed.

End Steps.

#[export] Instance steps_both {St A} (R1 R2 : relation St) (m : prog St A) :
  Steps R1 m -> Steps R2 m -> Steps (both R1 R2) m.
Proof. intros H1 H2 s. split; apply steps. Qed.

(** ** Two runs through the constructions of the monad. *)

Section Lockstep.
Context {St : Type}.
Implicit Types P Q R : relation St.

Lemma outcome_rel_fault_of {A} R (o1 o2 : outcome St A) :
  outcome_rel R o1 o2 -> fault_of o1 = fault_of o2.
Proof. destruct o1, o2; cbn; try done. by intros ->. Qed.

#[export] Instance ret_proper {A} R (a : A) : Proper (R ==> outcome_rel R) (ret a).
Proof. by intros s1 s2 Hs. Qed.

#[export] Instance fail_proper {A} P R f : Proper (P ==> outcome_rel R) (fail (A:=A) f).
Proof. by intros s1 s2 Hs. Qed.

Lemma bind_proper {A B} P Q R (m : prog St A) (k : A -> prog St B) :
  Proper (P ==> outcome_rel Q) m -> (forall a, Proper (Q ==> outcome_rel R) (k a)) ->
  Proper (P ==> outcome_rel R) (bind m k).
Proof.
  intros Hm Hk s1 s2 Hs. specialize (Hm s1 s2 Hs). unfold bind.
  destruct (m s1) as [a1 s1'|], (m s2) as [a2 s2'|]; try done.
  destruct Hm as [<- Hs']. by apply Hk.
Qed.

Lemma gets_proper {A} R (f : St -> A) :
  Proper (R ==> eq) f -> Proper (R ==> outcome_rel R) (gets f).
Proof. intros Hf s1 s2 Hs. split; [by apply Hf | done]. Qed.

Lemma modify_proper P R (f : St -> St) :
  Proper (P ==> R) f -> Proper (P ==> outcome_rel R) (modify f).
Proof. intros Hf s1 s2 Hs. split; [done | by apply Hf]. Qed.

Lemma while_loop_proper R fuel (cond : St -> bool) body :
  Proper (R ==> eq) cond -> Proper (R ==> outcome_rel R) body ->
  Proper (R ==> outcome_rel R) (while_loop fuel cond body).
Proof.
  intros Hc Hb. induction fuel as [|fuel IH]; intros s1 s2 Hs; cbn;
    rewrite <- (Hc s1 s2 Hs); destruct (cond s1); try done.
  by apply (bind_proper R R R).
Qed.

Lemma store_at_proper {A} P R name (get : St -> list A) set i x :
  Proper (P ==> eq) get -> (forall l, Proper (P ==> R) (set l)) ->
  Proper (P ==> outcome_rel R) (store_at name get set i x).
Proof.
  intros Hg Hset s1 s2 Hs. unfold store_at. rewrite <- (Hg s1 s2 Hs).
  destruct (index_ok _ _); [|done]. split; [done | by apply Hset].
Qed.

End Lockstep.

(** A statement split by a test, or that names an intermediate value. *)
#[export] Hint Extern 5 (Steps _ (match ?x with _ => _ end)) =>
  destruct x : typeclass_instances.
#[export] Hint Extern 5 (Steps _ (let _ := _ in _)) =>
  cbv zeta : typeclass_instances.

(** The head constant of a term. *)
Ltac head_of t := lazymatch t with ?f _ => head_of f | _ => t end.

#[export] Hint Resolve wp_ret wp_gets wp_modify : prog.
#[export] Hint Rewrite @bind_ret_l @bind_assoc : prog_rw.

(** ** Tactics. *)

(** [wp_step] peels the first statement of a [wp] goal. *)
Ltac wp_step :=
  lazymatch goal with
  | |- wp (bind _ _) _ _ => apply wp_bind
  | |- wp (ret _) _ _ => apply wp_ret
  | |- wp (gets _) _ _ => apply wp_gets
  | |- wp (modify _) _ _ => apply wp_modify
  end.

Ltac wp_steps := repeat (wp_step; cbn beta).

(** Decide a closed decidable proposition by evaluation. *)
Ltac by_compute := apply (bool_decide_unpack _); vm_compute; exact I.

(** ** Lists as C arrays. *)

Section Arrays.
Context {A : Type}.
Implicit Types (l : list A) (i : nat).

Lemma lookup_replicate_lt (n i : nat) (x : A) :
  (i < n)%nat -> replicate n x !! i = Some x.
Proof. intros. by apply lookup_replicate_2. Qed.

Lemma take_insert_snoc l i (x : A) :
  (i < length l)%nat -> take (S i) (<[i:=x]> l) = take i l ++ [x].
Proof.
  revert i. induction l as [|y l IH]; intros [|i] Hi; cbn in *; try lia; [done|].
  f_equal. apply IH. lia.
Qed.

Lemma index_ok_true l (i : Z) :
  index_ok l i = true <-> 0 <= i < Z.of_nat (length l).
Proof. unfold index_ok. rewrite andb_true_iff, Z.leb_le, Z.ltb_lt. done. Qed.

Lemma index_ok_false l (i : Z) :
  index_ok l i = false <-> i < 0 \/ Z.of_nat (length l) <= i.
Proof.
  unfold index_ok. rewrite andb_false_iff, Z.leb_gt, Z.ltb_ge. done.
Qed.

Lemma index_ok_lookup l (i : Z) :
  index_ok l i = true -> is_Some (l !! Z.to_nat i).
Proof. rewrite index_ok_true. intros ?. apply lookup_lt_is_Some. lia. Qed.

Context {St : Type}.
Implicit Types s : St.

Lemma load_at_ok name (get : St -> list A) (i : Z) s x :
  0 <= i -> get s !! Z.to_nat i = Some x -> load_at name get i s = Ok x s.
Proof.
  intros Hi Hx. unfold load_at.
  assert (index_ok (get s) i = true) as ->; [|by rewrite Hx].
  apply index_ok_true. apply lookup_lt_Some in Hx. lia.
Qed.

Lemma load_at_oob name (get : St -> list A) (i : Z) s :
  index_ok (get s) i = false -> load_at name get i s = Fault (OutOfBounds name i) s.
Proof. unfold load_at. by intros ->. Qed.

Lemma store_at_ok name (get : St -> list A) set (i : Z) x s :
  index_ok (get s) i = true ->
  store_at name get set i x s = Ok tt (set (<[Z.to_nat i := x]> (get s)) s).
Proof. unfold store_at. by intros ->. Qed.

Lemma store_at_oob name (get : St -> list A) set (i : Z) x s :
  index_ok (get s) i = false ->
  store_at name get set i x s = Fault (OutOfBounds name i) s.
Proof. unfold store_at. by intros ->. Qed.

Lemma wp_load_at name (get : St -> list A) (i : Z) (Q : A -> St -> Prop) s x :
  0 <= i -> get s !! Z.to_nat i = Some x -> Q x s -> wp (load_at name get i) Q s.
Proof. intros Hi Hx HQ. unfold wp. by rewrite (load_at_ok _ _ _ _ x). Qed.

Lemma wp_store_at name (get : St -> list A) set (i : Z) x (Q : unit -> St -> Prop) s :
  0 <= i < Z.of_nat (length (get s)) ->
  Q tt (set (<[Z.to_nat i := x]> (get s)) s) ->
  wp (store_at name get set i x) Q s.
Proof.
  intros Hi HQ. unfold wp. rewrite store_at_ok; [done|]. by apply index_ok_true.
Qed.

End Arrays.
