(* ===== verification/Machine.v ===== *)
(** * Machine: the integers of the target

    [app_main] counts with C [int]s (32 bits, signed: [num_devices],
    [sample_count], [crc_errors[i]], the loop indices) and measures time with
    [TickType_t] (32 bits, unsigned).  An integer is a [Z]; the arithmetic of
    each type is written out here: unsigned subtraction wraps modulo 2^32,
    a signed increment past [INT_MAX] is undefined behaviour and is the fault
    [SignedOverflow].  The lemmas are the facts about wrap-around that the
    timing theorems rest on. *)

From Stdlib Require Import ZArith Lia String.
From stdpp Require Import prelude strings.
From S2P Require Import Prelude.

#[local] Open Scope Z_scope.
#[local] Open Scope prog_scope.

(** ** 32-bit signed [int]. *)

Definition INT_MAX : Z := 2147483647.
Definition INT_MIN : Z := -2147483648.

Definition in_int (z : Z) : Prop := INT_MIN <= z <= INT_MAX.

(** [++x] on an [int]: undefined when [x] is [INT_MAX]. *)
Definition int_incr {S} (what : string) (x : Z) : prog S Z :=
  if x <? INT_MAX then ret (x + 1) else fail (SignedOverflow what).

(** ** 32-bit unsigned [TickType_t]. *)

Definition UINT32_MOD : Z := 4294967296.

Definition in_u32 (z : Z) : Prop := 0 <= z < UINT32_MOD.

(** Conversion to [uint32_t]. *)
Definition u32 (z : Z) : Z := z mod UINT32_MOD.

(** [a - b] on [uint32_t]. *)
Definition u32_sub (a b : Z) : Z := u32 (a - b).

(** [a / b] on [uint32_t], for [b] not zero. *)
Definition u32_div (a b : Z) : Z := u32 a / u32 b.

(** [a < b] on [uint32_t]. *)
Definition u32_ltb (a b : Z) : bool := u32 a <? u32 b.

(** ** Bytes. *)

Definition in_u8 (z : Z) : Prop := 0 <= z < 256.

#[export] Instance in_int_dec z : Decision (in_int z).
Proof. unfold in_int. apply _. Defined.
#[export] Instance in_u32_dec z : Decision (in_u32 z).
Proof. unfold in_u32. apply _. Defined.
#[export] Instance in_u8_dec z : Decision (in_u8 z).
Proof. unfold in_u8. apply _. Defined.

(** ** Facts. *)

Lemma UINT32_MOD_pos : 0 < UINT32_MOD.
Proof. done. Qed.

Lemma u32_range z : in_u32 (u32 z).
Proof. apply Z.mod_pos_bound, UINT32_MOD_pos. Qed.

Lemma u32_small z : in_u32 z -> u32 z = z.
Proof. apply Z.mod_small. Qed.

Lemma u32_idemp z : u32 (u32 z) = u32 z.
Proof. apply u32_small, u32_range. Qed.

(** Two integers with the same residue that are less than 2^32 apart are
    equal: the uniqueness half of every wrap-around argument. *)
Lemma u32_inj_near a b : u32 a = u32 b -> - UINT32_MOD < a - b < UINT32_MOD -> a = b.
Proof.
  unfold u32. intros Heq Hnear.
  pose proof (Z.div_mod a UINT32_MOD) as Ha.
  pose proof (Z.div_mod b UINT32_MOD) as Hb.
  unfold UINT32_MOD in *. nia.
Qed.

Lemma u32_sub_u32 a b : u32_sub (u32 a) (u32 b) = u32 (a - b).
Proof. unfold u32_sub, u32. by rewrite <- Zminus_mod. Qed.

Lemma u32_sub_range a b : in_u32 (u32_sub a b).
Proof. apply u32_range. Qed.

(** The difference of two readings of a tick counter that wrapped at most
    once between them is the time that passed. *)
Lemma u32_sub_elapsed t0 t1 :
  t0 <= t1 < t0 + UINT32_MOD -> u32_sub (u32 t1) (u32 t0) = t1 - t0.
Proof. intros H. rewrite u32_sub_u32. apply u32_small. unfold in_u32. lia. Qed.

(** Whatever the distance, the difference never exceeds the time passed. *)
Lemma u32_sub_le t0 t1 : t0 <= t1 -> u32_sub (u32 t1) (u32 t0) <= t1 - t0.
Proof.
  intros H. rewrite u32_sub_u32. unfold u32. apply Z.mod_le; [lia | apply UINT32_MOD_pos].
Qed.

(** [a + (p - a) mod 2^32] is [p] plus a whole number of wraps, and at least
    [p] when [a] is not negative and [p] is a [uint32_t]. *)
Lemma u32_sub_makes_up p a :
  in_u32 p -> 0 <= a -> p <= a + u32_sub p (u32 a).
Proof.
  intros Hp Ha. unfold u32_sub.
  replace (u32 (p - u32 a)) with (u32 (p - a)).
  2:{ unfold u32. by rewrite Zminus_mod_idemp_r. }
  unfold u32, in_u32, UINT32_MOD in *.
  pose proof (Z.div_mod (p - a) 4294967296) as Hdm.
  pose proof (Z.mod_pos_bound (p - a) 4294967296) as Hb.
  assert ((p - a) / 4294967296 < 1) by (apply Z.div_lt_upper_bound; lia).
  nia.
Qed.

Lemma u32_div_small a b : in_u32 a -> in_u32 b -> u32_div a b = a / b.
Proof. intros. unfold u32_div. by rewrite !u32_small. Qed.

Lemma u32_div_range a b : 0 < u32 b -> in_u32 (u32_div a b).
Proof.
  intros Hb. unfold u32_div, in_u32. pose proof (u32_range a) as [H0 H1].
  split; [apply Z.div_pos; lia|].
  apply Z.div_lt_upper_bound; [done|]. unfold UINT32_MOD in *. nia.
Qed.

Lemma u32_ltb_lt a b : u32_ltb a b = true <-> u32 a < u32 b.
Proof. apply Z.ltb_lt. Qed.

Lemma u32_ltb_ge a b : u32_ltb a b = false <-> u32 b <= u32 a.
Proof. apply Z.ltb_ge. Qed.

Section IntIncr.
Context {St : Type}.
Implicit Types s : St.

Lemma int_incr_ok what x s : x < INT_MAX -> int_incr what x s = Ok (x + 1) s.
Proof. intros H. unfold int_incr. by destruct (Z.ltb_spec x INT_MAX); try lia. Qed.

Lemma int_incr_overflow what x s :
  INT_MAX <= x -> int_incr what x s = Fault (SignedOverflow what) s.
Proof. intros H. unfold int_incr. by destruct (Z.ltb_spec x INT_MAX); try lia. Qed.

Lemma wp_int_incr what x (Q : Z -> St -> Prop) s :
  x < INT_MAX -> Q (x + 1) s -> wp (int_incr what x) Q s.
Proof. intros H HQ. unfold wp. by rewrite int_incr_ok. Qed.

Lemma int_incr_proper (R : relation St) what x :
  Proper (R ==> outcome_rel R) (int_incr what x).
Proof. unfold int_incr. destruct (_ <? _); apply _. Qed.

#[export] Instance steps_int_incr (R : relation St) `{!Reflexive R} what x :
  Steps R (int_incr what x).
Proof. intros s. unfold int_incr. destruct (_ <? _); cbn; reflexivity. Qed.

End IntIncr.

#[export] Hint Resolve u32_range u32_sub_range : prog.
