(* ===== verification/OneWire.v ===== *)
(** * OneWire: the 1-Wire bus library as [app_main] sees it

    esp32-owb is not part of [src/]: the program only calls it.  This file
    holds the data the program reads and writes itself (the ROM code with its
    three fields, the search cursor whose [rom_code] the search loop copies),
    the interface [Owb] of the six calls the program makes, and the
    ROM Enumerator of the specification (section 4.2) as a function of the
    answers of the search, with its two error cases. *)

From Stdlib Require Import ZArith Lia String.
From stdpp Require Import prelude strings.
From S2P Require Import Prelude Machine.

#[local] Open Scope Z_scope.

(** ** ROM codes.

    [OneWireBus_ROMCode] is a union of [bytes[8]] and the struct [fields] of
    three byte arrays: [family[1]], [serial_number[6]], [crc[1]], in bus
    order (least significant byte first). *)

Record OneWireBus_ROMCode : Type := mkROMCode {
  family : Z;
  serial_number : list Z;
  crc : Z;
}.

#[export] Instance ROMCode_eq_dec : EqDecision OneWireBus_ROMCode.
Proof. solve_decision. Defined.

(** [OneWireBus_ROMCode r = {0}]. *)
Definition rom_zero : OneWireBus_ROMCode := mkROMCode 0 (replicate 6 0) 0.

(** The [bytes] view of the union. *)
Definition rom_bytes (r : OneWireBus_ROMCode) : list Z :=
  family r :: serial_number r ++ [crc r].

(** A ROM code is well formed when it is eight bytes. *)
Definition rom_wf (r : OneWireBus_ROMCode) : Prop :=
  in_u8 (family r) /\ length (serial_number r) = 6%nat /\
  Forall in_u8 (serial_number r) /\ in_u8 (crc r).

#[export] Instance rom_wf_dec r : Decision (rom_wf r).
Proof. unfold rom_wf. apply _. Defined.

(** ** The search cursor. *)

Record OneWireBus_SearchState : Type := mkSearchState {
  rom_code : OneWireBus_ROMCode;
  last_discrepancy : Z;
  last_family_discrepancy : Z;
  last_device_flag : bool;
}.

(** [OneWireBus_SearchState s = {0}]. *)
Definition search_state_zero : OneWireBus_SearchState :=
  mkSearchState rom_zero 0 0 false.

(** ** The bus handle: what [OneWireBus *] points to lives in the world;
    the program holds a reference. *)

Inductive OneWireBus : Type := BusRef (id : Z).

#[export] Instance OneWireBus_eq_dec : EqDecision OneWireBus.
Proof. solve_decision. Defined.

(** The channels of the RMT peripheral that carries the bus. *)
Inductive rmt_channel_t : Type :=
| RMT_CHANNEL_0 | RMT_CHANNEL_1 | RMT_CHANNEL_2 | RMT_CHANNEL_3
| RMT_CHANNEL_4 | RMT_CHANNEL_5 | RMT_CHANNEL_6 | RMT_CHANNEL_7.

#[export] Instance rmt_channel_t_eq_dec : EqDecision rmt_channel_t.
Proof. solve_decision. Defined.

(** ** The calls of esp32-owb, over a world [W]. *)

Class Owb (W : Type) : Type := {
  (** [owb_rmt_initialize(&info, gpio_num, tx_channel, rx_channel)] *)
  owb_rmt_initialize : Z -> rmt_channel_t -> rmt_channel_t -> W -> OneWireBus * W;
  (** [owb_use_crc(bus, use_crc)] *)
  owb_use_crc : OneWireBus -> bool -> W -> W;
  (** [owb_search_first(bus, &state, &found)] *)
  owb_search_first :
    OneWireBus -> OneWireBus_SearchState -> W -> OneWireBus_SearchState * bool * W;
  (** [owb_search_next(bus, &state, &found)] *)
  owb_search_next :
    OneWireBus -> OneWireBus_SearchState -> W -> OneWireBus_SearchState * bool * W;
  (** [owb_string_from_rom_code(rom_code, buffer, len)]: the text put in
      [buffer], without its terminator. *)
  owb_string_from_rom_code : OneWireBus_ROMCode -> Z -> string;
  (** [owb_verify_rom(bus, rom_code, &is_present)] *)
  owb_verify_rom : OneWireBus -> OneWireBus_ROMCode -> W -> bool * W;
}.

(** What the library owes the program: the text fits the buffer it is given,
    terminator included. *)
Class OwbLaws (W : Type) `{Owb W} : Prop := {
  owb_string_fits : forall r len,
    0 < len -> Z.of_nat (String.length (owb_string_from_rom_code r len)) < len;
}.

(** ** The ROM Enumerator of the specification.

    [enumerate max answers]: walk the bus until the search answers "not
    found", [answers] being the ROM codes it answered with; more than [max]
    devices is [TooManyDevices], the same ROM code twice is
    [EnumerationError]. *)

Inductive enum_error : Type := TooManyDevices | EnumerationError.

#[export] Instance enum_error_eq_dec : EqDecision enum_error.
Proof. solve_decision. Defined.

Definition enumerate (max : nat) (answers : list OneWireBus_ROMCode)
  : enum_error + list OneWireBus_ROMCode :=
  if decide (max < length answers)%nat then inl TooManyDevices
  else if decide (NoDup answers) then inr answers
  else inl EnumerationError.

(** ** Facts. *)

Lemma rom_bytes_length r :
  length (serial_number r) = 6%nat -> length (rom_bytes r) = 8%nat.
Proof. intros H. unfold rom_bytes. cbn. rewrite length_app, H. done. Qed.

Lemma rom_zero_wf : rom_wf rom_zero.
Proof. apply (bool_decide_unpack _). by vm_compute. Qed.

Lemma rom_bytes_inj r1 r2 :
  length (serial_number r1) = length (serial_number r2) ->
  rom_bytes r1 = rom_bytes r2 -> r1 = r2.
Proof.
  destruct r1 as [f1 s1 c1], r2 as [f2 s2 c2]. unfold rom_bytes. cbn.
  intros Hlen [= -> Happ]. apply app_inj_1 in Happ as [-> [= ->]]; done.
Qed.

Lemma enumerate_ok max answers l :
  enumerate max answers = inr l <->
  l = answers /\ (length answers <= max)%nat /\ NoDup answers.
Proof.
  unfold enumerate.
  destruct (decide (max < length answers)%nat) as [Hlt|Hge].
  { split; [done|]. intros (_ & ? & _). lia. }
  destruct (decide (NoDup answers)) as [Hnd|Hd].
  - split; [intros [= <-]; split_and!; [done|lia|done] | by intros (-> & _ & _)].
  - split; [done | by intros (_ & _ & ?)].
Qed.

Lemma enumerate_too_many max answers :
  enumerate max answers = inl TooManyDevices <-> (max < length answers)%nat.
Proof. unfold enumerate. repeat case_decide; split; done || lia. Qed.
