(* ===== verification/Ds18b20.v ===== *)
(** * Ds18b20: the thermometer library as [app_main] sees it

    esp32-ds18b20 is not part of [src/].  This file holds the device handle
    of section 3 of the specification, the resolutions with their conversion
    times, the interface [Ds18b20] of the calls the program makes, and the
    contract [Ds18b20Laws] that section 4.3 gives them.  A temperature is a
    fixed-point number: the [float] a call returns, counted in sixteenths of
    a degree. *)

From Stdlib Require Import ZArith Lia String.
From stdpp Require Import prelude strings.
From S2P Require Import Prelude Machine OneWire.

#[local] Open Scope Z_scope.

(** ** Resolutions. *)

Inductive Resolution : Type :=
| DS18B20_RESOLUTION_9_BIT
| DS18B20_RESOLUTION_10_BIT
| DS18B20_RESOLUTION_11_BIT
| DS18B20_RESOLUTION_12_BIT.

#[export] Instance Resolution_eq_dec : EqDecision Resolution.
Proof. solve_decision. Defined.

Definition resolution_bits (r : Resolution) : Z :=
  match r with
  | DS18B20_RESOLUTION_9_BIT => 9
  | DS18B20_RESOLUTION_10_BIT => 10
  | DS18B20_RESOLUTION_11_BIT => 11
  | DS18B20_RESOLUTION_12_BIT => 12
  end.

(** Worst-case conversion time, in milliseconds. *)
Definition conversion_time_ms (r : Resolution) : Z :=
  match r with
  | DS18B20_RESOLUTION_9_BIT => 94
  | DS18B20_RESOLUTION_10_BIT => 188
  | DS18B20_RESOLUTION_11_BIT => 375
  | DS18B20_RESOLUTION_12_BIT => 750
  end.

(** ** Temperatures, in sixteenths of a degree Celsius. *)

Definition TEMP_MIN : Z := -55 * 16.
Definition TEMP_MAX : Z := 125 * 16.

Definition temp_legit (t : Z) : Prop := TEMP_MIN <= t <= TEMP_MAX.

#[export] Instance temp_legit_dec t : Decision (temp_legit t).
Proof. unfold temp_legit. apply _. Defined.

(** ** The device handle. *)

Record DS18B20_Info : Type := mkInfo {
  info_bus : option OneWireBus;
  info_rom_code : OneWireBus_ROMCode;
  info_solo : bool;
  info_resolution : Resolution;
  info_use_crc : bool;
}.

#[export] Instance DS18B20_Info_eq_dec : EqDecision DS18B20_Info.
Proof. solve_decision. Defined.

(** ** The calls of esp32-ds18b20, over a world [W]. *)

Class Ds18b20 (W : Type) : Type := {
  (** The [float] constant the program compares readings with. *)
  DS18B20_INVALID_READING : Z;
  (** [ds18b20_malloc()] *)
  ds18b20_malloc : W -> DS18B20_Info * W;
  (** [ds18b20_free(&info)] *)
  ds18b20_free : DS18B20_Info -> W -> W;
  (** [ds18b20_init(info, bus, rom_code)] *)
  ds18b20_init :
    DS18B20_Info -> OneWireBus -> OneWireBus_ROMCode -> W -> DS18B20_Info * W;
  (** [ds18b20_init_solo(info, bus)] *)
  ds18b20_init_solo : DS18B20_Info -> OneWireBus -> W -> DS18B20_Info * W;
  (** [ds18b20_use_crc(info, use_crc)] *)
  ds18b20_use_crc : DS18B20_Info -> bool -> W -> DS18B20_Info * W;
  (** [ds18b20_set_resolution(info, resolution)], with its success flag *)
  ds18b20_set_resolution :
    DS18B20_Info -> Resolution -> W -> bool * DS18B20_Info * W;
  (** [ds18b20_convert_all(bus)] *)
  ds18b20_convert_all : OneWireBus -> W -> W;
  (** [ds18b20_wait_for_conversion(info)] *)
  ds18b20_wait_for_conversion : DS18B20_Info -> W -> W;
  (** [ds18b20_read_temp(info)] *)
  ds18b20_read_temp : DS18B20_Info -> W -> Z * W;
}.

(** ** The contract of section 4.3. *)

Class Ds18b20Laws (W : Type) `{Ds18b20 W} : Prop := {
  (** [init] binds the handle to the bus and to one ROM code. *)
  init_binds : forall h bus rom w,
    let h' := (ds18b20_init h bus rom w).1 in
    info_bus h' = Some bus /\ info_rom_code h' = rom /\ info_solo h' = false;
  (** [init_solo] binds the handle to the bus in solo mode. *)
  init_solo_binds : forall h bus w,
    let h' := (ds18b20_init_solo h bus w).1 in
    info_bus h' = Some bus /\ info_solo h' = true;
  (** [use_crc] sets the flag and nothing else. *)
  use_crc_sets : forall h b w,
    let h' := (ds18b20_use_crc h b w).1 in
    info_use_crc h' = b /\ info_bus h' = info_bus h /\
    info_rom_code h' = info_rom_code h /\ info_solo h' = info_solo h /\
    info_resolution h' = info_resolution h;
  (** [set_resolution] changes the resolution only, and only on success. *)
  set_resolution_sets : forall h r w,
    let '(ok, h', _) := ds18b20_set_resolution h r w in
    info_resolution h' = (if ok then r else info_resolution h) /\
    info_bus h' = info_bus h /\ info_rom_code h' = info_rom_code h /\
    info_solo h' = info_solo h /\ info_use_crc h' = info_use_crc h;
  (** The sentinel is no legitimate reading. *)
  invalid_not_legit : ~ temp_legit DS18B20_INVALID_READING;
}.

(** ** Facts. *)

Lemma resolution_bits_range r : 9 <= resolution_bits r <= 12.
Proof. destruct r; cbn; lia. Qed.

Lemma conversion_time_ms_mono r1 r2 :
  resolution_bits r1 <= resolution_bits r2 ->
  conversion_time_ms r1 <= conversion_time_ms r2.
Proof. destruct r1, r2; cbn; lia. Qed.

Lemma conversion_time_ms_bound r : 94 <= conversion_time_ms r <= 750.
Proof. destruct r; cbn; lia. Qed.

(** The contract, for a call whose result is named. *)
Section Laws.
Context {W : Type} `{Ds18b20 W} `{!Ds18b20Laws W}.

Lemma init_binds_eq h bus rom (w : W) h' w' :
  ds18b20_init h bus rom w = (h', w') ->
  info_bus h' = Some bus /\ info_rom_code h' = rom /\ info_solo h' = false.
Proof. intros E. pose proof (init_binds h bus rom w) as L. by rewrite E in L. Qed.

Lemma init_solo_binds_eq h bus (w : W) h' w' :
  ds18b20_init_solo h bus w = (h', w') ->
  info_bus h' = Some bus /\ info_solo h' = true.
Proof. intros E. pose proof (init_solo_binds h bus w) as L. by rewrite E in L. Qed.

Lemma use_crc_sets_eq h b (w : W) h' w' :
  ds18b20_use_crc h b w = (h', w') ->
  info_use_crc h' = b /\ info_bus h' = info_bus h /\
  info_rom_code h' = info_rom_code h /\ info_solo h' = info_solo h /\
  info_resolution h' = info_resolution h.
Proof. intros E. pose proof (use_crc_sets h b w) as L. by rewrite E in L. Qed.

Lemma set_resolution_sets_eq h r (w : W) ok h' w' :
  ds18b20_set_resolution h r w = (ok, h', w') ->
  info_resolution h' = (if ok then r else info_resolution h) /\
  info_bus h' = info_bus h /\ info_rom_code h' = info_rom_code h /\
  info_solo h' = info_solo h /\ info_use_crc h' = info_use_crc h.
Proof. intros E. pose proof (set_resolution_sets h r w) as L. by rewrite E in L. Qed.

End Laws.
