(* ===== verification/Rtos.v ===== *)
(** * Rtos: FreeRTOS and stdio as [app_main] sees them

    The program reads the tick counter, sleeps, and prints.  A call of
    [printf] is kept as its format string and its arguments: the formatting
    itself is the C library's. *)

From Stdlib Require Import ZArith Lia String.
From stdpp Require Import prelude strings.
From S2P Require Import Prelude Machine.

#[local] Open Scope Z_scope.

(** An argument of [printf]: an [int] for [%d], a string for [%s], a
    [float] (in sixteenths) for [%.1f]. *)
Inductive PrintArg : Type :=
| PInt (z : Z)
| PStr (s : string)
| PFloat (sixteenths : Z).

#[export] Instance PrintArg_eq_dec : EqDecision PrintArg.
Proof. solve_decision. Defined.

Class Rtos (W : Type) : Type := {
  (** [portTICK_PERIOD_MS]: milliseconds per tick, a [TickType_t]:
      1000 over the tick rate, which the configuration keeps between 1 Hz
      and 1 kHz.  The divisions by it are therefore defined. *)
  portTICK_PERIOD_MS : Z;
  tick_period_range : 1 <= portTICK_PERIOD_MS <= 1000;
  (** [vTaskDelay(ticks)] *)
  vTaskDelay : Z -> W -> W;
  (** [xTaskGetTickCount()] *)
  xTaskGetTickCount : W -> Z * W;
  (** [printf(format, ...)] *)
  printf : string -> list PrintArg -> W -> W;
}.
