(* ===== verification/Clock.v ===== *)
(** * Clock: time, as the libraries let it pass

    The tick counter of FreeRTOS counts up for ever and is read modulo 2^32.
    [now w] is the number of ticks since boot in the world [w]; the contract
    [ClockLaws] says that no call makes time go backwards, that
    [xTaskGetTickCount] returns the count of some instant of the call, and
    that [vTaskDelay] and the wait for a conversion last at least as long as
    they are asked to. *)

From Stdlib Require Import ZArith Lia String.
From stdpp Require Import prelude strings.
From S2P Require Import Prelude Machine OneWire Ds18b20 Rtos.

#[local] Open Scope Z_scope.

Class Clock (W : Type) : Type := {
  (** Ticks since boot. *)
  now : W -> Z;
}.

Class ClockLaws (W : Type) `{Rtos W} `{Owb W} `{Ds18b20 W} `{Clock W} : Prop := {
  (** The counter is read at some instant of the call. *)
  now_xTaskGetTickCount : forall w,
    exists T, now w <= T <= now (xTaskGetTickCount w).2 /\
              (xTaskGetTickCount w).1 = u32 T;
  (** A delay lasts at least the ticks asked for. *)
  now_vTaskDelay : forall d w, now w + u32 d <= now (vTaskDelay d w);
  (** The wait lasts at least the worst-case conversion time. *)
  now_wait_for_conversion : forall h w,
    now w + conversion_time_ms (info_resolution h) / portTICK_PERIOD_MS
      <= now (ds18b20_wait_for_conversion h w);
  (** No other call makes time go backwards. *)
  now_printf : forall f a w, now w <= now (printf f a w);
  now_owb_rmt_initialize : forall g t r w, now w <= now (owb_rmt_initialize g t r w).2;
  now_owb_use_crc : forall b c w, now w <= now (owb_use_crc b c w);
  now_owb_search_first : forall b st w, now w <= now (owb_search_first b st w).2;
  now_owb_search_next : forall b st w, now w <= now (owb_search_next b st w).2;
  now_owb_verify_rom : forall b r w, now w <= now (owb_verify_rom b r w).2;
  now_ds18b20_malloc : forall w, now w <= now (ds18b20_malloc w).2;
  now_ds18b20_free : forall h w, now w <= now (ds18b20_free h w);
  now_ds18b20_init : forall h b r w, now w <= now (ds18b20_init h b r w).2;
  now_ds18b20_init_solo : forall h b w, now w <= now (ds18b20_init_solo h b w).2;
  now_ds18b20_use_crc : forall h c w, now w <= now (ds18b20_use_crc h c w).2;
  now_ds18b20_set_resolution : forall h r w, now w <= now (ds18b20_set_resolution h r w).2;
  now_ds18b20_convert_all : forall b w, now w <= now (ds18b20_convert_all b w);
  now_ds18b20_read_temp : forall h w, now w <= now (ds18b20_read_temp h w).2;
}.
