(* ===== verification/Script.v ===== *)
(** * Script: a scripted world

    An instance of the three interfaces in which the outside follows a
    script: the ROM codes the search will answer with, in order; the ROM
    codes that are present when asked; the reading of the [k]-th call of
    [ds18b20_read_temp]; and how many ticks the [k]-th call of any kind
    takes.  The handle operations do what section 4.3 of the specification
    says.  Every run of the program against some world is a run against a
    script, so this is where the theorems are applied to concrete runs, and
    the instance shows that the contracts ([OwbLaws], [Ds18b20Laws],
    [ClockLaws]) can be met. *)

From Stdlib Require Import ZArith Lia String Ascii.
From stdpp Require Import prelude strings.
From S2P Require Import Prelude Machine OneWire Ds18b20 Rtos Clock.

#[local] Open Scope Z_scope.

Record Script : Type := mkScript {
  sc_tick_period_ms : Z;
  sc_roms : list OneWireBus_ROMCode;
  sc_present : list OneWireBus_ROMCode;
  sc_temp : nat -> Z;
  sc_latency : nat -> Z;
}.

Record ScriptWorld : Type := mkWorld {
  sw_script : Script;
  (** ticks since boot, calls made, position of the search, reads made *)
  sw_clock : Z;
  sw_calls : nat;
  sw_search_pos : nat;
  sw_reads : nat;
  (** what was printed, last first *)
  sw_console : list (string * list PrintArg);
}.

(** The world in which the program starts, [t] ticks after boot. *)
Definition script_start (sc : Script) (t : Z) : ScriptWorld :=
  mkWorld sc t 0 0 0 [].

(** A call that lasts its scripted latency plus [extra] ticks.  A negative
    latency in the script counts as none. *)
Definition elapse (extra : Z) (w : ScriptWorld) : ScriptWorld :=
  mkWorld (sw_script w)
    (sw_clock w + Z.max 0 (sc_latency (sw_script w) (sw_calls w)) + Z.max 0 extra)
    (S (sw_calls w)) (sw_search_pos w) (sw_reads w) (sw_console w).

Definition set_search_pos (p : nat) (w : ScriptWorld) : ScriptWorld :=
  mkWorld (sw_script w) (sw_clock w) (sw_calls w) p (sw_reads w) (sw_console w).

Definition set_reads (r : nat) (w : ScriptWorld) : ScriptWorld :=
  mkWorld (sw_script w) (sw_clock w) (sw_calls w) (sw_search_pos w) r (sw_console w).

Definition add_console (l : string * list PrintArg) (w : ScriptWorld) : ScriptWorld :=
  mkWorld (sw_script w) (sw_clock w) (sw_calls w) (sw_search_pos w) (sw_reads w)
    (l :: sw_console w).

(** The search from position [p]: the next ROM code of the script, if any. *)
Definition script_search (p : nat) (st : OneWireBus_SearchState) (w : ScriptWorld)
  : OneWireBus_SearchState * bool * ScriptWorld :=
  match sc_roms (sw_script w) !! p with
  | Some r =>
      (mkSearchState r (last_discrepancy st) (last_family_discrepancy st)
         (bool_decide (S p = length (sc_roms (sw_script w)))),
       true, set_search_pos (S p) (elapse 0 w))
  | None => (st, false, set_search_pos 0 (elapse 0 w))
  end.

(** Two hexadecimal digits for a byte, and a ROM code as text: its bytes
    from the CRC down to the family code, cut to fit a buffer of [len]. *)
Definition hex_digit (n : Z) : ascii :=
  ascii_of_nat (Z.to_nat (if n <? 10 then 48 + n else 87 + n)).

Definition hex_byte (b : Z) : string :=
  String (hex_digit (b / 16 mod 16)) (String (hex_digit (b mod 16)) EmptyString).

Definition script_string_from_rom_code (r : OneWireBus_ROMCode) (len : Z) : string :=
  let full := foldr (fun b acc => hex_byte b +:+ acc) EmptyString (reverse (rom_bytes r)) in
  String.substring 0 (Z.to_nat (len - 1)) full.

#[export] Instance script_rtos : Rtos ScriptWorld := {
  portTICK_PERIOD_MS := 10;
  tick_period_range := ltac:(done);
  vTaskDelay d w := elapse (u32 d) w;
  xTaskGetTickCount w := let w' := elapse 0 w in (u32 (sw_clock w'), w');
  printf f a w := add_console (f, a) (elapse 0 w);
}.

#[export] Instance script_owb : Owb ScriptWorld := {
  owb_rmt_initialize g t r w := (BusRef g, elapse 0 w);
  owb_use_crc b c w := elapse 0 w;
  owb_search_first b st w := script_search 0 st w;
  owb_search_next b st w := script_search (sw_search_pos w) st w;
  owb_string_from_rom_code := script_string_from_rom_code;
  owb_verify_rom b r w := (bool_decide (r ∈ sc_present (sw_script w)), elapse 0 w);
}.

Definition script_info_zero : DS18B20_Info :=
  mkInfo None rom_zero false DS18B20_RESOLUTION_12_BIT false.

#[export] Instance script_ds18b20 : Ds18b20 ScriptWorld := {
  DS18B20_INVALID_READING := -2048 * 16;
  ds18b20_malloc w := (script_info_zero, elapse 0 w);
  ds18b20_free h w := elapse 0 w;
  ds18b20_init h b r w :=
    (mkInfo (Some b) r false (info_resolution h) (info_use_crc h), elapse 0 w);
  ds18b20_init_solo h b w :=
    (mkInfo (Some b) (info_rom_code h) true (info_resolution h) (info_use_crc h), elapse 0 w);
  ds18b20_use_crc h c w :=
    (mkInfo (info_bus h) (info_rom_code h) (info_solo h) (info_resolution h) c, elapse 0 w);
  ds18b20_set_resolution h r w :=
    (true, mkInfo (info_bus h) (info_rom_code h) (info_solo h) r (info_use_crc h), elapse 0 w);
  ds18b20_convert_all b w := elapse 0 w;
  ds18b20_wait_for_conversion h w :=
    elapse (conversion_time_ms (info_resolution h) / 10) w;
  ds18b20_read_temp h w :=
    (sc_temp (sw_script w) (sw_reads w), set_reads (S (sw_reads w)) (elapse 0 w));
}.

#[export] Instance script_clock : Clock ScriptWorld := {
  now w := sw_clock w;
}.

(** ** The scripted world meets the contracts. *)

Lemma now_script_search p st w : now w <= now (script_search p st w).2.
Proof. unfold script_search. destruct (_ !! p); cbn; lia. Qed.

#[export] Instance script_clock_laws : ClockLaws ScriptWorld.
Proof.
  split; try (intros; cbn; lia).
  - intros w. exists (now (elapse 0 w)). cbn. split; [lia | done].
  - intros b st w. apply now_script_search.
  - intros b st w. apply now_script_search.
Qed.

#[export] Instance script_ds18b20_laws : Ds18b20Laws ScriptWorld.
Proof.
  split; try done.
  unfold temp_legit, TEMP_MIN, TEMP_MAX. cbn. lia.
Qed.

Lemma substring_length_le n m s : (String.length (String.substring n m s) <= m)%nat.
Proof.
  revert n m. induction s as [|c s IH]; intros [|n] [|m]; cbn; try lia.
  - specialize (IH 0%nat m). lia.
  - apply IH.
  - apply IH.
Qed.

#[export] Instance script_owb_laws : OwbLaws ScriptWorld.
Proof.
  split. intros r len Hlen. cbn. unfold script_string_from_rom_code.
  eapply Z.le_lt_trans; [apply inj_le, substring_length_le | lia].
Qed.
