(* ===== verification/AppMain.v ===== *)
(** * AppMain: the program [src/main/app_main.c]

    [app_main] statement group by statement group, in the state-and-fault
    monad of [Prelude], over any world [W] that provides the three libraries.
    The state [AppState] has one field per global and per local of the C
    function, the world, and the ghost [trace] of the calls made.  A pointer
    to a device handle is the index of its slot in [devices]: every handle is
    pointed to from exactly one slot, so a call on [devices[i]] reads slot
    [i], runs the library on the handle there, and writes the handle back. *)

From Stdlib Require Import ZArith Lia String.
From stdpp Require Import prelude strings.
From S2P Require Import Prelude Machine OneWire Ds18b20 Rtos.

#[local] Open Scope Z_scope.
#[local] Open Scope prog_scope.

(** ** The ghost trace: one entry per call that acts on the world, with its
    arguments and what it returned. *)

Inductive Call : Type :=
| call_printf (format : string) (args : list PrintArg)
| call_vTaskDelay (ticks : Z)
| call_xTaskGetTickCount (ret : Z)
| call_owb_rmt_initialize (gpio_num : Z) (tx rx : rmt_channel_t) (ret : OneWireBus)
| call_owb_use_crc (bus : OneWireBus) (use_crc : bool)
| call_owb_search_first (bus : OneWireBus) (found : bool) (rom : OneWireBus_ROMCode)
| call_owb_search_next (bus : OneWireBus) (found : bool) (rom : OneWireBus_ROMCode)
| call_owb_verify_rom (bus : OneWireBus) (rom : OneWireBus_ROMCode) (is_present : bool)
| call_ds18b20_malloc (slot : Z)
| call_ds18b20_free (slot : Z)
| call_ds18b20_init (slot : Z) (bus : OneWireBus) (rom : OneWireBus_ROMCode)
| call_ds18b20_init_solo (slot : Z) (bus : OneWireBus)
| call_ds18b20_use_crc (slot : Z) (use_crc : bool)
| call_ds18b20_set_resolution (slot : Z) (resolution : Resolution)
| call_ds18b20_convert_all (bus : OneWireBus)
| call_ds18b20_wait_for_conversion (slot : Z)
| call_ds18b20_read_temp (slot : Z) (ret : Z).

#[export] Instance Call_eq_dec : EqDecision Call.
Proof. solve_decision. Defined.

(** What [app_main n] says of the program after at most [n] samples: it
    returned, or it is still in [while (1)]. *)
Inductive status : Type := Returned | StillSampling.

#[export] Instance status_eq_dec : EqDecision status.
Proof. solve_decision. Defined.

(** The newline of the C strings. *)
Definition nl : string := String (Ascii.ascii_of_nat 10) EmptyString.

(** ** Configuration (lines 39-42). *)

Definition MAX_DEVICES : Z := 8.
Definition DS18B20_RESOLUTION : Resolution := DS18B20_RESOLUTION_12_BIT.
Definition SAMPLE_PERIOD : Z := 1000.

(** The known ROM code of lines 91-95, least significant byte first. *)
Definition known_device : OneWireBus_ROMCode :=
  {| family := 0x28;
     serial_number := [0xee; 0xcc; 0x87; 0x2e; 0x16; 0x01];
     crc := 0x00 |}.

(** The size of the buffers [rom_code_s] (lines 75 and 96). *)
Definition ROM_CODE_S_SIZE : Z := 17.

(** ** The format strings, as the source has them. *)

Definition fmt_initializing : string := "Initializing in 2 seconds" +:+ nl.
Definition fmt_find_devices : string := "Find devices:" +:+ nl.
Definition fmt_device : string := "  %d : %s" +:+ nl.
Definition fmt_found : string := "Found %d devices" +:+ nl.
Definition fmt_known : string := "Device %s is %s" +:+ nl.
Definition fmt_single : string := "Single device optimisations enabled" +:+ nl.
Definition fmt_sample : string :=
  nl +:+ "Temperature readings (degrees C): sample %d" +:+ nl.
Definition fmt_reading : string := "  %d: %.1f    %d errors" +:+ nl.

Section AppMain.

Context {W : Type} `{Rtos W} `{Owb W} `{Ds18b20 W}.

(** [CONFIG_ONE_WIRE_GPIO] comes from the build configuration. *)
Variable CONFIG_ONE_WIRE_GPIO : Z.

Definition GPIO_DS18B20_0 : Z := CONFIG_ONE_WIRE_GPIO.

(** ** The state of the program. *)

Record AppState : Type := mkApp {
  (** globals (lines 44-45): [owb]; [rmt_driver_info] is owned by the
      library and is part of the world *)
  owb : option OneWireBus;
  (** locals of [app_main] *)
  device_rom_codes : list OneWireBus_ROMCode;
  num_devices : Z;
  search_state : OneWireBus_SearchState;
  found : bool;
  is_present : bool;
  devices : list (option DS18B20_Info);
  crc_errors : list Z;
  sample_count : Z;
  start_ticks : Z;
  temps : list Z;
  (** the outside, and the calls made so far *)
  world : W;
  trace : list Call;
}.

Definition set_owb x (s : AppState) : AppState :=
  mkApp x (device_rom_codes s) (num_devices s) (search_state s) (found s) (is_present s)
    (devices s) (crc_errors s) (sample_count s) (start_ticks s) (temps s) (world s) (trace s).
Definition set_device_rom_codes x (s : AppState) : AppState :=
  mkApp (owb s) x (num_devices s) (search_state s) (found s) (is_present s)
    (devices s) (crc_errors s) (sample_count s) (start_ticks s) (temps s) (world s) (trace s).
Definition set_num_devices x (s : AppState) : AppState :=
  mkApp (owb s) (device_rom_codes s) x (search_state s) (found s) (is_present s)
    (devices s) (crc_errors s) (sample_count s) (start_ticks s) (temps s) (world s) (trace s).
Definition set_search_state x (s : AppState) : AppState :=
  mkApp (owb s) (device_rom_codes s) (num_devices s) x (found s) (is_present s)
    (devices s) (crc_errors s) (sample_count s) (start_ticks s) (temps s) (world s) (trace s).
Definition set_found x (s : AppState) : AppState :=
  mkApp (owb s) (device_rom_codes s) (num_devices s) (search_state s) x (is_present s)
    (devices s) (crc_errors s) (sample_count s) (start_ticks s) (temps s) (world s) (trace s).
Definition set_is_present x (s : AppState) : AppState :=
  mkApp (owb s) (device_rom_codes s) (num_devices s) (search_state s) (found s) x
    (devices s) (crc_errors s) (sample_count s) (start_ticks s) (temps s) (world s) (trace s).
Definition set_devices x (s : AppState) : AppState :=
  mkApp (owb s) (device_rom_codes s) (num_devices s) (search_state s) (found s) (is_present s)
    x (crc_errors s) (sample_count s) (start_ticks s) (temps s) (world s) (trace s).
Definition set_crc_errors x (s : AppState) : AppState :=
  mkApp (owb s) (device_rom_codes s) (num_devices s) (search_state s) (found s) (is_present s)
    (devices s) x (sample_count s) (start_ticks s) (temps s) (world s) (trace s).
Definition set_sample_count x (s : AppState) : AppState :=
  mkApp (owb s) (device_rom_codes s) (num_devices s) (search_state s) (found s) (is_present s)
    (devices s) (crc_errors s) x (start_ticks s) (temps s) (world s) (trace s).
Definition set_start_ticks x (s : AppState) : AppState :=
  mkApp (owb s) (device_rom_codes s) (num_devices s) (search_state s) (found s) (is_present s)
    (devices s) (crc_errors s) (sample_count s) x (temps s) (world s) (trace s).
Definition set_temps x (s : AppState) : AppState :=
  mkApp (owb s) (device_rom_codes s) (num_devices s) (search_state s) (found s) (is_present s)
    (devices s) (crc_errors s) (sample_count s) (start_ticks s) x (world s) (trace s).

(** A call happened: the world moved, and the call is logged. *)
Definition emit (c : Call) (w : W) (s : AppState) : AppState :=
  mkApp (owb s) (device_rom_codes s) (num_devices s) (search_state s) (found s) (is_present s)
    (devices s) (crc_errors s) (sample_count s) (start_ticks s) (temps s) w (trace s ++ [c]).

(** The state in which [app_main] is entered: [owb] is NULL, the locals do
    not exist yet. *)
Definition initial_state (w : W) : AppState :=
  mkApp None [] 0 search_state_zero false false [] [] 0 0 [] w [].

(** ** Pointers. *)

(** The global [owb], given to a library call. *)
Definition get_owb : prog AppState OneWireBus :=
  fun s => match owb s with
           | Some bus => Ok bus s
           | None => Fault (NullPointer "owb") s
           end.

(** The handle [devices[i]] points to. *)
Definition load_device (i : Z) : prog AppState DS18B20_Info :=
  p ← load_at "devices" devices i;
  match p with
  | Some h => ret h
  | None => fail (NullPointer "devices")
  end.

Definition store_device (i : Z) (h : DS18B20_Info) : prog AppState unit :=
  store_at "devices" devices set_devices i (Some h).

(** ** The calls, each with its effect on the program state. *)

Definition do_printf (format : string) (args : list PrintArg) : prog AppState unit :=
  modify (fun s => emit (call_printf format args) (printf format args (world s)) s).

Definition do_vTaskDelay (ticks : Z) : prog AppState unit :=
  modify (fun s => emit (call_vTaskDelay ticks) (vTaskDelay ticks (world s)) s).

Definition do_xTaskGetTickCount : prog AppState Z :=
  fun s => let '(t, w) := xTaskGetTickCount (world s) in
           Ok t (emit (call_xTaskGetTickCount t) w s).

(** [owb = owb_rmt_initialize(&rmt_driver_info, gpio_num, tx, rx)] *)
Definition do_owb_rmt_initialize (gpio_num : Z) (tx rx : rmt_channel_t)
  : prog AppState unit :=
  fun s => let '(bus, w) := owb_rmt_initialize gpio_num tx rx (world s) in
           Ok tt (set_owb (Some bus) (emit (call_owb_rmt_initialize gpio_num tx rx bus) w s)).

Definition do_owb_use_crc (use_crc : bool) : prog AppState unit :=
  bus ← get_owb;
  modify (fun s => emit (call_owb_use_crc bus use_crc) (owb_use_crc bus use_crc (world s)) s).

(** [owb_search_first(owb, &search_state, &found)] *)
Definition do_owb_search_first : prog AppState unit :=
  bus ← get_owb;
  fun s => let '(st, f, w) := owb_search_first bus (search_state s) (world s) in
           Ok tt (set_found f (set_search_state st
                    (emit (call_owb_search_first bus f (rom_code st)) w s))).

(** [owb_search_next(owb, &search_state, &found)] *)
Definition do_owb_search_next : prog AppState unit :=
  bus ← get_owb;
  fun s => let '(st, f, w) := owb_search_next bus (search_state s) (world s) in
           Ok tt (set_found f (set_search_state st
                    (emit (call_owb_search_next bus f (rom_code st)) w s))).

(** [owb_verify_rom(owb, rom, &is_present)] *)
Definition do_owb_verify_rom (rom : OneWireBus_ROMCode) : prog AppState unit :=
  bus ← get_owb;
  fun s => let '(p, w) := owb_verify_rom bus rom (world s) in
           Ok tt (set_is_present p (emit (call_owb_verify_rom bus rom p) w s)).

(** [devices[i] = ds18b20_malloc()] (lines 119-120) *)
Definition do_ds18b20_malloc (i : Z) : prog AppState unit :=
  h ← (fun s => let '(h, w) := ds18b20_malloc (world s) in
                Ok h (emit (call_ds18b20_malloc i) w s));
  store_device i h.

Definition do_ds18b20_init_solo (i : Z) : prog AppState unit :=
  h ← load_device i;
  bus ← get_owb;
  h' ← (fun s => let '(h', w) := ds18b20_init_solo h bus (world s) in
                 Ok h' (emit (call_ds18b20_init_solo i bus) w s));
  store_device i h'.

Definition do_ds18b20_init (i : Z) (rom : OneWireBus_ROMCode) : prog AppState unit :=
  h ← load_device i;
  bus ← get_owb;
  h' ← (fun s => let '(h', w) := ds18b20_init h bus rom (world s) in
                 Ok h' (emit (call_ds18b20_init i bus rom) w s));
  store_device i h'.

Definition do_ds18b20_use_crc (i : Z) (use_crc : bool) : prog AppState unit :=
  h ← load_device i;
  h' ← (fun s => let '(h', w) := ds18b20_use_crc h use_crc (world s) in
                 Ok h' (emit (call_ds18b20_use_crc i use_crc) w s));
  store_device i h'.

(** The result of [ds18b20_set_resolution] is not looked at. *)
Definition do_ds18b20_set_resolution (i : Z) (r : Resolution) : prog AppState unit :=
  h ← load_device i;
  h' ← (fun s => let '(_, h', w) := ds18b20_set_resolution h r (world s) in
                 Ok h' (emit (call_ds18b20_set_resolution i r) w s));
  store_device i h'.

Definition do_ds18b20_convert_all : prog AppState unit :=
  bus ← get_owb;
  modify (fun s => emit (call_ds18b20_convert_all bus) (ds18b20_convert_all bus (world s)) s).

Definition do_ds18b20_wait_for_conversion (i : Z) : prog AppState unit :=
  h ← load_device i;
  modify (fun s => emit (call_ds18b20_wait_for_conversion i)
                        (ds18b20_wait_for_conversion h (world s)) s).

Definition do_ds18b20_read_temp (i : Z) : prog AppState Z :=
  h ← load_device i;
  fun s => let '(t, w) := ds18b20_read_temp h (world s) in
           Ok t (emit (call_ds18b20_read_temp i t) w s).

(** [ds18b20_free(&devices[i])]: frees the handle, if any, and sets the
    slot to NULL. *)
Definition do_ds18b20_free (i : Z) : prog AppState unit :=
  p ← load_at "devices" devices i;
  match p with
  | Some h =>
      modify (fun s => emit (call_ds18b20_free i) (ds18b20_free h (world s)) s) ;;
      store_at "devices" devices set_devices i None
  | None => ret tt
  end.

(** ** Lines 51-63: settle, create the bus, enable the ROM CRC check. *)

(** [2000.0 / portTICK_PERIOD_MS] is a division of doubles whose result is
    converted to [TickType_t], i.e. truncated: for a tick period of 1 to
    2^32 - 1 ms that is the integer quotient. *)
Definition startup_delay_ticks : Z := u32 (2000 / portTICK_PERIOD_MS).

Definition tx_channel : rmt_channel_t := RMT_CHANNEL_1.
Definition rx_channel : rmt_channel_t := RMT_CHANNEL_0.
Definition gpio_num : Z := 26.

Definition startup : prog AppState unit :=
  do_printf fmt_initializing [] ;;
  do_vTaskDelay startup_delay_ticks ;;
  do_owb_rmt_initialize gpio_num tx_channel rx_channel ;;
  do_owb_use_crc true.

(** ** Lines 66-83: find all connected devices. *)

(** The body of [while (found)], lines 75-80. *)
Definition find_devices_body : prog AppState unit :=
  st ← gets search_state;
  n ← gets num_devices;
  let rom_code_s := owb_string_from_rom_code (rom_code st) ROM_CODE_S_SIZE in
  do_printf fmt_device [PInt n; PStr rom_code_s] ;;
  store_at "device_rom_codes" device_rom_codes set_device_rom_codes n (rom_code st) ;;
  n' ← int_incr "num_devices" n;
  modify (set_num_devices n') ;;
  do_owb_search_next.

(** The loop with [fuel] iterations at most. *)
Definition find_devices_loop (fuel : nat) : prog AppState unit :=
  while_loop fuel found find_devices_body.

Definition find_devices : prog AppState unit :=
  do_printf fmt_find_devices [] ;;
  modify (set_device_rom_codes (replicate (Z.to_nat MAX_DEVICES) rom_zero)) ;;
  modify (set_num_devices 0) ;;
  modify (set_search_state search_state_zero) ;;
  do_owb_search_first ;;
  find_devices_loop (Z.to_nat MAX_DEVICES + 1) ;;
  n ← gets num_devices;
  do_printf fmt_found [PInt n].

(** ** Lines 90-100: is the known device there? *)

Definition verify_known_device : prog AppState unit :=
  let rom_code_s := owb_string_from_rom_code known_device ROM_CODE_S_SIZE in
  do_owb_verify_rom known_device ;;
  p ← gets is_present;
  do_printf fmt_known [PStr rom_code_s; PStr (if p then "present" else "not present")].

(** ** Lines 111-133: one handle per device found. *)

(** The body of the loop, lines 116-132. *)
Definition create_device (i : Z) : prog AppState unit :=
  do_ds18b20_malloc i ;;
  n ← gets num_devices;
  (if n =? 1 then
     do_printf fmt_single [] ;;
     do_ds18b20_init_solo i
   else
     rom ← load_at "device_rom_codes" device_rom_codes i;
     do_ds18b20_init i rom) ;;
  do_ds18b20_use_crc i true ;;
  do_ds18b20_set_resolution i DS18B20_RESOLUTION.

Definition create_devices : prog AppState unit :=
  modify (set_devices (replicate (Z.to_nat MAX_DEVICES) None)) ;;
  n ← gets num_devices;
  for_lt n create_device.

(** ** Lines 148-188: the sampling loop. *)

(** Lines 164-168: read every device, nothing else in between. *)
Definition read_temp (i : Z) : prog AppState unit :=
  t ← do_ds18b20_read_temp i;
  store_at "temps" temps set_temps i t.

Definition read_temps : prog AppState unit :=
  modify (set_temps (replicate (Z.to_nat MAX_DEVICES) 0)) ;;
  n ← gets num_devices;
  for_lt n read_temp.

(** Lines 174-179: count a CRC error, print the reading. *)
Definition print_reading (i : Z) : prog AppState unit :=
  t ← load_at "temps" temps i;
  (if t =? DS18B20_INVALID_READING then
     e ← load_at "crc_errors" crc_errors i;
     e' ← int_incr "crc_errors" e;
     store_at "crc_errors" crc_errors set_crc_errors i e'
   else ret tt) ;;
  e ← load_at "crc_errors" crc_errors i;
  do_printf fmt_reading [PInt i; PFloat t; PInt e].

(** Lines 171-180: the header with [++sample_count], then every reading. *)
Definition print_results : prog AppState unit :=
  c ← gets sample_count;
  c' ← int_incr "sample_count" c;
  modify (set_sample_count c') ;;
  do_printf fmt_sample [PInt c'] ;;
  n ← gets num_devices;
  for_lt n print_reading.

(** [SAMPLE_PERIOD / portTICK_PERIOD_MS], a division of [TickType_t]. *)
Definition sample_period_ticks : Z := u32_div SAMPLE_PERIOD portTICK_PERIOD_MS.

(** Lines 183-186: sleep for what is left of the period.  The tick counter
    is read once for the test and once more for the argument. *)
Definition periodic_delay : prog AppState unit :=
  now1 ← do_xTaskGetTickCount;
  t0 ← gets start_ticks;
  if u32_ltb (u32_sub now1 t0) sample_period_ticks then
    now2 ← do_xTaskGetTickCount;
    do_vTaskDelay (u32_sub sample_period_ticks (u32_sub now2 t0))
  else ret tt.

(** Lines 156-160: start the conversion on every device at once and wait
    for it with the handle of the first. *)
Definition convert_and_wait : prog AppState unit :=
  do_ds18b20_convert_all ;;
  do_ds18b20_wait_for_conversion 0.

(** Lines 154-186: the body of [while (1)]. *)
Definition sample_once : prog AppState unit :=
  t ← do_xTaskGetTickCount;
  modify (set_start_ticks t) ;;
  convert_and_wait ;;
  read_temps ;;
  print_results ;;
  periodic_delay.

(** ** Lines 190-196: free the handles. *)

Definition cleanup : prog AppState unit :=
  n ← gets num_devices;
  for_lt n do_ds18b20_free.

(** Lines 148-196: the counters, then either [while (1)] (its first [n]
    iterations; it has no exit) or, with no device, straight to the
    clean-up. *)
Definition sampling (n : nat) : prog AppState status :=
  modify (set_crc_errors (replicate (Z.to_nat MAX_DEVICES) 0)) ;;
  modify (set_sample_count 0) ;;
  nd ← gets num_devices;
  if 0 <? nd then
    repeat_n n sample_once ;;
    ret StillSampling
  else
    cleanup ;;
    ret Returned.

(** ** [app_main], lines 47-205, up to its [n]-th sample. *)

Definition app_main (n : nat) : prog AppState status :=
  startup ;;
  find_devices ;;
  verify_known_device ;;
  create_devices ;;
  sampling n.

End AppMain.
