(* ===== verification/AppFacts.v ===== *)
(** * AppFacts: the rules of the calls of [app_main]

    What the theorems about the phases of the program share: the relations
    every statement respects (a field it leaves alone, the trace that only
    grows, the clock that only advances), derived for every statement by
    instance search, and one weakest-precondition rule for each call. *)

From Stdlib Require Import ZArith Lia String.
From stdpp Require Import prelude strings.
From S2P Require Import Prelude Machine OneWire Ds18b20 Rtos Clock AppMain.

#[local] Open Scope Z_scope.
#[local] Open Scope prog_scope.

(** The trace only grows. *)
Definition trace_grows {W} : relation (AppState (W:=W)) :=
  fun s s' => trace s `prefix_of` trace s'.

(** The clock only advances. *)
Definition time_passes {W} `{Clock W} : relation (AppState (W:=W)) :=
  fun s s' => now (world s) <= now (world s').

(** The calls appended to the trace between two states. *)
Definition new_calls {W} (s s' : AppState (W:=W)) : list Call :=
  drop (length (trace s)) (trace s').

(** [calls s l s']: from [s] to [s'] the program made the calls [l]. *)
Definition calls {W} (s : AppState (W:=W)) (l : list Call) (s' : AppState (W:=W)) : Prop :=
  trace s' = trace s ++ l.

(** [emits P]: the calls made are all calls that satisfy [P]. *)
Definition emits {W} (P : Call -> Prop) : relation (AppState (W:=W)) :=
  fun s s' => exists l, trace s' = trace s ++ l /\ Forall P l.

#[export] Instance trace_grows_preorder {W} : PreOrder (trace_grows (W:=W)).
Proof. split; unfold trace_grows; [intros s; reflexivity | intros x y z ??; by etrans]. Qed.

#[export] Instance time_passes_preorder {W} `{Clock W} : PreOrder (time_passes (W:=W)).
Proof. split; [intros s | intros x y z]; unfold time_passes; lia. Qed.

#[export] Instance emits_preorder {W} P : PreOrder (emits (W:=W) P).
Proof.
  split.
  - intros s. exists []. by rewrite app_nil_r.
  - intros x y z (l1 & E1 & H1) (l2 & E2 & H2). exists (l1 ++ l2).
    rewrite E2, E1, app_assoc. split; [done | by apply Forall_app].
Qed.

Create HintDb clock discriminated.

(** The projections of the state that frames are stated with. *)
Create HintDb frames discriminated.

(** ** The leaves of instance search: a call, an assignment. *)

(** Turn [let '(a, w) := call in ...] into projections of [call]. *)
Ltac split_calls :=
  repeat match goal with
  | |- context [let '(_, _) := ?x in _] => rewrite (surjective_pairing x)
  | |- context [match ?x with (_, _) => _ end] => rewrite (surjective_pairing x)
  end.

(** A goal [calls s l s'] between two states that are given. *)
Ltac by_trace := unfold calls; cbn; by rewrite <- ?app_assoc.

Ltac steps_leaf :=
  let s := fresh "s" in
  intros s; cbv beta delta [modify store_at get_owb unchanged trace_grows time_passes emits];
  autounfold with frames; cbn;
  repeat match goal with
  | |- context [match ?x with _ => _ end] =>
      lazymatch type of x with
      | prod _ _ => rewrite (surjective_pairing x)
      | _ => destruct x eqn:?
      end; autounfold with frames; cbn
  end;
  rewrite ?length_insert;
  solve [ done | apply prefix_app_r; done | eauto with clock
        | exists []; by rewrite app_nil_r
        | eexists [_]; split; [reflexivity | by repeat constructor] ].

#[export] Hint Extern 20 (Steps _ (fun _ => _)) => steps_leaf : typeclass_instances.
#[export] Hint Extern 20 (Steps _ (modify _)) => steps_leaf : typeclass_instances.
#[export] Hint Extern 20 (Steps _ (store_at _ _ _ _ _)) => steps_leaf : typeclass_instances.
#[export] Hint Extern 20 (Steps _ get_owb) => steps_leaf : typeclass_instances.

(** A named statement of the program is searched through its definition. *)
#[export] Hint Extern 10 (Steps _ ?m) =>
  let h := head_of m in
  lazymatch h with
  | @bind => fail | @ret => fail | @gets => fail | @modify => fail | @fail => fail
  | @for_loop => fail | @for_lt => fail | @while_loop => fail | @repeat_n => fail
  | @load_at => fail | @store_at => fail | @int_incr => fail | @get_owb => fail
  | _ => progress (unfold h)
  end : typeclass_instances.

Section Facts.

Context {W : Type} `{Rtos W} `{Owb W} `{Ds18b20 W}.
Implicit Types s : AppState (W:=W).

(** ** Time. *)

Section Time.
Context `{Clock W} `{!ClockLaws W}.

Lemma now_vTaskDelay_le d w : now w <= now (vTaskDelay d w).
Proof. pose proof (now_vTaskDelay d w). pose proof (u32_range d) as [? _]. lia. Qed.

Lemma now_wait_for_conversion_le h w : now w <= now (ds18b20_wait_for_conversion h w).
Proof.
  pose proof (now_wait_for_conversion h w). pose proof tick_period_range.
  pose proof (conversion_time_ms_bound (info_resolution h)).
  assert (0 <= conversion_time_ms (info_resolution h) / portTICK_PERIOD_MS)
    by (apply Z.div_pos; lia).
  lia.
Qed.

Lemma now_xTaskGetTickCount_le w : now w <= now (xTaskGetTickCount w).2.
Proof. destruct (now_xTaskGetTickCount w) as (T & ? & _). lia. Qed.

End Time.

(** ** The calls made between two states. *)

Lemma new_calls_refl s : new_calls s s = [].
Proof. unfold new_calls. by rewrite drop_all. Qed.

Lemma new_calls_app s s' l : trace s' = trace s ++ l -> new_calls s s' = l.
Proof. unfold new_calls. intros ->. by rewrite drop_app_length. Qed.

Lemma trace_new_calls s s' : trace_grows s s' -> trace s' = trace s ++ new_calls s s'.
Proof. intros [l Hl]. by rewrite (new_calls_app _ _ l). Qed.

Lemma new_calls_trans s1 s2 s3 :
  trace_grows s1 s2 -> trace_grows s2 s3 ->
  new_calls s1 s3 = new_calls s1 s2 ++ new_calls s2 s3.
Proof.
  intros H12 H23. apply new_calls_app.
  by rewrite (trace_new_calls s2 s3), (trace_new_calls s1 s2), app_assoc.
Qed.

Lemma steps_emits {A} (m : prog AppState A) P s :
  Steps (emits P) m -> exists l, trace (final (m s)) = trace s ++ l /\ Forall P l.
Proof. intros Hm. apply Hm. Qed.

Lemma calls_nil s : calls s [] s.
Proof. unfold calls. by rewrite app_nil_r. Qed.

Lemma calls_trans s1 l1 s2 l2 s3 :
  calls s1 l1 s2 -> calls s2 l2 s3 -> calls s1 (l1 ++ l2) s3.
Proof. unfold calls. intros H12 ->. by rewrite H12, app_assoc. Qed.

Lemma calls_snoc s1 l s2 c s3 :
  calls s1 l s2 -> calls s2 [c] s3 -> calls s1 (l ++ [c]) s3.
Proof. apply calls_trans. Qed.

Lemma calls_new_calls s l s' : calls s l s' -> new_calls s s' = l.
Proof. apply new_calls_app. Qed.

(** ** The rule of each call. *)

Lemma wp_get_owb bus (Q : OneWireBus -> AppState -> Prop) s :
  owb s = Some bus -> Q bus s -> wp get_owb Q s.
Proof. intros Hb HQ. unfold wp, get_owb. by rewrite Hb. Qed.

Lemma wp_load_device i h (Q : DS18B20_Info -> AppState -> Prop) s :
  0 <= i -> devices s !! Z.to_nat i = Some (Some h) -> Q h s -> wp (load_device i) Q s.
Proof.
  intros Hi Hh HQ. unfold load_device. apply wp_bind.
  eapply wp_load_at; [done..|]. by apply wp_ret.
Qed.

Lemma wp_store_device i h (Q : unit -> AppState -> Prop) s :
  0 <= i < Z.of_nat (length (devices s)) ->
  Q tt (set_devices (<[Z.to_nat i := Some h]> (devices s)) s) ->
  wp (store_device i h) Q s.
Proof. intros. by apply wp_store_at. Qed.

Lemma wp_do_printf f a (Q : unit -> AppState -> Prop) s :
  Q tt (emit (call_printf f a) (printf f a (world s)) s) -> wp (do_printf f a) Q s.
Proof. done. Qed.

Lemma wp_do_vTaskDelay d (Q : unit -> AppState -> Prop) s :
  Q tt (emit (call_vTaskDelay d) (vTaskDelay d (world s)) s) -> wp (do_vTaskDelay d) Q s.
Proof. done. Qed.

Lemma wp_do_xTaskGetTickCount (Q : Z -> AppState -> Prop) s :
  (forall t w, xTaskGetTickCount (world s) = (t, w) ->
     Q t (emit (call_xTaskGetTickCount t) w s)) ->
  wp do_xTaskGetTickCount Q s.
Proof.
  intros HQ. unfold wp, do_xTaskGetTickCount.
  destruct (xTaskGetTickCount (world s)) as [t w] eqn:E. by apply HQ.
Qed.

Lemma wp_do_owb_rmt_initialize g tx rx (Q : unit -> AppState -> Prop) s :
  (forall bus w, owb_rmt_initialize g tx rx (world s) = (bus, w) ->
     Q tt (set_owb (Some bus) (emit (call_owb_rmt_initialize g tx rx bus) w s))) ->
  wp (do_owb_rmt_initialize g tx rx) Q s.
Proof.
  intros HQ. unfold wp, do_owb_rmt_initialize.
  destruct (owb_rmt_initialize g tx rx (world s)) as [bus w] eqn:E. by apply HQ.
Qed.

Lemma wp_do_owb_use_crc bus c (Q : unit -> AppState -> Prop) s :
  owb s = Some bus ->
  Q tt (emit (call_owb_use_crc bus c) (owb_use_crc bus c (world s)) s) ->
  wp (do_owb_use_crc c) Q s.
Proof. intros Hb HQ. unfold do_owb_use_crc. apply wp_bind. by eapply wp_get_owb. Qed.

Lemma wp_do_owb_search_first bus (Q : unit -> AppState -> Prop) s :
  owb s = Some bus ->
  (forall st f w, owb_search_first bus (search_state s) (world s) = (st, f, w) ->
     Q tt (set_found f (set_search_state st
             (emit (call_owb_search_first bus f (rom_code st)) w s)))) ->
  wp do_owb_search_first Q s.
Proof.
  intros Hb HQ. unfold do_owb_search_first. apply wp_bind.
  eapply wp_get_owb; [done|]. unfold wp.
  destruct (owb_search_first bus (search_state s) (world s)) as [[st f] w] eqn:E.
  by apply HQ.
Qed.

Lemma wp_do_owb_search_next bus (Q : unit -> AppState -> Prop) s :
  owb s = Some bus ->
  (forall st f w, owb_search_next bus (search_state s) (world s) = (st, f, w) ->
     Q tt (set_found f (set_search_state st
             (emit (call_owb_search_next bus f (rom_code st)) w s)))) ->
  wp do_owb_search_next Q s.
Proof.
  intros Hb HQ. unfold do_owb_search_next. apply wp_bind.
  eapply wp_get_owb; [done|]. unfold wp.
  destruct (owb_search_next bus (search_state s) (world s)) as [[st f] w] eqn:E.
  by apply HQ.
Qed.

Lemma wp_do_owb_verify_rom bus rom (Q : unit -> AppState -> Prop) s :
  owb s = Some bus ->
  (forall p w, owb_verify_rom bus rom (world s) = (p, w) ->
     Q tt (set_is_present p (emit (call_owb_verify_rom bus rom p) w s))) ->
  wp (do_owb_verify_rom rom) Q s.
Proof.
  intros Hb HQ. unfold do_owb_verify_rom. apply wp_bind.
  eapply wp_get_owb; [done|]. unfold wp.
  destruct (owb_verify_rom bus rom (world s)) as [p w] eqn:E. by apply HQ.
Qed.

Lemma wp_do_ds18b20_malloc i (Q : unit -> AppState -> Prop) s :
  0 <= i < Z.of_nat (length (devices s)) ->
  (forall h w, ds18b20_malloc (world s) = (h, w) ->
     Q tt (set_devices (<[Z.to_nat i := Some h]> (devices s))
             (emit (call_ds18b20_malloc i) w s))) ->
  wp (do_ds18b20_malloc i) Q s.
Proof.
  intros Hi HQ. unfold do_ds18b20_malloc. apply wp_bind. unfold wp at 1.
  destruct (ds18b20_malloc (world s)) as [h w] eqn:E.
  apply wp_store_device; [done|]. by apply HQ.
Qed.

Lemma wp_do_ds18b20_init_solo i h bus (Q : unit -> AppState -> Prop) s :
  0 <= i -> devices s !! Z.to_nat i = Some (Some h) -> owb s = Some bus ->
  (forall h' w, ds18b20_init_solo h bus (world s) = (h', w) ->
     Q tt (set_devices (<[Z.to_nat i := Some h']> (devices s))
             (emit (call_ds18b20_init_solo i bus) w s))) ->
  wp (do_ds18b20_init_solo i) Q s.
Proof.
  intros Hi Hh Hb HQ. unfold do_ds18b20_init_solo.
  apply wp_bind. eapply wp_load_device; [done..|].
  apply wp_bind. eapply wp_get_owb; [done|].
  apply wp_bind. unfold wp at 1.
  destruct (ds18b20_init_solo h bus (world s)) as [h' w] eqn:E.
  apply wp_store_device; [|by apply HQ].
  apply lookup_lt_Some in Hh. cbn. lia.
Qed.

Lemma wp_do_ds18b20_init i rom h bus (Q : unit -> AppState -> Prop) s :
  0 <= i -> devices s !! Z.to_nat i = Some (Some h) -> owb s = Some bus ->
  (forall h' w, ds18b20_init h bus rom (world s) = (h', w) ->
     Q tt (set_devices (<[Z.to_nat i := Some h']> (devices s))
             (emit (call_ds18b20_init i bus rom) w s))) ->
  wp (do_ds18b20_init i rom) Q s.
Proof.
  intros Hi Hh Hb HQ. unfold do_ds18b20_init.
  apply wp_bind. eapply wp_load_device; [done..|].
  apply wp_bind. eapply wp_get_owb; [done|].
  apply wp_bind. unfold wp at 1.
  destruct (ds18b20_init h bus rom (world s)) as [h' w] eqn:E.
  apply wp_store_device; [|by apply HQ].
  apply lookup_lt_Some in Hh. cbn. lia.
Qed.

Lemma wp_do_ds18b20_use_crc i c h (Q : unit -> AppState -> Prop) s :
  0 <= i -> devices s !! Z.to_nat i = Some (Some h) ->
  (forall h' w, ds18b20_use_crc h c (world s) = (h', w) ->
     Q tt (set_devices (<[Z.to_nat i := Some h']> (devices s))
             (emit (call_ds18b20_use_crc i c) w s))) ->
  wp (do_ds18b20_use_crc i c) Q s.
Proof.
  intros Hi Hh HQ. unfold do_ds18b20_use_crc.
  apply wp_bind. eapply wp_load_device; [done..|].
  apply wp_bind. unfold wp at 1.
  destruct (ds18b20_use_crc h c (world s)) as [h' w] eqn:E.
  apply wp_store_device; [|by apply HQ].
  apply lookup_lt_Some in Hh. cbn. lia.
Qed.

Lemma wp_do_ds18b20_set_resolution i r h (Q : unit -> AppState -> Prop) s :
  0 <= i -> devices s !! Z.to_nat i = Some (Some h) ->
  (forall ok h' w, ds18b20_set_resolution h r (world s) = (ok, h', w) ->
     Q tt (set_devices (<[Z.to_nat i := Some h']> (devices s))
             (emit (call_ds18b20_set_resolution i r) w s))) ->
  wp (do_ds18b20_set_resolution i r) Q s.
Proof.
  intros Hi Hh HQ. unfold do_ds18b20_set_resolution.
  apply wp_bind. eapply wp_load_device; [done..|].
  apply wp_bind. unfold wp at 1.
  destruct (ds18b20_set_resolution h r (world s)) as [[ok h'] w] eqn:E.
  apply wp_store_device; [|by eapply HQ].
  apply lookup_lt_Some in Hh. cbn. lia.
Qed.

Lemma wp_do_ds18b20_convert_all bus (Q : unit -> AppState -> Prop) s :
  owb s = Some bus ->
  Q tt (emit (call_ds18b20_convert_all bus) (ds18b20_convert_all bus (world s)) s) ->
  wp do_ds18b20_convert_all Q s.
Proof. intros Hb HQ. unfold do_ds18b20_convert_all. apply wp_bind. by eapply wp_get_owb. Qed.

Lemma wp_do_ds18b20_wait_for_conversion i h (Q : unit -> AppState -> Prop) s :
  0 <= i -> devices s !! Z.to_nat i = Some (Some h) ->
  Q tt (emit (call_ds18b20_wait_for_conversion i)
          (ds18b20_wait_for_conversion h (world s)) s) ->
  wp (do_ds18b20_wait_for_conversion i) Q s.
Proof.
  intros Hi Hh HQ. unfold do_ds18b20_wait_for_conversion.
  apply wp_bind. by eapply wp_load_device.
Qed.

Lemma wp_do_ds18b20_read_temp i h (Q : Z -> AppState -> Prop) s :
  0 <= i -> devices s !! Z.to_nat i = Some (Some h) ->
  (forall t w, ds18b20_read_temp h (world s) = (t, w) ->
     Q t (emit (call_ds18b20_read_temp i t) w s)) ->
  wp (do_ds18b20_read_temp i) Q s.
Proof.
  intros Hi Hh HQ. unfold do_ds18b20_read_temp.
  apply wp_bind. eapply wp_load_device; [done..|]. unfold wp.
  destruct (ds18b20_read_temp h (world s)) as [t w] eqn:E. by apply HQ.
Qed.

End Facts.

#[export] Hint Resolve now_printf now_owb_use_crc now_ds18b20_free
  now_ds18b20_convert_all now_vTaskDelay_le now_wait_for_conversion_le
  now_xTaskGetTickCount_le now_owb_rmt_initialize now_owb_search_first
  now_owb_search_next now_owb_verify_rom now_ds18b20_malloc now_ds18b20_init
  now_ds18b20_init_solo now_ds18b20_use_crc now_ds18b20_set_resolution
  now_ds18b20_read_temp : clock.
