(* ===== verification/Crc8.v ===== *)
(** * Crc8: the CRC of ROM codes

    The last byte of a ROM code is the CRC-8 of the seven before it, with
    the polynomial x^8 + x^5 + x^4 + 1 of the 1-Wire devices.  The libraries
    compute it; [app_main] switches the check on (line 63) and carries one
    ROM code as a literal (lines 91-95).  This file has the CRC bit by bit
    and by table, shows that the two agree, that a message followed by its
    CRC has CRC zero, that a change of a single byte changes the CRC, and
    that the literal of the program is a ROM code that passes the check. *)

From Stdlib Require Import ZArith Lia String.
From stdpp Require Import prelude strings.
From S2P Require Import Prelude Machine OneWire Ds18b20 Rtos AppMain.

#[local] Open Scope Z_scope.

(** One shift of the register, least significant bit first: the
    polynomial, reflected, is [0x8C]. *)
Definition crc8_shift (c : Z) : Z :=
  if Z.testbit c 0 then Z.lxor (Z.shiftr c 1) 0x8C else Z.shiftr c 1.

(** The register after the byte [b]. *)
Definition crc8_byte (c b : Z) : Z := Nat.iter 8 crc8_shift (Z.lxor c b).

Definition crc8 (bs : list Z) : Z := foldl crc8_byte 0 bs.

(** The same with a table of 256 entries. *)
Definition crc8_table : list Z :=
  Eval vm_compute in (fun i => Nat.iter 8 crc8_shift (Z.of_nat i)) <$> seq 0 256.

Definition crc8_byte_table (c b : Z) : Z := crc8_table !!! Z.to_nat (Z.lxor c b).

Definition crc8_table_driven (bs : list Z) : Z := foldl crc8_byte_table 0 bs.

(** The invariant of a ROM code when CRC validation is on. *)
Definition rom_crc_ok (r : OneWireBus_ROMCode) : bool :=
  crc8 (family r :: serial_number r) =? crc r.

(** All bytes. *)
Definition bytes : list Z := Z.of_nat <$> seq 0 256.

(** ** Bytes, by enumeration. *)

Lemma elem_of_bytes b : in_u8 b -> b ∈ bytes.
Proof.
  intros Hb. unfold bytes. apply list_elem_of_fmap. exists (Z.to_nat b).
  split; [unfold in_u8 in Hb; lia|]. apply elem_of_seq. unfold in_u8 in Hb. lia.
Qed.

(** A decidable property that holds of the 256 bytes holds of every byte. *)
Lemma forall_bytes (P : Z -> Prop) `{!forall b, Decision (P b)} :
  bool_decide (Forall P bytes) = true -> forall b, in_u8 b -> P b.
Proof.
  intros HP%bool_decide_eq_true b Hb. rewrite Forall_forall in HP.
  by apply HP, elem_of_bytes.
Qed.

Lemma lxor_u8 a b : in_u8 a -> in_u8 b -> in_u8 (Z.lxor a b).
Proof.
  unfold in_u8. intros Ha Hb. split; [apply Z.lxor_nonneg; lia|].
  destruct (Z.eq_dec (Z.lxor a b) 0) as [->|Hne]; [lia|].
  apply (Z.log2_lt_cancel _ 256). change (Z.log2 256) with 8.
  pose proof (Z.log2_lxor a b ltac:(lia) ltac:(lia)).
  assert (Z.log2 a < 8) by (destruct (Z.eq_dec a 0) as [->|]; [done | apply Z.log2_lt_pow2; lia]).
  assert (Z.log2 b < 8) by (destruct (Z.eq_dec b 0) as [->|]; [done | apply Z.log2_lt_pow2; lia]).
  lia.
Qed.

Lemma lxor_cancel_l c b b' : Z.lxor c b = Z.lxor c b' -> b = b'.
Proof.
  intros Heq. apply (f_equal (Z.lxor c)) in Heq.
  by rewrite <- !Z.lxor_assoc, Z.lxor_nilpotent, !Z.lxor_0_l in Heq.
Qed.

(** ** The register. *)

Lemma crc8_register_u8 x : in_u8 x -> in_u8 (Nat.iter 8 crc8_shift x).
Proof.
  revert x. apply (forall_bytes (fun x => in_u8 (Nat.iter 8 crc8_shift x))). by vm_compute.
Qed.

Lemma crc8_register_table x :
  in_u8 x -> crc8_table !!! Z.to_nat x = Nat.iter 8 crc8_shift x.
Proof.
  revert x.
  apply (forall_bytes (fun x => crc8_table !!! Z.to_nat x = Nat.iter 8 crc8_shift x)).
  by vm_compute.
Qed.

(** The eight shifts are a permutation of the bytes. *)
Lemma crc8_register_inj x y :
  in_u8 x -> in_u8 y -> Nat.iter 8 crc8_shift x = Nat.iter 8 crc8_shift y -> x = y.
Proof.
  intros Hx Hy Heq.
  assert (NoDup ((fun b => Nat.iter 8 crc8_shift b) <$> bytes)) as Hnd.
  { apply (bool_decide_unpack _). by vm_compute. }
  apply elem_of_bytes in Hx as [i Hi]%list_elem_of_lookup.
  apply elem_of_bytes in Hy as [j Hj]%list_elem_of_lookup.
  assert (i = j) as ->; [|congruence].
  eapply (NoDup_lookup _ i j); [done| |]; rewrite list_lookup_fmap.
  - by rewrite Hi.
  - by rewrite Hj, Heq.
Qed.

Lemma crc8_byte_u8 c b : in_u8 c -> in_u8 b -> in_u8 (crc8_byte c b).
Proof. intros. by apply crc8_register_u8, lxor_u8. Qed.

Lemma crc8_byte_inj_r c b b' :
  in_u8 c -> in_u8 b -> in_u8 b' -> crc8_byte c b = crc8_byte c b' -> b = b'.
Proof.
  intros Hc Hb Hb' Heq%crc8_register_inj; [|by apply lxor_u8..].
  by apply lxor_cancel_l in Heq.
Qed.

Lemma crc8_byte_inj_l c c' b :
  in_u8 c -> in_u8 c' -> in_u8 b -> crc8_byte c b = crc8_byte c' b -> c = c'.
Proof.
  intros Hc Hc' Hb Heq%crc8_register_inj; [|by apply lxor_u8..].
  rewrite (Z.lxor_comm c), (Z.lxor_comm c') in Heq. by apply lxor_cancel_l in Heq.
Qed.

Lemma foldl_crc8_u8 c bs : in_u8 c -> Forall in_u8 bs -> in_u8 (foldl crc8_byte c bs).
Proof.
  intros Hc Hbs. revert c Hc. induction Hbs as [|b bs Hb _ IH]; intros c Hc; [done|].
  cbn [foldl]. by apply IH, crc8_byte_u8.
Qed.

Lemma crc8_u8 bs : Forall in_u8 bs -> in_u8 (crc8 bs).
Proof. by apply foldl_crc8_u8. Qed.

(** Registers that differ stay different over the same bytes. *)
Lemma foldl_crc8_inj c c' bs :
  in_u8 c -> in_u8 c' -> Forall in_u8 bs ->
  foldl crc8_byte c bs = foldl crc8_byte c' bs -> c = c'.
Proof.
  intros Hc Hc' Hbs. revert c c' Hc Hc'.
  induction Hbs as [|b bs Hb _ IH]; intros c c' Hc Hc'; [done|]. cbn [foldl].
  intros Heq%IH; [|by apply crc8_byte_u8..]. by apply (crc8_byte_inj_l c c' b).
Qed.

(** ** The theorems. *)

(** The table gives what the shifts give. *)
Lemma crc8_table_driven_eq bs : Forall in_u8 bs -> crc8_table_driven bs = crc8 bs.
Proof.
  unfold crc8_table_driven, crc8. generalize 0 (ltac:(done) : in_u8 0).
  intros c Hc Hbs. revert c Hc. induction Hbs as [|b bs Hb _ IH]; intros c Hc; [done|].
  cbn [foldl]. unfold crc8_byte_table at 2. rewrite crc8_register_table by (by apply lxor_u8).
  by apply IH, crc8_byte_u8.
Qed.

(** A message followed by its CRC has CRC zero: how the receiver checks. *)
Lemma crc8_check bs : crc8 (bs ++ [crc8 bs]) = 0.
Proof. unfold crc8. rewrite foldl_app. cbn [foldl]. unfold crc8_byte. by rewrite Z.lxor_nilpotent. Qed.

(** A change of one byte changes the CRC. *)
Lemma crc8_detects_byte l1 b b' l2 :
  Forall in_u8 l1 -> in_u8 b -> in_u8 b' -> Forall in_u8 l2 ->
  crc8 (l1 ++ b :: l2) = crc8 (l1 ++ b' :: l2) -> b = b'.
Proof.
  intros H1 Hb Hb' H2. unfold crc8. rewrite !foldl_app. cbn [foldl].
  pose proof (crc8_u8 l1 H1) as Hc. unfold crc8 in Hc.
  intros Heq%foldl_crc8_inj; [|by apply crc8_byte_u8..|done].
  by apply (crc8_byte_inj_r (foldl crc8_byte 0 l1) b b').
Qed.

(** The check as the receiver makes it: the CRC of all eight bytes is
    zero. *)
Lemma rom_crc_ok_zero r : rom_wf r -> rom_crc_ok r = true <-> crc8 (rom_bytes r) = 0.
Proof.
  intros (Hf & _ & Hs & Hc). unfold rom_crc_ok.
  assert (crc8 (rom_bytes r) = crc8_byte (crc8 (family r :: serial_number r)) (crc r)) as ->.
  { unfold rom_bytes, crc8. by rewrite app_comm_cons, foldl_app. }
  assert (in_u8 (crc8 (family r :: serial_number r))) as Hu by (by apply crc8_u8; constructor).
  rewrite Z.eqb_eq. split.
  - intros ->. unfold crc8_byte. by rewrite Z.lxor_nilpotent.
  - intros Heq. apply (crc8_byte_inj_r (crc8 (family r :: serial_number r))); try done.
    rewrite Heq. unfold crc8_byte. by rewrite Z.lxor_nilpotent.
Qed.


(** C29: a ROM code that differs from [known_device] in one byte fails
    the check.  If one byte of the known ROM code is changed on the way,
    the family code, a byte of the serial number or the CRC itself, the
    CRC no longer matches. *)
Theorem known_device_corruption_detected r l1 b b' l2 :
  rom_wf r -> rom_bytes known_device = l1 ++ b :: l2 -> rom_bytes r = l1 ++ b' :: l2 ->
  b <> b' -> rom_crc_ok r = false.
Proof.
  intros Hr Ek Er Hne. apply not_true_is_false. intros Hok%rom_crc_ok_zero; [|done].
  assert (crc8 (rom_bytes known_device) = 0) as Hk by (by vm_compute).
  assert (Forall in_u8 (rom_bytes known_device)) as Hku by (by_compute).
  assert (Forall in_u8 (rom_bytes r)) as Hru.
  { destruct Hr as (? & _ & ? & ?). unfold rom_bytes. constructor; [done|].
    apply Forall_app. by split; [|constructor]. }
  rewrite Ek in Hk, Hku. rewrite Er in Hok, Hru.
  apply Forall_app in Hku as [H1 [Hb H2]%Forall_cons].
  apply Forall_app in Hru as [_ [Hb' _]%Forall_cons].
  apply Hne, (crc8_detects_byte l1 b b' l2); try done. congruence.
Qed.

(** The family code arrives as [0x29]. *)
Lemma known_device_corruption_detected_witness :
  rom_crc_ok (mkROMCode 0x29 [0xee; 0xcc; 0x87; 0x2e; 0x16; 0x01] 0x00) = false.
Proof.
  apply (known_device_corruption_detected
    (mkROMCode 0x29 [0xee; 0xcc; 0x87; 0x2e; 0x16; 0x01] 0x00)
    [] 0x28 0x29 [0xee; 0xcc; 0x87; 0x2e; 0x16; 0x01; 0x00]);
    [by_compute | reflexivity | reflexivity | done].
Defined.
