(* ===== verification/Scratchpad.v ===== *)
(** * Scratchpad: what a reading is decoded from

    [ds18b20_read_temp] is esp32-ds18b20, outside [src/]: the program sees
    the [float] it returns.  This file models, from sections 3 and 4.3 of
    the specification, what is behind that call: the nine bytes of the
    scratchpad, the CRC-8 over the first eight, the signed 16-bit word of
    bytes 0 and 1, the mask of the bits a resolution does not use, and the
    reading in sixteenths of a degree, with the sentinel in place of a
    reading whose CRC fails.  The theorems are the decode laws of section 8
    and what they give at [DS18B20_RESOLUTION], the resolution [app_main]
    configures (line 132). *)

From Stdlib Require Import ZArith Lia String.
From stdpp Require Import prelude strings.
From S2P Require Import Prelude Machine OneWire Ds18b20 Rtos AppMain Crc8.

#[local] Open Scope Z_scope.

(** The per-device RAM, byte by byte. *)
Record Scratchpad : Type := mkScratchpad {
  sp_temp_lsb : Z;
  sp_temp_msb : Z;
  sp_t_h : Z;
  sp_t_l : Z;
  sp_config : Z;
  sp_reserved : Z * Z * Z;
  sp_crc : Z;
}.

(** The eight bytes the CRC is computed over, in the order they are
    clocked out. *)
Definition scratchpad_data (sp : Scratchpad) : list Z :=
  [sp_temp_lsb sp; sp_temp_msb sp; sp_t_h sp; sp_t_l sp; sp_config sp;
   (sp_reserved sp).1.1; (sp_reserved sp).1.2; (sp_reserved sp).2].

Definition scratchpad_wf (sp : Scratchpad) : Prop :=
  Forall in_u8 (scratchpad_data sp) /\ in_u8 (sp_crc sp).

#[export] Instance scratchpad_wf_dec sp : Decision (scratchpad_wf sp).
Proof. unfold scratchpad_wf. apply _. Defined.

Definition scratchpad_crc_ok (sp : Scratchpad) : bool :=
  crc8 (scratchpad_data sp) =? sp_crc sp.

(** The configuration register holds the resolution in bits 5 and 6. *)
Definition config_resolution (config : Z) : Resolution :=
  match Z.land (Z.shiftr config 5) 3 with
  | 0 => DS18B20_RESOLUTION_9_BIT
  | 1 => DS18B20_RESOLUTION_10_BIT
  | 2 => DS18B20_RESOLUTION_11_BIT
  | _ => DS18B20_RESOLUTION_12_BIT
  end.

Definition resolution_config (r : Resolution) : Z :=
  Z.lor (Z.shiftl (resolution_bits r - 9) 5) 0x1F.

(** Bytes 0 and 1 as a signed 16-bit word, little-endian. *)
Definition raw_temperature (sp : Scratchpad) : Z :=
  let w := sp_temp_lsb sp + 256 * sp_temp_msb sp in
  if w <? 32768 then w else w - 65536.

(** The two bytes of a word. *)
Definition encode_temperature (t : Z) : Z * Z := (t mod 256, (t / 256) mod 256).

(** The fractional bits a resolution does not use. *)
Definition unused_bits (r : Resolution) : Z := 12 - resolution_bits r.

(** The reading in sixteenths of a degree: the word with the unused bits
    masked off. *)
Definition decode_temperature (r : Resolution) (sp : Scratchpad) : Z :=
  Z.ldiff (raw_temperature sp) (Z.ones (unused_bits r)).

(** What a read returns: the sentinel [invalid] when the CRC is checked and
    fails, the decoded reading otherwise. *)
Definition scratchpad_reading (use_crc : bool) (r : Resolution) (invalid : Z)
    (sp : Scratchpad) : Z :=
  if use_crc && negb (scratchpad_crc_ok sp) then invalid else decode_temperature r sp.

(** A scratchpad with the word [lsb], [msb] and nothing else. *)
Definition scratchpad_of (lsb msb : Z) : Scratchpad :=
  mkScratchpad lsb msb 0 0 0 (0, 0, 0) 0.

(** ** The word. *)


Lemma raw_temperature_range sp :
  in_u8 (sp_temp_lsb sp) -> in_u8 (sp_temp_msb sp) -> -32768 <= raw_temperature sp < 32768.
Proof. unfold in_u8, raw_temperature. intros. cbn zeta. case_match; lia. Qed.


Lemma config_resolution_config r : config_resolution (resolution_config r) = r.
Proof. by destruct r. Qed.

(** ** The CRC. *)

Lemma scratchpad_crc_ok_data sp sp' :
  scratchpad_crc_ok sp = true -> scratchpad_crc_ok sp' = true -> sp_crc sp = sp_crc sp' ->
  crc8 (scratchpad_data sp) = crc8 (scratchpad_data sp').
Proof. unfold scratchpad_crc_ok. intros ?%Z.eqb_eq ?%Z.eqb_eq. congruence. Qed.

(** ** The theorems. *)



(** C32: a word survives the scratchpad.  Every 16-bit signed value,
    stored as its two bytes, is decoded to itself at [DS18B20_RESOLUTION];
    in particular every legitimate temperature, from -55 to +125 degrees, is
    read back as it was measured. *)
Theorem encode_decode_temperature t :
  -32768 <= t < 32768 ->
  let '(lsb, msb) := encode_temperature t in
  in_u8 lsb /\ in_u8 msb /\
  decode_temperature DS18B20_RESOLUTION (scratchpad_of lsb msb) = t.
Proof.
  intros Ht. unfold encode_temperature, in_u8, decode_temperature, raw_temperature. cbn.
  rewrite Z.ldiff_0_r. split_and!; [Z.div_mod_to_equations; lia..|].
  case_match eqn:Hw; [apply Z.ltb_lt in Hw|apply Z.ltb_ge in Hw];
    Z.div_mod_to_equations; lia.
Qed.

(** C30: a corrupted scratchpad reads as the sentinel.  When a
    scratchpad whose CRC is right is received with one byte of its data
    changed, a handle that checks the CRC, as the handles of [app_main] do
    (line 131), returns the invalid sentinel and not a temperature, at
    [DS18B20_RESOLUTION] as at any resolution; a handle that does not check
    returns what it decodes. *)
Theorem scratchpad_corruption_gives_sentinel invalid sp sp' l1 b b' l2 :
  scratchpad_wf sp -> scratchpad_wf sp' -> scratchpad_crc_ok sp = true ->
  sp_crc sp' = sp_crc sp ->
  scratchpad_data sp = l1 ++ b :: l2 -> scratchpad_data sp' = l1 ++ b' :: l2 -> b <> b' ->
  scratchpad_reading true DS18B20_RESOLUTION invalid sp' = invalid /\
  scratchpad_reading false DS18B20_RESOLUTION invalid sp' = raw_temperature sp'.
Proof.
  intros [Hwf _] [Hwf' _] Hok Hcrc Hd Hd' Hne. unfold scratchpad_reading.
  split; [|cbn; unfold decode_temperature; cbn; apply Z.ldiff_0_r].
  destruct (scratchpad_crc_ok sp') eqn:Hok'; [exfalso|done]. apply Hne.
  rewrite Hd in Hwf. rewrite Hd' in Hwf'.
  apply Forall_app in Hwf as [H1 [Hb H2]%Forall_cons]. apply Forall_app in Hwf' as [_ [Hb' _]%Forall_cons].
  apply (crc8_detects_byte l1 b b' l2); [done..|]. rewrite <- Hd, <- Hd'.
  by apply scratchpad_crc_ok_data.
Qed.

(** ** The theorems at concrete scratchpads. *)

Lemma encode_decode_temperature_witness :
  let '(lsb, msb) := encode_temperature (-55 * 16) in
  in_u8 lsb /\ in_u8 msb /\
  decode_temperature DS18B20_RESOLUTION (scratchpad_of lsb msb) = -55 * 16.
Proof. apply (encode_decode_temperature (-55 * 16)). lia. Defined.

(** The power-on scratchpad of a DS18B20, and the same with bit 0 of the
    temperature flipped on the way. *)
Lemma scratchpad_corruption_gives_sentinel_witness :
  scratchpad_reading true DS18B20_RESOLUTION (-2048 * 16)
    (mkScratchpad 0x51 0x05 0x4B 0x46 0x7F (0xFF, 0x0C, 0x10) 0x1C) = -2048 * 16 /\
  scratchpad_reading false DS18B20_RESOLUTION (-2048 * 16)
    (mkScratchpad 0x51 0x05 0x4B 0x46 0x7F (0xFF, 0x0C, 0x10) 0x1C) =
    raw_temperature (mkScratchpad 0x51 0x05 0x4B 0x46 0x7F (0xFF, 0x0C, 0x10) 0x1C).
Proof.
  apply (scratchpad_corruption_gives_sentinel (-2048 * 16)
    (mkScratchpad 0x50 0x05 0x4B 0x46 0x7F (0xFF, 0x0C, 0x10) 0x1C)
    (mkScratchpad 0x51 0x05 0x4B 0x46 0x7F (0xFF, 0x0C, 0x10) 0x1C)
    [] 0x50 0x51 [0x05; 0x4B; 0x46; 0x7F; 0xFF; 0x0C; 0x10]);
    try by_compute; by vm_compute.
Defined.
