(* ===== verification/Search.v ===== *)
(** * Search: the ROM search of the bus adapter

    The search behind [owb_search_first] and [owb_search_next] is esp32-owb,
    outside [src/].  This file models it from section 4.1 of the
    specification: at each bit position the master reads two slots, which on
    a wired-AND bus say whether the devices still selected all have a 0
    there, all a 1, or both ([respond]); it writes the bit it chooses and so
    deselects the devices that have the other ([select]); at a conflict
    below the last discrepancy it follows the ROM code found before, at the
    last discrepancy it turns to 1, beyond it to 0, and the deepest conflict
    at which it turned to 0 seeds the next walk ([walk]).

    The devices are lists of bits of one length, first bit first; nothing
    here depends on that length being 64.  [leaves] is the specification of
    the enumeration: the devices on the bus, each once, ordered by the first
    bit that differs.  The theorems show that the walks find exactly
    [leaves], one device per walk, and then stop ([bus_enumerate_leaves]). *)

From Stdlib Require Import ZArith Lia.
From stdpp Require Import prelude sorting.

(** A ROM code on the wire: its bits, first sent first. *)
Abbreviation bits := (list bool).

(** What the master reads in the two slots of a bit position. *)
Inductive response : Type := AllZero | AllOne | Conflict | NoDevice.

Definition is_conflict (r : response) : bool :=
  match r with Conflict => true | _ => false end.

(** The bus is a wired AND: a slot reads 1 when no device pulls it low. *)
Definition id_bit (ds : list bits) : bool := forallb (fun d => hd true d) ds.
Definition cmp_id_bit (ds : list bits) : bool := forallb (fun d => negb (hd false d)) ds.

Definition respond (ds : list bits) : response :=
  match id_bit ds, cmp_id_bit ds with
  | true, true => NoDevice
  | true, false => AllOne
  | false, true => AllZero
  | false, false => Conflict
  end.

(** The devices that stay selected when the master writes [b]. *)
Definition select (b : bool) (ds : list bits) : list bits :=
  tail <$> filter (fun d => hd (negb b) d = b) ds.

(** One walk over the bits: from position [pos], with the last
    discrepancy [ld] and the ROM code [prev] of the walk before, over the
    devices [ds] still selected.  The result is the ROM code found and the
    deepest position at which the walk turned to 0 at a conflict (0 for
    none; positions count from 1). *)
Fixpoint walk (pos ld : nat) (prev : bits) (ds : list bits) : option (bits * nat) :=
  match prev with
  | [] => Some ([], 0%nat)
  | pb :: prev' =>
      match respond ds with
      | NoDevice => None
      | AllZero => '(r, lz) ← walk (S pos) ld prev' (select false ds); Some (false :: r, lz)
      | AllOne => '(r, lz) ← walk (S pos) ld prev' (select true ds); Some (true :: r, lz)
      | Conflict =>
          let dir := if decide (pos < ld)%nat then pb else bool_decide (pos = ld) in
          '(r, lz) ← walk (S pos) ld prev' (select dir ds);
          Some (dir :: r, if negb dir && bool_decide (lz = 0%nat) then pos else lz)
      end
  end.

(** The devices in the order of the walk. *)
Fixpoint leaves (n : nat) (ds : list bits) : list bits :=
  match n with
  | O => if decide (ds = []) then [] else [[]]
  | S n' => ((false ::.) <$> leaves n' (select false ds)) ++
            ((true ::.) <$> leaves n' (select true ds))
  end.

(** The deepest position at which [r] turns to 0 where devices answer 1 too. *)
Fixpoint ld_of (pos : nat) (r : bits) (ds : list bits) : nat :=
  match r with
  | [] => 0
  | b :: r' =>
      let deeper := ld_of (S pos) r' (select b ds) in
      if bool_decide (deeper = 0%nat)
      then (if negb b && is_conflict (respond ds) then pos else 0%nat)
      else deeper
  end.

(** The search state: the last ROM code found, the last discrepancy, and
    whether that was the last device. *)
Definition cursor : Type := bits * nat * bool.

Definition cursor_zero (n : nat) : cursor := (replicate n false, 0%nat, false).

(** One step of the search over the devices [ds] of [n] bits. *)
Definition search_step (n : nat) (ds : list bits) (st : cursor) : cursor * bool :=
  let '(prev, ld, last) := st in
  if last then (cursor_zero n, false)
  else match walk 1 ld prev ds with
       | Some (r, ld') => ((r, ld', bool_decide (ld' = 0%nat)), true)
       | None => (cursor_zero n, false)
       end.

(** The ROM codes found from the state [st] on, in at most [fuel] steps. *)
Fixpoint enumerate_from (fuel n : nat) (ds : list bits) (st : cursor) : list bits :=
  match fuel with
  | O => []
  | S fuel' =>
      let '(st', found) := search_step n ds st in
      if found then st'.1.1 :: enumerate_from fuel' n ds st' else []
  end.

(** A whole enumeration: a device more than there are would be found in
    [length ds + 1] steps. *)
Definition bus_enumerate (n : nat) (ds : list bits) : list bits :=
  enumerate_from (S (length ds)) n ds (cursor_zero n).

(** The order of the walk: by the first bit that differs, 0 first. *)
Fixpoint bits_lt (r1 r2 : bits) : Prop :=
  match r1, r2 with
  | b1 :: r1', b2 :: r2' => (b1 = false /\ b2 = true) \/ (b1 = b2 /\ bits_lt r1' r2')
  | _, _ => False
  end.

Definition wf (n : nat) (ds : list bits) : Prop := Forall (fun d => length d = n) ds.

Lemma select_wf n b ds : wf (S n) ds -> wf n (select b ds).
Proof.
  unfold wf, select. intros Hwf. apply Forall_fmap, Forall_forall.
  intros d [_ Hd]%list_elem_of_filter. rewrite Forall_forall in Hwf.
  specialize (Hwf d Hd). destruct d; cbn in *; lia.
Qed.

Lemma select_nil b : select b [] = [].
Proof. done. Qed.

Lemma select_cons b d ds :
  select b (d :: ds) = if decide (hd (negb b) d = b) then tail d :: select b ds else select b ds.
Proof. unfold select. rewrite filter_cons. by destruct (decide _). Qed.

Lemma id_bit_select n ds : wf (S n) ds -> id_bit ds = true <-> select false ds = [].
Proof.
  induction ds as [|d ds IH]; [done|]. intros [Hd Hds]%Forall_cons.
  rewrite select_cons. cbn. destruct d as [|[] d]; cbn in *; [lia| |].
  - rewrite decide_False by done. by apply IH.
  - rewrite decide_True by done. split; done.
Qed.

Lemma cmp_id_bit_select n ds : wf (S n) ds -> cmp_id_bit ds = true <-> select true ds = [].
Proof.
  induction ds as [|d ds IH]; [done|]. intros [Hd Hds]%Forall_cons.
  rewrite select_cons. cbn. destruct d as [|[] d]; cbn in *; [lia| |].
  - rewrite decide_True by done. split; done.
  - rewrite decide_False by done. by apply IH.
Qed.

Lemma select_both_nil n ds : wf (S n) ds -> select false ds = [] -> select true ds = [] -> ds = [].
Proof.
  destruct ds as [|d ds]; [done|]. intros [Hd _]%Forall_cons. rewrite !select_cons.
  destruct d as [|[] d]; cbn in *; [lia|..]; repeat case_decide; done.
Qed.

(** The response tells which branches have devices. *)
Lemma respond_spec n ds :
  wf (S n) ds ->
  match respond ds with
  | NoDevice => ds = []
  | AllZero => select false ds <> [] /\ select true ds = []
  | AllOne => select false ds = [] /\ select true ds <> []
  | Conflict => select false ds <> [] /\ select true ds <> []
  end.
Proof.
  intros Hwf. unfold respond.
  pose proof (id_bit_select n ds Hwf) as Hi. pose proof (cmp_id_bit_select n ds Hwf) as Hc.
  destruct (id_bit ds), (cmp_id_bit ds).
  - apply (select_both_nil n); [done|by apply Hi|by apply Hc].
  - split; [by apply Hi|]. intros ?%Hc. done.
  - split; [|by apply Hc]. intros ?%Hi. done.
  - split; [intros ?%Hi|intros ?%Hc]; done.
Qed.

Lemma leaves_nil n ds : wf n ds -> leaves n ds = [] <-> ds = [].
Proof.
  revert ds. induction n as [|n IH]; intros ds Hwf; cbn.
  { by destruct (decide (ds = [])). }
  rewrite app_nil. split.
  - intros [H0%fmap_nil_inv H1%fmap_nil_inv].
    apply (proj1 (IH _ (select_wf n _ ds Hwf))) in H0, H1. by apply (select_both_nil n).
  - intros ->. by rewrite !select_nil, !(proj2 (IH [] (Forall_nil_2 _))).
Qed.

Lemma leaves_empty n : leaves n [] = [].
Proof. by apply leaves_nil; [apply Forall_nil_2|]. Qed.

Lemma lookup_branches (L0 L1 : list bits) k b r :
  (((false ::.) <$> L0) ++ ((true ::.) <$> L1)) !! k = Some (b :: r) <->
  (b = false /\ L0 !! k = Some r) \/
  (b = true /\ (length L0 <= k)%nat /\ L1 !! (k - length L0)%nat = Some r).
Proof.
  rewrite lookup_app_Some, !list_lookup_fmap, !fmap_Some, length_fmap. split.
  - intros [(x & ? & [= <- <-])|(? & x & ? & [= <- <-])]; eauto.
  - intros [[-> ?]|(-> & ? & ?)]; eauto.
Qed.

Lemma lookup_branches_next (L : bool -> list bits) k b r :
  (((false ::.) <$> L false) ++ ((true ::.) <$> L true)) !! k = Some (b :: r) ->
  exists k', L b !! k' = Some r /\
    forall r', L b !! S k' = Some r' ->
      (((false ::.) <$> L false) ++ ((true ::.) <$> L true)) !! S k = Some (b :: r').
Proof.
  intros [[-> Hk]|(-> & ? & Hk)]%lookup_branches.
  - exists k. split; [done|]. intros r' Hr'. apply lookup_branches. by left.
  - exists (k - length (L false))%nat. split; [done|].
    intros r' Hr'. apply lookup_branches. right. split_and!; [done|lia|].
    by rewrite <- Hr', Nat.sub_succ_l.
Qed.

(** [ld_of] is a position of the walk, or none. *)
Lemma ld_of_range pos r ds : ld_of pos r ds = 0%nat \/ (pos <= ld_of pos r ds)%nat.
Proof.
  revert pos ds. induction r as [|b r IH]; intros pos ds; cbn; [by left|].
  destruct (IH (S pos) (select b ds)) as [->|Hle]; cbn.
  - destruct (negb b && _); auto.
  - case_bool_decide; [lia|right; lia].
Qed.

(** One step of [ld_of], by the response. *)
Lemma ld_of_cons pos b r ds :
  ld_of pos (b :: r) ds =
  let deeper := ld_of (S pos) r (select b ds) in
  if negb b && is_conflict (respond ds) && bool_decide (deeper = 0%nat)
  then pos else deeper.
Proof.
  cbn. case_bool_decide as Hd; [rewrite Hd|]; destruct (negb b && _); cbn; done.
Qed.

(** The first walk, and every walk below the last discrepancy: the first
    device in the order of [leaves]. *)
Lemma walk_first prev ds pos ld :
  wf (length prev) ds -> ds <> [] -> (ld < pos)%nat ->
  exists m, leaves (length prev) ds !! 0%nat = Some m /\
            walk pos ld prev ds = Some (m, ld_of pos m ds).
Proof.
  revert ds pos. induction prev as [|pb prev IH]; intros ds pos Hwf Hne Hld.
  { cbn. rewrite decide_False by done. by exists []. }
  cbn [length leaves walk] in *. pose proof (respond_spec _ _ Hwf) as Hr.
  pose proof (select_wf _ false _ Hwf) as Hwf0. pose proof (select_wf _ true _ Hwf) as Hwf1.
  destruct (respond ds) eqn:Er; [| | |done].
  - destruct Hr as [H0 H1].
    destruct (IH (select false ds) (S pos)) as (m & Hm & Hw); [done|done|lia|].
    exists (false :: m). split; [apply lookup_branches; by left|].
    rewrite Hw, ld_of_cons, Er. done.
  - destruct Hr as [H0 H1].
    destruct (IH (select true ds) (S pos)) as (m & Hm & Hw); [done|done|lia|].
    exists (true :: m). split.
    + apply lookup_branches. right.
      rewrite (proj2 (leaves_nil _ _ Hwf0) H0). done.
    + rewrite Hw, ld_of_cons, Er. done.
  - destruct Hr as [H0 H1]. rewrite decide_False, bool_decide_eq_false_2 by lia.
    destruct (IH (select false ds) (S pos)) as (m & Hm & Hw); [done|done|lia|].
    exists (false :: m). split; [apply lookup_branches; by left|].
    rewrite Hw, ld_of_cons, Er. done.
Qed.

(** A device with no discrepancy left is the last one. *)
Lemma ld_of_zero_last r ds pos k :
  wf (length r) ds -> leaves (length r) ds !! k = Some r -> (0 < pos)%nat ->
  ld_of pos r ds = 0%nat -> S k = length (leaves (length r) ds).
Proof.
  revert ds pos k. induction r as [|b r IH]; intros ds pos k Hwf Hk Hpos Hld.
  { cbn in *. destruct (decide (ds = [])); [done|]. by destruct k. }
  cbn [length leaves] in *. pose proof (respond_spec _ _ Hwf) as Hr.
  pose proof (select_wf _ false _ Hwf) as Hwf0. pose proof (select_wf _ true _ Hwf) as Hwf1.
  rewrite ld_of_cons in Hld. cbn zeta in Hld. rewrite length_app, !length_fmap.
  apply lookup_branches in Hk as [[-> Hk]|(-> & Hle & Hk)]; cbn [negb andb] in Hld.
  - destruct (respond ds) eqn:Er; cbn in Hld; destruct_and? Hr.
    + rewrite (proj2 (leaves_nil _ _ Hwf1)) by done. cbn. rewrite Nat.add_0_r.
      apply (IH _ (S pos)); [done|done|lia|done].
    + rewrite (proj2 (leaves_nil _ _ Hwf0)) in Hk by done. done.
    + case_bool_decide; lia.
    + subst. by rewrite select_nil, leaves_empty in Hk.
  - apply (IH _ (S pos)) in Hk; [lia|done|lia|done].
Qed.

(** A walk seeded with a device and its last discrepancy: the next device
    in the order of [leaves], with its own last discrepancy. *)
Lemma walk_next r ds pos k :
  wf (length r) ds -> leaves (length r) ds !! k = Some r -> (0 < pos)%nat ->
  ld_of pos r ds <> 0%nat ->
  exists r', leaves (length r) ds !! S k = Some r' /\
             walk pos (ld_of pos r ds) r ds = Some (r', ld_of pos r' ds).
Proof.
  revert ds pos k. induction r as [|b r IH]; intros ds pos k Hwf Hk Hpos Hld; [done|].
  cbn [length leaves walk] in *. pose proof (respond_spec _ _ Hwf) as Hr.
  pose proof (select_wf _ false _ Hwf) as Hwf0. pose proof (select_wf _ true _ Hwf) as Hwf1.
  rewrite ld_of_cons in *. cbn zeta in *.
  destruct (ld_of_range (S pos) r (select b ds)) as [Hz|Hle].
  - (* the discrepancy is here: turn to 1 *)
    rewrite Hz in *. rewrite bool_decide_eq_true_2, andb_true_r in * by done.
    destruct b, (respond ds) eqn:Er; try done. cbn in *. destruct Hr as [H0 H1].
    apply lookup_branches in Hk as [[_ Hk]|[? _]]; [|done].
    rewrite decide_False, bool_decide_eq_true_2 by lia.
    apply (ld_of_zero_last _ _ (S pos)) in Hk as Hlast; [|done|lia|done].
    destruct (walk_first r (select true ds) (S pos) pos) as (m & Hm & Hw); [done|done|lia|].
    exists (true :: m). rewrite Hw, ld_of_cons. split; [|done].
    apply lookup_branches. right. by rewrite Hlast, Nat.sub_diag.
  - (* the discrepancy is deeper: follow the previous device *)
    rewrite (bool_decide_eq_false_2 (ld_of _ _ _ = 0%nat)), andb_false_r in * by lia.
    destruct (lookup_branches_next (fun b => leaves (length r) (select b ds)) _ _ _ Hk)
      as (k' & Hk' & Hnext). cbn beta in *.
    assert (wf (length r) (select b ds)) as Hwfb by by destruct b.
    destruct (IH (select b ds) (S pos) k' Hwfb Hk') as (r' & Hr' & Hw); [lia..|].
    exists (b :: r'). split; [by apply Hnext|]. rewrite ld_of_cons. cbn zeta.
    destruct (respond ds) eqn:Er; cbn; try (by subst).
    + destruct b; [by destruct Hr as [_ ?]; rewrite (proj2 (leaves_nil _ _ Hwf1)) in Hk'|].
      by rewrite Hw.
    + destruct b; [|by destruct Hr as [? _]; rewrite (proj2 (leaves_nil _ _ Hwf0)) in Hk'].
      by rewrite Hw.
    + rewrite decide_True by lia. rewrite Hw. by rewrite andb_true_r.
    + subst. by rewrite select_nil, leaves_empty in Hk'.
Qed.

(** ** What [leaves] holds. *)

Lemma elem_of_select b r ds : r ∈ select b ds <-> b :: r ∈ ds.
Proof.
  unfold select. rewrite list_elem_of_fmap. split.
  - intros (d & -> & [Hd ?]%list_elem_of_filter). destruct d as [|b' d]; cbn in *; [by destruct b|].
    by subst.
  - intros Hin. exists (b :: r). split; [done|]. by apply list_elem_of_filter.
Qed.

Lemma elem_of_leaves n ds r : wf n ds -> r ∈ leaves n ds <-> r ∈ ds.
Proof.
  revert ds r. induction n as [|n IH]; intros ds r Hwf; cbn.
  - unfold wf in Hwf. rewrite Forall_forall in Hwf. destruct (decide (ds = [])) as [->|Hne]; [done|].
    rewrite list_elem_of_singleton. split.
    + intros ->. destruct ds as [|d ds]; [done|].
      assert (d = []) as -> by (apply nil_length_inv, Hwf; by left). by left.
    + intros Hr. by apply nil_length_inv, Hwf.
  - rewrite elem_of_app, !list_elem_of_fmap. split.
    + intros [(r0 & -> & Hr)|(r0 & -> & Hr)];
        apply (proj1 (IH _ _ (select_wf _ _ _ Hwf))) in Hr; by apply elem_of_select.
    + intros Hr. pose proof (proj1 (Forall_forall _ _) Hwf r Hr) as Hlen.
      destruct r as [|[] r0]; [done|right|left]; exists r0; (split; [done|]);
        (apply IH; [by apply select_wf|by apply elem_of_select]).
Qed.

Lemma NoDup_leaves n ds : NoDup (leaves n ds).
Proof.
  revert ds. induction n as [|n IH]; intros ds; cbn.
  - destruct (decide _); [constructor|apply NoDup_singleton].
  - apply NoDup_app. split_and!; [apply (NoDup_fmap_2 _), IH| |apply (NoDup_fmap_2 _), IH].
    intros r (r0 & -> & _)%list_elem_of_fmap (r1 & [=] & _)%list_elem_of_fmap.
Qed.

Lemma leaves_sorted n ds : StronglySorted bits_lt (leaves n ds).
Proof.
  revert ds. induction n as [|n IH]; intros ds; cbn.
  - destruct (decide _); repeat constructor.
  - apply StronglySorted_app_2.
    + intros r1 r2 (r1' & -> & _)%list_elem_of_fmap (r2' & -> & _)%list_elem_of_fmap.
      cbn. by left.
    + eapply StronglySorted_fmap, IH. intros r1 r2 ?. cbn. by right.
    + eapply StronglySorted_fmap, IH. intros r1 r2 ?. cbn. by right.
Qed.

Lemma length_select ds : (length (select false ds) + length (select true ds) <= length ds)%nat.
Proof.
  induction ds as [|d ds IH]; [done|]. rewrite !select_cons. cbn.
  destruct d as [|[] d]; cbn; repeat case_decide; cbn; try done; lia.
Qed.

Lemma length_leaves n ds : (length (leaves n ds) <= length ds)%nat.
Proof.
  revert ds. induction n as [|n IH]; intros ds; cbn.
  - destruct (decide (ds = [])) as [->|]; [done|]. destruct ds; [done|cbn; lia].
  - rewrite length_app, !length_fmap. pose proof (length_select ds).
    pose proof (IH (select false ds)). pose proof (IH (select true ds)). lia.
Qed.

Lemma leaves_lookup_length n ds k r : wf n ds -> leaves n ds !! k = Some r -> length r = n.
Proof.
  intros Hwf Hk%list_elem_of_lookup_2%elem_of_leaves; [|done].
  unfold wf in Hwf. rewrite Forall_forall in Hwf. by apply Hwf.
Qed.

(** ** The enumeration. *)

(** From the [k]th device on. *)
Lemma enumerate_from_leaves fuel n ds k r :
  wf n ds -> leaves n ds !! k = Some r ->
  (length (leaves n ds) <= fuel + S k)%nat ->
  enumerate_from fuel n ds (r, ld_of 1 r ds, bool_decide (ld_of 1 r ds = 0%nat)) =
  drop (S k) (leaves n ds).
Proof.
  revert k r. induction fuel as [|fuel IH]; intros k r Hwf Hk Hfuel.
  { apply lookup_lt_Some in Hk as Hlt. symmetry. apply drop_ge. lia. }
  pose proof (leaves_lookup_length _ _ _ _ Hwf Hk) as <-. cbn [enumerate_from search_step].
  case_bool_decide as Hld.
  - symmetry. apply drop_ge. rewrite <- (ld_of_zero_last r ds 1 k); [done..|lia|done].
  - destruct (walk_next r ds 1 k) as (r' & Hr' & ->); [done|done|lia|done|]. cbn.
    rewrite (drop_S _ _ _ Hr'). f_equal. apply IH; [done|done|lia].
Qed.

(** The search finds every device once, in the order of [leaves]. *)
Lemma bus_enumerate_leaves n ds : wf (S n) ds -> bus_enumerate (S n) ds = leaves (S n) ds.
Proof.
  intros Hwf. unfold bus_enumerate, cursor_zero. cbn [enumerate_from search_step].
  destruct (decide (ds = [])) as [->|Hne]; [by rewrite leaves_empty|].
  destruct (walk_first (replicate (S n) false) ds 1 0) as (m & Hm & Hw);
    [by rewrite length_replicate|done|lia|].
  rewrite length_replicate in Hm. rewrite Hw. cbn.
  rewrite (enumerate_from_leaves _ _ _ 0 m); [|done|done|pose proof (length_leaves (S n) ds); lia].
  by rewrite <- (drop_S _ _ _ Hm).
Qed.
