(* ===== verification/Scenarios.v ===== *)
(** * Scenarios: concrete buses for the scripted world

    The runs at which the theorems are applied: three thermometers of which
    the second fails its CRC check once, a single thermometer (solo mode),
    an empty bus, and a bus with nine devices, one more than the program has
    room for. *)

From Stdlib Require Import ZArith Lia String.
From stdpp Require Import prelude strings.
From S2P Require Import Prelude Machine OneWire Ds18b20 Rtos Clock Script AppMain.

#[local] Open Scope Z_scope.

(** Three ROM codes with their CRC bytes; the first is the known device. *)
Definition rom_pink : OneWireBus_ROMCode :=
  mkROMCode 0x28 [0xee; 0xcc; 0x87; 0x2e; 0x16; 0x01] 0x00.
Definition rom_green : OneWireBus_ROMCode :=
  mkROMCode 0x28 [0xee; 0x49; 0x61; 0x2c; 0x16; 0x02] 0xf4.
Definition rom_orange : OneWireBus_ROMCode :=
  mkROMCode 0x28 [0xee; 0xb2; 0xa5; 0x2c; 0x16; 0x02] 0x15.

(** Readings: 25.0625 degrees and rising slowly, except the fifth read
    (device 1 in the second sample), which fails its CRC check. *)
Definition temps_one_fault (k : nat) : Z :=
  if decide (k = 4%nat) then -2048 * 16 else 401 + Z.of_nat k.

(** Every call takes one tick. *)
Definition one_tick (k : nat) : Z := 1.

Definition three_devices : Script :=
  mkScript 10 [rom_pink; rom_green; rom_orange] [rom_pink] temps_one_fault one_tick.

Definition one_device : Script :=
  mkScript 10 [rom_green] [] temps_one_fault one_tick.

Definition no_device : Script :=
  mkScript 10 [] [] temps_one_fault one_tick.

(** Nine devices: the ROM codes differ in their last serial byte. *)
Definition nine_roms : list OneWireBus_ROMCode :=
  (fun k => mkROMCode 0x28 [0xee; 0xcc; 0x87; 0x2e; 0x16; Z.of_nat k] 0) <$> seq 0 9.

Definition nine_devices : Script :=
  mkScript 10 nine_roms [] temps_one_fault one_tick.

(** The same ROM code answered twice. *)
Definition twice_the_same : Script :=
  mkScript 10 [rom_pink; rom_pink] [rom_pink] temps_one_fault one_tick.

(** A slow bus: every call takes 40 ticks, so a sample overruns its period. *)
Definition slow_bus : Script :=
  mkScript 10 [rom_pink; rom_green] [rom_pink] temps_one_fault (fun _ => 40).

(** The program entered [t] ticks after boot, and the state it is in after
    each phase. *)
Definition boot (sc : Script) (t : Z) : AppState := initial_state (script_start sc t).

Definition started (sc : Script) : AppState := final (startup (boot sc 0)).

Definition searched (sc : Script) : AppState :=
  final ((startup ;; find_devices ;; verify_known_device)%prog (boot sc 0)).

(** The state at the head of [while (1)] after [n] samples, for a bus with
    a device. *)
Definition sampled (sc : Script) (n : nat) : AppState := final (app_main n (boot sc 0)).
