(* ===== verification/Enumeration.v ===== *)
(** * Enumeration: the search loop of [app_main] (lines 66-83)

    The loop copies every ROM code the search answers with into
    [device_rom_codes] and counts them in [num_devices]; it has no bound of
    its own.  The theorems relate what the loop stores to what the search
    answered during the run ([search_answers] of the calls it made) and to
    the ROM Enumerator of the specification ([OneWire.enumerate]): they agree
    up to [MAX_DEVICES] devices, and with more the loop writes past the
    array where the specification reports [TooManyDevices]. *)

From Stdlib Require Import ZArith Lia String.
From stdpp Require Import prelude strings.
From S2P Require Import Prelude Machine OneWire Ds18b20 Rtos Clock.
From S2P Require Import Script AppMain AppFacts Scenarios.

#[local] Open Scope Z_scope.
#[local] Open Scope prog_scope.

(** The ROM code a call of the search answered with, if it found one. *)
Definition search_answer (c : Call) : option OneWireBus_ROMCode :=
  match c with
  | call_owb_search_first _ true r => Some r
  | call_owb_search_next _ true r => Some r
  | _ => None
  end.

Definition search_answers (t : list Call) : list OneWireBus_ROMCode :=
  omap search_answer t.

(** [device_rom_codes] holding [l] and zeros after it. *)
Definition padded (l : list OneWireBus_ROMCode) : list OneWireBus_ROMCode :=
  l ++ replicate (Z.to_nat MAX_DEVICES - length l) rom_zero.

Section Enumeration.

Context {W : Type} `{Rtos W} `{Owb W} `{Ds18b20 W}.
Implicit Types s : AppState (W:=W).

(** The line of the console for slot [i] (line 75). *)
Definition device_line (i : Z) (rom : OneWireBus_ROMCode) : Call :=
  call_printf fmt_device [PInt i; PStr (owb_string_from_rom_code rom ROM_CODE_S_SIZE)].

(** The calls of the loop of lines 72-80 entered with the answer [cur] for
    slot [i], when the search then answers with [more] and ends with
    [r_end] in its state. *)
Fixpoint loop_calls (bus : OneWireBus) (i : Z) (cur : OneWireBus_ROMCode)
    (more : list OneWireBus_ROMCode) (r_end : OneWireBus_ROMCode) : list Call :=
  match more with
  | [] => [device_line i cur; call_owb_search_next bus false r_end]
  | r :: more' =>
      device_line i cur :: call_owb_search_next bus true r ::
      loop_calls bus (i + 1) r more' r_end
  end.

(** The calls of the first search and of the loop. *)
Definition search_calls (bus : OneWireBus) (ans : list OneWireBus_ROMCode)
    (r_end : OneWireBus_ROMCode) : list Call :=
  match ans with
  | [] => [call_owb_search_first bus false r_end]
  | r :: more => call_owb_search_first bus true r :: loop_calls bus 0 r more r_end
  end.

(** The calls of lines 66-83 when the search answers with [ans]. *)
Definition find_calls (bus : OneWireBus) (ans : list OneWireBus_ROMCode)
    (r_end : OneWireBus_ROMCode) : list Call :=
  call_printf fmt_find_devices [] :: search_calls bus ans r_end ++
  [call_printf fmt_found [PInt (Z.of_nat (length ans))]].

(** The answer the loop has not stored yet. *)
Definition pending s : list OneWireBus_ROMCode :=
  if found s then [rom_code (search_state s)] else [].

(** What the loop does with the answers [ans]: stores them all, or
    faults at the first one that does not fit. *)
Definition enumerated (o : outcome (AppState (W:=W)) unit)
    (ans : list OneWireBus_ROMCode) : Prop :=
  if decide (length ans <= Z.to_nat MAX_DEVICES)%nat then
    o = Ok tt (final o) /\
    num_devices (final o) = Z.of_nat (length ans) /\
    device_rom_codes (final o) = padded ans /\
    found (final o) = false
  else
    fault_of o = Some (OutOfBounds "device_rom_codes" MAX_DEVICES) /\
    length ans = S (Z.to_nat MAX_DEVICES) /\
    take (Z.to_nat MAX_DEVICES) (device_rom_codes (final o)) =
      take (Z.to_nat MAX_DEVICES) ans.

(** What follows the loop: the count is printed. *)
Definition find_devices_tail : prog (AppState (W:=W)) unit :=
  n ← gets num_devices;
  do_printf fmt_found [PInt n].

(** ** Arrays. *)

Lemma padded_length l :
  (length l <= Z.to_nat MAX_DEVICES)%nat -> length (padded l) = Z.to_nat MAX_DEVICES.
Proof. intros. unfold padded. rewrite length_app, length_replicate. lia. Qed.

Lemma padded_snoc l r :
  (length l < Z.to_nat MAX_DEVICES)%nat ->
  <[length l := r]> (padded l) = padded (l ++ [r]).
Proof.
  intros Hl. unfold padded. rewrite insert_app_r_alt, Nat.sub_diag by lia.
  rewrite length_app. cbn [length].
  destruct (Z.to_nat MAX_DEVICES - length l)%nat as [|k] eqn:E; [lia|].
  replace (Z.to_nat MAX_DEVICES - (length l + 1))%nat with k by lia.
  by rewrite <- app_assoc.
Qed.

Lemma take_padded l :
  (length l <= Z.to_nat MAX_DEVICES)%nat -> take (length l) (padded l) = l.
Proof. intros. unfold padded. by rewrite take_app_length. Qed.

(** ** One iteration. *)

Lemma find_devices_body_ok s bus :
  owb s = Some bus ->
  0 <= num_devices s < Z.of_nat (length (device_rom_codes s)) ->
  num_devices s < INT_MAX ->
  wp find_devices_body (fun _ s' =>
    owb s' = Some bus /\
    num_devices s' = num_devices s + 1 /\
    device_rom_codes s' =
      <[Z.to_nat (num_devices s) := rom_code (search_state s)]> (device_rom_codes s) /\
    trace s' = trace s ++
      [call_printf fmt_device
         [PInt (num_devices s);
          PStr (owb_string_from_rom_code (rom_code (search_state s)) ROM_CODE_S_SIZE)];
       call_owb_search_next bus (found s') (rom_code (search_state s'))] /\
    exists w, (search_state s', found s') = (owb_search_next bus (search_state s) w).1) s.
Proof.
  intros Hb Hk Hmax. unfold find_devices_body.
  wp_steps. apply wp_do_printf. wp_steps.
  apply wp_store_at; [done|]. wp_steps.
  apply wp_int_incr; [done|]. wp_steps.
  eapply wp_do_owb_search_next; [done|]. intros st f w E. cbn in *.
  split_and!; [done..|by rewrite <- app_assoc|]. eexists. by rewrite E.
Qed.

(** With the array full, the iteration writes past it. *)
Lemma find_devices_body_overflow s :
  num_devices s = Z.of_nat (length (device_rom_codes s)) ->
  faults find_devices_body (OutOfBounds "device_rom_codes" (num_devices s))
    (fun s' => device_rom_codes s' = device_rom_codes s /\
               search_answers (new_calls s s') = []) s.
Proof.
  intros Hk. unfold faults, find_devices_body, bind, gets, do_printf, modify. cbn.
  rewrite store_at_oob; [|apply index_ok_false; cbn; lia].
  split_and!; [done..|].
  by erewrite new_calls_app; [|reflexivity].
Qed.

(** ** The loop. *)

Lemma find_devices_loop_done fuel s pre :
  found s = false ->
  device_rom_codes s = padded pre -> num_devices s = Z.of_nat (length pre) ->
  (length pre <= Z.to_nat MAX_DEVICES)%nat ->
  enumerated (find_devices_loop fuel s)
    (pre ++ pending s ++ search_answers (new_calls s (final (find_devices_loop fuel s)))).
Proof.
  intros Hf Hroms Hn Hlen. unfold find_devices_loop, pending.
  rewrite while_loop_false, Hf by done. cbn [final].
  rewrite new_calls_refl, !app_nil_r. unfold enumerated.
  by rewrite decide_True.
Qed.

Lemma find_devices_loop_overflow fuel s pre :
  found s = true ->
  device_rom_codes s = padded pre -> num_devices s = Z.of_nat (length pre) ->
  length pre = Z.to_nat MAX_DEVICES ->
  enumerated (find_devices_loop (S fuel) s)
    (pre ++ pending s ++ search_answers (new_calls s (final (find_devices_loop (S fuel) s)))).
Proof.
  intros Hf Hroms Hn Hlen. unfold find_devices_loop, pending.
  rewrite while_loop_true, Hf by done.
  assert (num_devices s = Z.of_nat (length (device_rom_codes s))) as Hb
    by (rewrite Hn, Hroms, padded_length; lia).
  apply find_devices_body_overflow in Hb. revert Hb. unfold faults, bind.
  destruct (find_devices_body s) as [|f s1]; [intros []|].
  intros (-> & Hr & Ha). unfold enumerated. cbn [final fault_of].
  rewrite decide_False by (rewrite !length_app; cbn; lia).
  rewrite Ha, app_nil_r, length_app, Hr, Hroms, Hn, Hlen. cbn [length].
  split_and!; [by rewrite Z2Nat.id | lia |].
  rewrite <- Hlen, take_padded, take_app_length; [done | lia].
Qed.

(** One more iteration, with room left in the array. *)
Lemma find_devices_loop_step fuel s bus pre :
  owb s = Some bus -> found s = true ->
  device_rom_codes s = padded pre -> num_devices s = Z.of_nat (length pre) ->
  (length pre < Z.to_nat MAX_DEVICES)%nat ->
  exists s2,
    find_devices_loop (S fuel) s = find_devices_loop fuel s2 /\
    owb s2 = Some bus /\
    device_rom_codes s2 = padded (pre ++ [rom_code (search_state s)]) /\
    num_devices s2 = Z.of_nat (length (pre ++ [rom_code (search_state s)])) /\
    (exists w, (search_state s2, found s2) = (owb_search_next bus (search_state s) w).1) /\
    forall s3, trace_grows s2 s3 ->
      pre ++ pending s ++ search_answers (new_calls s s3) =
      (pre ++ [rom_code (search_state s)]) ++ pending s2 ++ search_answers (new_calls s2 s3).
Proof.
  intros Hb Hf Hroms Hn Hlen.
  pose proof (find_devices_body_ok s bus Hb) as Hbody.
  rewrite Hn, Hroms, padded_length in Hbody by lia.
  apply wp_Ok in Hbody as (? & s2 & Hrun & Hb2 & Hn2 & Hroms2 & Htr & Hans);
    [|lia | unfold INT_MAX, MAX_DEVICES in *; lia].
  exists s2. unfold find_devices_loop. rewrite while_loop_true by done.
  rewrite (bind_Ok _ _ _ _ _ Hrun). split_and!; [done..| | |done|].
  - by rewrite Hroms2, Nat2Z.id, padded_snoc.
  - rewrite Hn2, length_app. cbn. lia.
  - intros s3 Hs3. rewrite (new_calls_trans s s2 s3), (new_calls_app _ _ _ Htr);
      [|by eexists|done].
    unfold pending, search_answers. rewrite Hf, omap_app. cbn.
    destruct (found s2); cbn; by rewrite <- !app_assoc.
Qed.

(** The loop stores the answers, or faults at the ninth. *)
Lemma find_devices_loop_spec fuel s bus pre :
  owb s = Some bus ->
  device_rom_codes s = padded pre -> num_devices s = Z.of_nat (length pre) ->
  (length pre <= Z.to_nat MAX_DEVICES)%nat ->
  (Z.to_nat MAX_DEVICES < fuel + length pre)%nat ->
  enumerated (find_devices_loop fuel s)
    (pre ++ pending s ++ search_answers (new_calls s (final (find_devices_loop fuel s)))).
Proof.
  revert s pre. induction fuel as [|fuel IH]; intros s pre Hb Hroms Hn Hlen Hfuel; [lia|].
  destruct (found s) eqn:Hf; [|by apply find_devices_loop_done].
  destruct (decide (length pre = Z.to_nat MAX_DEVICES)) as [Hfull|Hroom];
    [by apply find_devices_loop_overflow|].
  destruct (find_devices_loop_step fuel s bus pre) as (s2 & -> & Hb2 & Hroms2 & Hn2 & _ & Hans);
    [done..|lia|].
  rewrite Hans by apply (steps (R:=trace_grows) (m:=find_devices_loop fuel)).
  apply IH; [done..| |]; rewrite length_app; cbn; lia.
Qed.

(** ** The whole phase. *)

(** Up to the loop: the array is cleared and the first search is made. *)
Lemma find_devices_head s bus :
  owb s = Some bus ->
  exists s1,
    find_devices s =
      bind (find_devices_loop (Z.to_nat MAX_DEVICES + 1)) (fun _ => find_devices_tail) s1 /\
    owb s1 = Some bus /\ device_rom_codes s1 = padded [] /\ num_devices s1 = 0 /\
    trace_grows s s1 /\
    search_answers (new_calls s s1) = pending s1 /\
    calls s [call_printf fmt_find_devices [];
             call_owb_search_first bus (found s1) (rom_code (search_state s1))] s1 /\
    exists w, (search_state s1, found s1) = (owb_search_first bus search_state_zero w).1.
Proof.
  intros Hb. unfold find_devices, bind at 1 2 3 4 5. cbn.
  unfold do_owb_search_first, bind at 1, get_owb. cbn. rewrite Hb.
  destruct (owb_search_first _ _ _) as [[st f] w] eqn:E. cbn.
  eexists. split; [reflexivity|]. cbn.
  split_and!; [done..| | |by_trace|].
  3:{ exists (printf fmt_find_devices [] (world s)). cbn in E. by rewrite E. }
  - unfold trace_grows. cbn. eexists. by rewrite <- app_assoc.
  - erewrite new_calls_app; [|cbn; by rewrite <- app_assoc].
    unfold pending. cbn. by destruct f.
Qed.

Lemma search_answers_app l1 l2 :
  search_answers (l1 ++ l2) = search_answers l1 ++ search_answers l2.
Proof. apply omap_app. Qed.

(** The print after the loop changes neither what was stored nor what the
    search answered. *)
Lemma enumerated_tail s2 ans :
  enumerated (Ok tt s2) ans -> enumerated (find_devices_tail s2) ans.
Proof.
  unfold enumerated, find_devices_tail. cbn.
  case_decide; intros; destruct_and?; by split_and?.
Qed.

Lemma search_answers_tail s s2 :
  trace_grows s s2 ->
  search_answers (new_calls s (final (find_devices_tail s2))) =
  search_answers (new_calls s s2).
Proof.
  intros Hg. rewrite (new_calls_trans s s2), search_answers_app.
  - erewrite (new_calls_app s2); [|reflexivity]. by rewrite app_nil_r.
  - done.
  - apply (steps (R:=trace_grows) (m:=find_devices_tail)).
Qed.

(** The search loop stores in [device_rom_codes], in order, the ROM codes
    the search answered with during the run, or faults at the ninth. *)
Lemma find_devices_enumerated s bus :
  owb s = Some bus ->
  enumerated (find_devices s) (search_answers (new_calls s (final (find_devices s)))).
Proof.
  intros Hb. destruct (find_devices_head s bus Hb) as (s1 & -> & Hb1 & Hr1 & Hn1 & Hg & Ha & _).
  pose proof (find_devices_loop_spec (Z.to_nat MAX_DEVICES + 1) s1 bus [] Hb1 Hr1 Hn1) as Hloop.
  pose proof (steps (R:=trace_grows) (m:=find_devices_loop (Z.to_nat MAX_DEVICES + 1)) s1) as Hg1.
  specialize (Hloop ltac:(cbn; lia) ltac:(cbn; lia)).
  revert Hloop Hg1. unfold bind.
  destruct (find_devices_loop _ s1) as [[] s2|f s2]; cbn [final app]; intros Hloop Hg1.
  - rewrite search_answers_tail by (by etrans).
    rewrite (new_calls_trans s s1 s2), search_answers_app, Ha by done.
    by apply enumerated_tail.
  - by rewrite (new_calls_trans s s1 s2), search_answers_app, Ha.
Qed.

(** ** The calls of the phase. *)

Lemma wlp_find_devices_body s bus :
  owb s = Some bus ->
  wlp find_devices_body (fun _ s' =>
    owb s' = Some bus /\ num_devices s' = num_devices s + 1 /\
    calls s [device_line (num_devices s) (rom_code (search_state s));
             call_owb_search_next bus (found s') (rom_code (search_state s'))] s') s.
Proof.
  intros Hb. unfold wlp, find_devices_body, bind, gets, do_printf, modify, store_at. cbn.
  destruct (index_ok _ _); [|done]. unfold int_incr. destruct (_ <? INT_MAX); [|done]. cbn.
  unfold do_owb_search_next, bind, get_owb. cbn. rewrite Hb.
  destruct (owb_search_next _ _ _) as [[st f] w]. cbn.
  split_and!; [done..|by_trace].
Qed.

Lemma wlp_find_devices_loop fuel s bus :
  owb s = Some bus -> found s = true ->
  wlp (find_devices_loop fuel) (fun _ s' => exists more r_end,
    num_devices s' = num_devices s + 1 + Z.of_nat (length more) /\
    calls s (loop_calls bus (num_devices s) (rom_code (search_state s)) more r_end) s') s.
Proof.
  revert s. induction fuel as [|fuel IH]; intros s Hb Hf;
    (apply wlp_while_loop_true; [done|]; intros ? [= <-]).
  eapply wlp_mono; [|by apply wlp_find_devices_body].
  intros [] s1 (Hb1 & Hn1 & Hc1). destruct (found s1) eqn:Hf1.
  - eapply wlp_mono; [|by apply IH]. intros [] s' (more & r_end & Hn' & Hc').
    exists (rom_code (search_state s1) :: more), r_end. rewrite Hn1 in *. cbn [length loop_calls].
    split; [lia|]. by apply (calls_trans _ [_; _] s1).
  - apply wlp_while_loop_false; [done|].
    exists [], (rom_code (search_state s1)). split; [cbn; lia|done].
Qed.

(** The first search and the loop make the calls [search_calls] of the
    answers they store. *)
Lemma wlp_find_devices s bus :
  owb s = Some bus ->
  wlp find_devices (fun _ s' => exists ans r_end,
    num_devices s' = Z.of_nat (length ans) /\ calls s (find_calls bus ans r_end) s') s.
Proof.
  intros Hb. destruct (find_devices_head s bus Hb) as (s1 & Hh & Hb1 & _ & Hn1 & _ & _ & Hc1 & _).
  unfold wlp at 1. rewrite Hh. apply wlp_bind.
  assert (wlp (find_devices_loop (Z.to_nat MAX_DEVICES + 1)) (fun _ s' => exists ans r_end,
    num_devices s' = Z.of_nat (length ans) /\
    calls s (call_printf fmt_find_devices [] :: search_calls bus ans r_end) s') s1) as Hloop.
  { destruct (found s1) eqn:Hf1.
    - eapply wlp_mono; [|by apply wlp_find_devices_loop]. intros [] s' (more & r_end & Hn & Hc).
      exists (rom_code (search_state s1) :: more), r_end. rewrite Hn1 in *. cbn [length].
      split; [lia|]. by apply (calls_trans _ [_; _] s1).
    - apply wlp_while_loop_false; [done|]. by exists [], (rom_code (search_state s1)). }
  eapply wlp_mono; [|exact Hloop]. intros [] s2 (ans & r_end & Hn & Hc).
  exists ans, r_end. split; [done|]. unfold find_calls. rewrite app_comm_cons.
  eapply calls_trans; [exact Hc|]. rewrite <- Hn. by_trace.
Qed.

Lemma search_answers_loop_calls bus i cur more r_end :
  search_answers (loop_calls bus i cur more r_end) = more.
Proof. revert i cur. induction more as [|r more IH]; intros i cur; cbn; [done|]. by rewrite IH. Qed.

Lemma search_answers_find_calls bus ans r_end :
  search_answers (find_calls bus ans r_end) = ans.
Proof.
  unfold find_calls, search_calls. cbn. rewrite search_answers_app, app_nil_r.
  destruct ans; cbn; [done|]. by rewrite search_answers_loop_calls.
Qed.

(** A search that ends without fault was answered with at most
    [MAX_DEVICES] ROM codes, made the calls [find_calls] of them and holds
    them in [device_rom_codes]. *)
Lemma find_devices_calls s bus :
  owb s = Some bus -> is_ok (find_devices s) = true ->
  exists ans r_end,
    (length ans <= Z.to_nat MAX_DEVICES)%nat /\
    calls s (find_calls bus ans r_end) (final (find_devices s)) /\
    num_devices (final (find_devices s)) = Z.of_nat (length ans) /\
    device_rom_codes (final (find_devices s)) = padded ans.
Proof.
  intros Hb Hok. pose proof (find_devices_enumerated s bus Hb) as He.
  pose proof (wlp_find_devices s bus Hb) as Hc. unfold wlp in Hc.
  destruct (find_devices s) as [[] s'|]; [|done]. destruct Hc as (ans & r_end & Hn & Hc).
  cbn [final] in *. rewrite (calls_new_calls _ _ _ Hc), search_answers_find_calls in He.
  unfold enumerated in He. case_decide; [|by destruct He].
  destruct He as (_ & _ & Hr & _). by exists ans, r_end.
Qed.

(** A search that faults writes past the array. *)
Lemma find_devices_fault s bus :
  owb s = Some bus -> is_ok (find_devices s) = false ->
  fault_of (find_devices s) = Some (OutOfBounds "device_rom_codes" MAX_DEVICES).
Proof.
  intros Hb Hok. pose proof (find_devices_enumerated s bus Hb) as He.
  unfold enumerated in He. case_decide; [|by destruct He].
  destruct He as (He & _). by rewrite He in Hok.
Qed.

(** A search that ends without fault leaves a count within the array and
    the bus as it was. *)
Lemma find_devices_ok_state s bus :
  owb s = Some bus -> is_ok (find_devices s) = true ->
  owb (final (find_devices s)) = Some bus /\
  0 <= num_devices (final (find_devices s)) <= MAX_DEVICES /\
  length (device_rom_codes (final (find_devices s))) = Z.to_nat MAX_DEVICES.
Proof.
  intros Hb Hok. pose proof (find_devices_enumerated s bus Hb) as He.
  pose proof (steps (R:=unchanged owb) (m:=find_devices) s) as Ho.
  unfold enumerated in He. case_decide as Hlen.
  - destruct He as (_ & -> & -> & _). unfold unchanged in Ho.
    rewrite padded_length by done. unfold MAX_DEVICES in *. split_and!; [congruence|lia..|done].
  - destruct He as (Hf & _). destruct (find_devices s); done.
Qed.

(** C4: refinement of the ROM Enumerator.  When the specification's
    enumerator accepts what the search answered during the run (at most
    [MAX_DEVICES] ROM codes, all different), the search loop of [app_main]
    ends without fault with exactly that list in [device_rom_codes], zeros
    behind it, and its length in [num_devices]. *)
Theorem find_devices_refines_enumerate s bus l :
  owb s = Some bus ->
  enumerate (Z.to_nat MAX_DEVICES)
    (search_answers (new_calls s (final (find_devices s)))) = inr l ->
  find_devices s = Ok tt (final (find_devices s)) /\
  num_devices (final (find_devices s)) = Z.of_nat (length l) /\
  device_rom_codes (final (find_devices s)) = padded l.
Proof.
  intros Hb (-> & Hlen & _)%enumerate_ok.
  pose proof (find_devices_enumerated s bus Hb) as He. unfold enumerated in He.
  rewrite decide_True in He by done. by destruct He as (? & ? & ? & _).
Qed.

(** C5: where the specification reports [TooManyDevices], the program
    has no check: with more than [MAX_DEVICES] answers the search loop writes
    [device_rom_codes[MAX_DEVICES]], one past the end of the array, after
    exactly nine answers. *)
Theorem find_devices_too_many s bus :
  owb s = Some bus ->
  enumerate (Z.to_nat MAX_DEVICES)
    (search_answers (new_calls s (final (find_devices s)))) = inl TooManyDevices ->
  fault_of (find_devices s) = Some (OutOfBounds "device_rom_codes" MAX_DEVICES) /\
  length (search_answers (new_calls s (final (find_devices s)))) = 9%nat.
Proof.
  intros Hb Hmany%enumerate_too_many.
  pose proof (find_devices_enumerated s bus Hb) as He. unfold enumerated in He.
  rewrite decide_False in He by lia. by destruct He as (? & ? & _).
Qed.

(** C25: where the specification reports [EnumerationError] for a ROM
    code answered twice, the program stores both copies and goes on. *)
Theorem find_devices_accepts_duplicates s bus :
  owb s = Some bus ->
  enumerate (Z.to_nat MAX_DEVICES)
    (search_answers (new_calls s (final (find_devices s)))) = inl EnumerationError ->
  is_ok (find_devices s) = true /\
  device_rom_codes (final (find_devices s)) =
    padded (search_answers (new_calls s (final (find_devices s)))).
Proof.
  intros Hb Herr.
  assert (length (search_answers (new_calls s (final (find_devices s))))
            <= Z.to_nat MAX_DEVICES)%nat as Hlen.
  { apply Nat.nlt_ge. intros Hlt%enumerate_too_many. congruence. }
  pose proof (find_devices_enumerated s bus Hb) as He. unfold enumerated in He.
  rewrite decide_True in He by done. destruct He as (-> & _ & ? & _). done.
Qed.

(** C17: the search loop terminates within [MAX_DEVICES + 1] iterations,
    whatever the bus answers: [find_devices] never runs out of the fuel it
    is given. *)
Theorem find_devices_fuel s : out_of_fuel (find_devices s) = false.
Proof.
  unfold out_of_fuel. apply bool_decide_eq_false. destruct (owb s) as [bus|] eqn:Hb.
  - pose proof (find_devices_enumerated s bus Hb) as He. unfold enumerated in He.
    case_decide; [destruct He as (-> & _) | destruct He as (-> & _)]; done.
  - unfold find_devices, bind at 1 2 3 4 5. cbn.
    unfold do_owb_search_first, bind, get_owb. cbn. by rewrite Hb.
Qed.

End Enumeration.

(** ** The theorems at concrete buses. *)

Lemma find_devices_refines_enumerate_witness :
  find_devices (started three_devices) = Ok tt (final (find_devices (started three_devices))) /\
  num_devices (final (find_devices (started three_devices))) = 3 /\
  device_rom_codes (final (find_devices (started three_devices))) =
    padded [rom_pink; rom_green; rom_orange].
Proof.
  apply (find_devices_refines_enumerate (started three_devices) (BusRef 26)
           [rom_pink; rom_green; rom_orange]); by vm_compute.
Defined.

Lemma find_devices_too_many_witness :
  fault_of (find_devices (started nine_devices)) =
    Some (OutOfBounds "device_rom_codes" MAX_DEVICES) /\
  length (search_answers
            (new_calls (started nine_devices) (final (find_devices (started nine_devices)))))
    = 9%nat.
Proof.
  apply (find_devices_too_many (started nine_devices) (BusRef 26)); by vm_compute.
Defined.

Lemma find_devices_accepts_duplicates_witness :
  is_ok (find_devices (started twice_the_same)) = true /\
  device_rom_codes (final (find_devices (started twice_the_same))) =
    padded (search_answers
      (new_calls (started twice_the_same) (final (find_devices (started twice_the_same))))).
Proof.
  apply (find_devices_accepts_duplicates (started twice_the_same) (BusRef 26)); by vm_compute.
Defined.
