(* ===== verification/StaticBus.v ===== *)
(** * StaticBus: the search on a bus that does not change

    The specification asks of the ROM Enumerator that two enumerations of a
    static bus, back to back, give the same ROM codes.  A bus is static when
    what a step of the search answers depends on the search state only, not
    on what went on before ([StaticBus]).  On such a bus the search loop of
    [app_main] is a function of the bus: two runs of lines 67-83 from states
    that agree on [owb] alone, whatever the other variables hold, whatever
    the world has seen and whatever is on the console, store the same ROM
    codes and the same count, or stop with the same fault.

    The proofs run the two executions side by side ([Prelude.outcome_rel]):
    every statement of the loop takes states that agree on the variables of
    the search to states that agree on them. *)

From Stdlib Require Import ZArith Lia String.
From stdpp Require Import prelude strings.
From S2P Require Import Prelude Machine OneWire Ds18b20 Rtos Clock.
From S2P Require Import Script AppMain AppFacts Scenarios Enumeration.

#[local] Open Scope Z_scope.
#[local] Open Scope prog_scope.

(** The answer of a search step is a function of the bus and the cursor. *)
Class StaticBus (W : Type) `{Owb W} : Prop := {
  search_first_static : forall bus st (w w' : W),
    (owb_search_first bus st w).1 = (owb_search_first bus st w').1;
  search_next_static : forall bus st (w w' : W),
    (owb_search_next bus st w).1 = (owb_search_next bus st w').1;
}.

(** ** A static bus: three devices that answer in a fixed order; the
    cursor counts the devices found. *)

Definition fixed_roms : list OneWireBus_ROMCode := [rom_pink; rom_green; rom_orange].

Definition fixed_search (k : nat) : OneWireBus_SearchState * bool :=
  match fixed_roms !! k with
  | Some r => (mkSearchState r (Z.of_nat (S k)) 0 false, true)
  | None => (mkSearchState rom_zero 0 0 true, false)
  end.

#[export] Instance fixed_owb : Owb unit := {|
  owb_rmt_initialize gpio _ _ w := (BusRef gpio, w);
  owb_use_crc _ _ w := w;
  owb_search_first _ _ w := (fixed_search 0, w);
  owb_search_next _ st w := (fixed_search (Z.to_nat (last_discrepancy st)), w);
  owb_string_from_rom_code _ _ := "";
  owb_verify_rom _ r w := (bool_decide (r ∈ fixed_roms), w);
|}.

#[export] Instance fixed_rtos : Rtos unit := {|
  portTICK_PERIOD_MS := 10;
  tick_period_range := ltac:(done);
  vTaskDelay _ w := w;
  xTaskGetTickCount w := (0, w);
  printf _ _ w := w;
|}.

#[export] Instance fixed_static : StaticBus unit.
Proof. by split. Qed.

Section StaticBus.

Context {W : Type} `{Rtos W} `{Owb W} `{!StaticBus W}.
Implicit Types s : AppState (W:=W).

(** The variables the search reads. *)
Definition search_vars s :
    option OneWireBus * list OneWireBus_ROMCode * Z * OneWireBus_SearchState :=
  (owb s, device_rom_codes s, num_devices s, search_state s).

(** Two states with the same bus. *)
Definition same_bus : relation (AppState (W:=W)) := fun s1 s2 => owb s1 = owb s2.

(** Two states that agree on the variables the search reads; [found] is
    not initialised before the first search. *)
Definition same_cursor : relation (AppState (W:=W)) :=
  fun s1 s2 => search_vars s1 = search_vars s2.

(** Two states that agree on the variables of the loop. *)
Definition same_search : relation (AppState (W:=W)) :=
  fun s1 s2 => search_vars s1 = search_vars s2 /\ found s1 = found s2.

(** The state in which the first search is made (lines 67-71). *)
Definition search_entry s : AppState :=
  set_search_state search_state_zero
    (set_num_devices 0
       (set_device_rom_codes (replicate (Z.to_nat MAX_DEVICES) rom_zero)
          (emit (call_printf fmt_find_devices []) (printf fmt_find_devices [] (world s)) s))).

(** ** The statements of the search, side by side. *)

Lemma find_devices_entry s :
  find_devices s =
  (do_owb_search_first ;; find_devices_loop (Z.to_nat MAX_DEVICES + 1) ;; find_devices_tail)
    (search_entry s).
Proof. done. Qed.

Lemma same_search_vars s1 s2 :
  same_search s1 s2 ->
  owb s1 = owb s2 /\ device_rom_codes s1 = device_rom_codes s2 /\
  num_devices s1 = num_devices s2 /\ search_state s1 = search_state s2 /\
  found s1 = found s2.
Proof. by intros [[= ????] ?]. Qed.

(** [solve_same] proves that a field agrees, or that an assignment keeps
    the agreement. *)
Ltac solve_same :=
  repeat intros ?;
  repeat match goal with
  | H : same_search _ _ |- _ => apply same_search_vars in H; destruct_and! H
  | H : same_cursor _ _ |- _ => injection H as ????
  end;
  unfold same_search, same_cursor, search_vars; cbn; split_and?; congruence.

Lemma do_printf_proper f a :
  Proper (same_search ==> outcome_rel same_search) (do_printf (W:=W) f a).
Proof. apply modify_proper. solve_same. Qed.

Lemma do_owb_search_next_proper :
  Proper (same_search ==> outcome_rel same_search) (do_owb_search_next (W:=W)).
Proof.
  intros s1 s2 Hs. pose proof (same_search_vars _ _ Hs) as (Hb & Hr & Hn & Hst & _).
  unfold do_owb_search_next, bind, get_owb. rewrite <- Hb.
  destruct (owb s1) as [bus|]; [|done]. cbn beta iota. rewrite <- Hst.
  pose proof (search_next_static bus (search_state s1) (world s1) (world s2)) as E.
  destruct (owb_search_next _ _ (world s1)) as [[st1 f1] w1],
           (owb_search_next _ _ (world s2)) as [[st2 f2] w2].
  injection E as -> ->. split; [done|]. solve_same.
Qed.

Lemma do_owb_search_first_proper :
  Proper (same_cursor ==> outcome_rel same_search) (do_owb_search_first (W:=W)).
Proof.
  intros s1 s2 Hs. pose proof Hs as [= Hb Hr Hn Hst].
  unfold do_owb_search_first, bind, get_owb. rewrite <- Hb.
  destruct (owb s1) as [bus|]; [|done]. cbn beta iota. rewrite <- Hst.
  pose proof (search_first_static bus (search_state s1) (world s1) (world s2)) as E.
  destruct (owb_search_first _ _ (world s1)) as [[st1 f1] w1],
           (owb_search_first _ _ (world s2)) as [[st2 f2] w2].
  injection E as -> ->. split; [done|]. solve_same.
Qed.

(** [lockstep] walks two runs of a statement through its parts. *)
Ltac lockstep :=
  repeat first
    [ apply do_printf_proper | apply do_owb_search_next_proper
    | apply (bind_proper same_search same_search same_search); [|intros ?]
    | apply gets_proper | apply modify_proper | apply store_at_proper
    | apply int_incr_proper | apply ret_proper ];
  try solve_same.

Lemma find_devices_body_proper :
  Proper (same_search ==> outcome_rel same_search) (find_devices_body (W:=W)).
Proof.
  unfold find_devices_body. lockstep.
Qed.

Lemma find_devices_loop_proper fuel :
  Proper (same_search ==> outcome_rel same_search) (find_devices_loop (W:=W) fuel).
Proof. apply while_loop_proper; [solve_same|apply find_devices_body_proper]. Qed.

Lemma find_devices_tail_proper :
  Proper (same_search ==> outcome_rel same_search) (find_devices_tail (W:=W)).
Proof. unfold find_devices_tail. lockstep. Qed.

(** Lines 67-83 from two states with the same bus. *)
Lemma find_devices_proper :
  Proper (same_bus ==> outcome_rel same_search) (find_devices (W:=W)).
Proof.
  intros s1 s2 Hs. rewrite !find_devices_entry.
  apply (bind_proper same_cursor same_search same_search).
  - apply do_owb_search_first_proper.
  - intros []. apply (bind_proper same_search same_search same_search);
      [apply find_devices_loop_proper|intros []; apply find_devices_tail_proper].
  - unfold same_cursor, search_vars. cbn. by rewrite Hs.
Qed.

(** ** The theorems. *)

(** C19: on a static bus the search is a function of the bus.  Two
    runs of lines 67-83 from states with the same [owb], whatever the other
    variables, the world and the trace are, end alike: with the same fault,
    or both without fault and then with the same ROM codes in
    [device_rom_codes] and the same [num_devices]. *)
Theorem find_devices_deterministic s1 s2 :
  owb s1 = owb s2 ->
  fault_of (find_devices s1) = fault_of (find_devices s2) /\
  (is_ok (find_devices s1) = true ->
   device_rom_codes (final (find_devices s1)) = device_rom_codes (final (find_devices s2)) /\
   num_devices (final (find_devices s1)) = num_devices (final (find_devices s2))).
Proof.
  intros Hb. pose proof (find_devices_proper s1 s2 Hb) as Hr.
  split; [by eapply outcome_rel_fault_of|]. intros Hok.
  destruct (find_devices s1) as [[] s1'|]; [|done].
  destruct (find_devices s2) as [[] s2'|]; [|done].
  destruct Hr as [_ Hr%same_search_vars]. cbn. by destruct_and! Hr.
Qed.

(** C18: enumeration is idempotent on a static bus.  When lines 67-83
    end without fault, running them again at once ends without fault too
    and leaves the same ROM codes in [device_rom_codes] and the same
    [num_devices]. *)
Theorem find_devices_idempotent s :
  is_ok (find_devices s) = true ->
  is_ok ((find_devices ;; find_devices) s) = true /\
  device_rom_codes (final ((find_devices ;; find_devices) s)) =
    device_rom_codes (final (find_devices s)) /\
  num_devices (final ((find_devices ;; find_devices) s)) = num_devices (final (find_devices s)).
Proof.
  intros Hok. pose proof (steps (R:=unchanged owb) (m:=find_devices) s) as Hb.
  pose proof (find_devices_proper s (final (find_devices s)) (eq_sym Hb)) as Hr.
  unfold bind. destruct (find_devices s) as [[] s'|]; [|done]. cbn [final] in *.
  destruct (find_devices s') as [[] s''|]; [|done].
  destruct Hr as [_ Hr%same_search_vars]. cbn. by destruct_and! Hr.
Qed.

End StaticBus.

(** ** The theorems on the bus with three devices. *)

(** A first boot, and a state with a full array, a count and a console
    left by something else. *)
Lemma find_devices_deterministic_witness :
  fault_of (find_devices (set_owb (Some (BusRef 26)) (initial_state tt))) =
  fault_of (find_devices
    (mkApp (Some (BusRef 26)) (replicate 8 rom_pink) 8 search_state_zero true false
       [] [] 0 0 [] tt [call_printf "x" []])) /\
  (is_ok (find_devices (set_owb (Some (BusRef 26)) (initial_state tt))) = true ->
   device_rom_codes (final (find_devices (set_owb (Some (BusRef 26)) (initial_state tt)))) =
   device_rom_codes (final (find_devices
     (mkApp (Some (BusRef 26)) (replicate 8 rom_pink) 8 search_state_zero true false
        [] [] 0 0 [] tt [call_printf "x" []]))) /\
   num_devices (final (find_devices (set_owb (Some (BusRef 26)) (initial_state tt)))) =
   num_devices (final (find_devices
     (mkApp (Some (BusRef 26)) (replicate 8 rom_pink) 8 search_state_zero true false
        [] [] 0 0 [] tt [call_printf "x" []])))).
Proof. by apply (find_devices_deterministic (W:=unit)). Defined.

Lemma find_devices_idempotent_witness :
  is_ok ((find_devices ;; find_devices) (set_owb (Some (BusRef 26)) (initial_state tt))) = true /\
  device_rom_codes (final ((find_devices ;; find_devices)
                             (set_owb (Some (BusRef 26)) (initial_state tt)))) =
    device_rom_codes (final (find_devices (set_owb (Some (BusRef 26)) (initial_state tt)))) /\
  num_devices (final ((find_devices ;; find_devices)
                        (set_owb (Some (BusRef 26)) (initial_state tt)))) =
    num_devices (final (find_devices (set_owb (Some (BusRef 26)) (initial_state tt)))).
Proof. by apply (find_devices_idempotent (W:=unit)). Defined.
