(* ===== verification/Devices.v ===== *)
(** * Devices: one handle per device found (lines 111-133)

    After the loop every slot below [num_devices] points to a handle that is
    bound to the bus, checks the CRC of what it reads, and addresses its
    device by the ROM code found for that slot, or addresses whatever is on
    the bus (solo mode) when exactly one device was found; the slots from
    [num_devices] on are NULL.  This is what the sampling loop relies on when
    it hands [devices[i]] to the library. *)

From Stdlib Require Import ZArith Lia String.
From stdpp Require Import prelude strings.
From S2P Require Import Prelude Machine OneWire Ds18b20 Rtos Clock.
From S2P Require Import Script AppMain AppFacts Scenarios.

#[local] Open Scope Z_scope.
#[local] Open Scope prog_scope.

(** A handle as the loop leaves it: bound to [bus], CRC checking on, in
    solo mode or bound to [rom]. *)
Definition handle_ok (bus : OneWireBus) (solo : bool) (rom : OneWireBus_ROMCode)
    (h : DS18B20_Info) : Prop :=
  info_bus h = Some bus /\ info_use_crc h = true /\ info_solo h = solo /\
  (solo = false -> info_rom_code h = rom).

(** [devices] when the slots below [j] are configured for the first [j]
    of [n] devices with ROM codes [roms], and the others are NULL. *)
Definition slots_ok (bus : OneWireBus) (n : Z) (roms : list OneWireBus_ROMCode)
    (j : Z) (ds : list (option DS18B20_Info)) : Prop :=
  length ds = Z.to_nat MAX_DEVICES /\
  forall k : nat, (k < Z.to_nat MAX_DEVICES)%nat ->
    if decide (Z.of_nat k < j) then
      exists h rom, ds !! k = Some (Some h) /\ roms !! k = Some rom /\
                    handle_ok bus (n =? 1) rom h
    else ds !! k = Some None.

(** The calls of lines 122-130 for slot [i]: in solo mode a line on the
    console and [ds18b20_init_solo], else [ds18b20_init] with the ROM code. *)
Definition bind_calls (bus : OneWireBus) (solo : bool) (i : Z)
    (rom : OneWireBus_ROMCode) : list Call :=
  if solo then [call_printf fmt_single []; call_ds18b20_init_solo i bus]
  else [call_ds18b20_init i bus rom].

(** The calls of one pass of the loop of lines 116-132. *)
Definition device_calls (bus : OneWireBus) (solo : bool) (i : Z)
    (rom : OneWireBus_ROMCode) : list Call :=
  call_ds18b20_malloc i :: bind_calls bus solo i rom ++
  [call_ds18b20_use_crc i true; call_ds18b20_set_resolution i DS18B20_RESOLUTION].

(** The calls of the loop for the devices with ROM codes [roms], in slot
    order. *)
Definition create_calls (bus : OneWireBus) (solo : bool)
    (roms : list OneWireBus_ROMCode) : list Call :=
  concat (imap (fun i rom => device_calls bus solo (Z.of_nat i) rom) roms).

Section Devices.

Context {W : Type} `{Rtos W} `{Owb W} `{Ds18b20 W} `{!Ds18b20Laws W}.
Implicit Types s : AppState (W:=W).

(** What the loop reads and does not write. *)
Definition found_devices s : option OneWireBus * Z * list OneWireBus_ROMCode :=
  (owb s, num_devices s, device_rom_codes s).

(** ** Slots. *)

Lemma slots_ok_start bus n roms :
  slots_ok bus n roms 0 (replicate (Z.to_nat MAX_DEVICES) None).
Proof.
  split; [by rewrite length_replicate|]. intros k Hk.
  rewrite decide_False by lia. by apply lookup_replicate_lt.
Qed.

Lemma slots_ok_next bus n roms j ds h rom :
  0 <= j < MAX_DEVICES ->
  roms !! Z.to_nat j = Some rom -> handle_ok bus (n =? 1) rom h ->
  slots_ok bus n roms j ds ->
  slots_ok bus n roms (j + 1) (<[Z.to_nat j := Some h]> ds).
Proof.
  intros Hj Hrom Hh [Hlen Hslots]. split; [by rewrite length_insert|].
  intros k Hk. specialize (Hslots k Hk).
  destruct (decide (k = Z.to_nat j)) as [->|Hne].
  - rewrite decide_True by lia. exists h, rom.
    rewrite list_lookup_insert_eq by (unfold MAX_DEVICES in *; lia). done.
  - rewrite list_lookup_insert_ne by done.
    repeat case_decide; try done; lia.
Qed.

(** A configured slot can be handed to the library. *)
Lemma slots_ok_lookup bus n roms j ds (i : Z) :
  slots_ok bus n roms j ds -> 0 <= i < j -> j <= MAX_DEVICES ->
  exists h rom, ds !! Z.to_nat i = Some (Some h) /\ roms !! Z.to_nat i = Some rom /\
                handle_ok bus (n =? 1) rom h.
Proof.
  intros [_ Hslots] Hi Hj.
  specialize (Hslots (Z.to_nat i) ltac:(unfold MAX_DEVICES in *; lia)).
  by rewrite decide_True in Hslots by lia.
Qed.

(** ** One handle. *)

(** Lines 131-132: CRC checking on, then the resolution. *)
Lemma wp_configure s i h1 :
  0 <= i -> devices s !! Z.to_nat i = Some (Some h1) ->
  wp (do_ds18b20_use_crc i true ;; do_ds18b20_set_resolution i DS18B20_RESOLUTION)
    (fun _ s' => exists h3,
       devices s' = <[Z.to_nat i := Some h3]> (devices s) /\
       info_use_crc h3 = true /\ info_bus h3 = info_bus h1 /\
       info_solo h3 = info_solo h1 /\ info_rom_code h3 = info_rom_code h1 /\
       calls s [call_ds18b20_use_crc i true;
                call_ds18b20_set_resolution i DS18B20_RESOLUTION] s') s.
Proof.
  intros Hi Hh. pose proof (lookup_lt_Some _ _ _ Hh) as Hlt. wp_steps.
  eapply wp_do_ds18b20_use_crc; [done..|]. intros h2 w2 (? & ? & ? & ? & _)%use_crc_sets_eq.
  eapply wp_do_ds18b20_set_resolution; [done| |].
  { cbn. by apply list_lookup_insert_eq. }
  intros ok h3 w3 (_ & ? & ? & ? & ?)%set_resolution_sets_eq. cbn.
  exists h3. rewrite list_insert_insert_eq. split_and!; by_trace || congruence.
Qed.

(** Lines 122-130: solo mode for a single device, else the slot's ROM code. *)
Lemma wp_bind_handle s bus i rom h0 (solo : bool) :
  owb s = Some bus -> 0 <= i -> devices s !! Z.to_nat i = Some (Some h0) ->
  device_rom_codes s !! Z.to_nat i = Some rom ->
  wp (if solo then do_printf fmt_single [] ;; do_ds18b20_init_solo i
      else (rom ← load_at "device_rom_codes" device_rom_codes i; do_ds18b20_init i rom))
    (fun _ s' => exists h1,
       devices s' = <[Z.to_nat i := Some h1]> (devices s) /\
       info_bus h1 = Some bus /\ info_solo h1 = solo /\
       (solo = false -> info_rom_code h1 = rom) /\
       calls s (bind_calls bus solo i rom) s') s.
Proof.
  intros Hb Hi Hh Hrom. destruct solo; wp_steps.
  - apply wp_do_printf. eapply wp_do_ds18b20_init_solo; [done..|].
    intros h1 w1 [? ?]%init_solo_binds_eq. cbn. exists h1. split_and!; by_trace || done.
  - eapply wp_load_at; [done..|]. eapply wp_do_ds18b20_init; [done..|].
    intros h1 w1 (? & ? & ?)%init_binds_eq. cbn. exists h1. split_and!; by_trace || done.
Qed.

(** Lines 116-132, for a slot in range whose ROM code was found. *)
Lemma create_device_spec s bus i rom :
  owb s = Some bus -> 0 <= i < Z.of_nat (length (devices s)) ->
  device_rom_codes s !! Z.to_nat i = Some rom ->
  wp (create_device i) (fun _ s' => exists h,
       devices s' = <[Z.to_nat i := Some h]> (devices s) /\
       handle_ok bus (num_devices s =? 1) rom h /\
       calls s (device_calls bus (num_devices s =? 1) i rom) s') s.
Proof.
  intros Hb Hi Hrom. unfold create_device. wp_steps.
  apply wp_do_ds18b20_malloc; [done|]. intros h0 w0 _. wp_steps. cbn.
  eapply wp_mono; [|apply (wp_bind_handle _ bus i rom h0); cbn; try done; try lia].
  2:{ apply list_lookup_insert_eq. lia. }
  intros [] s1 (h1 & Hd1 & Hbus & Hsolo & Hr & Hc1). cbn in Hd1.
  eapply wp_mono; [|apply (wp_configure _ i h1); [lia|]].
  2:{ rewrite Hd1. apply list_lookup_insert_eq. rewrite !length_insert. lia. }
  intros [] s2 (h3 & Hd3 & ? & ? & ? & ? & Hc2). exists h3.
  rewrite Hd3, Hd1, !list_insert_insert_eq. split_and!; [done| |].
  - unfold handle_ok. split_and!; try congruence. intros E. rewrite <- (Hr E). congruence.
  - eapply (calls_trans _ [_]); [|eapply calls_trans; [exact Hc1|exact Hc2]]. by_trace.
Qed.

Lemma create_calls_take bus solo roms (j : nat) rom :
  roms !! j = Some rom ->
  create_calls bus solo (take (S j) roms) =
  create_calls bus solo (take j roms) ++ device_calls bus solo (Z.of_nat j) rom.
Proof.
  intros Hrom. unfold create_calls. rewrite (take_S_r _ _ _ Hrom), imap_app, concat_app.
  cbn. rewrite app_nil_r, Nat.add_0_r, length_take_le; [done|].
  apply lookup_lt_Some in Hrom. lia.
Qed.

(** Lines 116-132 configure slot [i] and leave the others alone. *)
Lemma create_device_slot s0 s bus n roms i :
  found_devices s = (Some bus, n, roms) ->
  0 <= i < n -> n <= MAX_DEVICES -> length roms = Z.to_nat MAX_DEVICES ->
  slots_ok bus n roms i (devices s) ->
  calls s0 (create_calls bus (n =? 1) (take (Z.to_nat i) roms)) s ->
  wp (create_device i) (fun _ s' =>
    found_devices s' = (Some bus, n, roms) /\ slots_ok bus n roms (i + 1) (devices s') /\
    calls s0 (create_calls bus (n =? 1) (take (Z.to_nat (i + 1)) roms)) s') s.
Proof.
  intros [= Hb Hn Hr] Hi Hmax Hlen Hslots Hc. unfold MAX_DEVICES in *.
  destruct (lookup_lt_is_Some_2 roms (Z.to_nat i)) as [rom Hrom]; [lia|].
  eapply wp_mono; [|apply (steps_wp (unchanged found_devices)),
    (create_device_spec s bus i rom);
    [apply _|done|destruct Hslots as [-> _]; unfold MAX_DEVICES; lia|by rewrite Hr]].
  intros [] s' [(h & -> & Hh & Hc') Hf]. unfold unchanged, found_devices in *.
  rewrite Hn in *. split_and!; [congruence| |].
  - by apply (slots_ok_next _ _ _ _ _ _ rom); [unfold MAX_DEVICES; lia|..].
  - replace (Z.to_nat (i + 1)) with (S (Z.to_nat i)) by lia.
    rewrite (create_calls_take _ _ _ _ rom Hrom), Z2Nat.id by lia.
    by apply (calls_trans _ _ s).
Qed.

(** Lines 111-133. *)
Lemma create_devices_spec s bus :
  owb s = Some bus -> 0 <= num_devices s <= MAX_DEVICES ->
  length (device_rom_codes s) = Z.to_nat MAX_DEVICES ->
  wp create_devices (fun _ s' =>
    found_devices s' = found_devices s /\
    slots_ok bus (num_devices s) (device_rom_codes s) (num_devices s) (devices s') /\
    calls s (create_calls bus (num_devices s =? 1)
               (take (Z.to_nat (num_devices s)) (device_rom_codes s))) s') s.
Proof.
  intros Hb Hn Hlen. unfold create_devices. wp_steps. cbn.
  apply (wp_for_lt (fun j s' => found_devices s' = found_devices s /\
    slots_ok bus (num_devices s) (device_rom_codes s) j (devices s') /\
    calls s (create_calls bus (num_devices s =? 1)
               (take (Z.to_nat j) (device_rom_codes s))) s')); [lia| |].
  - split_and!; [done|apply slots_ok_start|unfold calls; cbn; by rewrite app_nil_r].
  - intros j s' Hj (Hf & Hslots & Hc).
    assert (found_devices s = (Some bus, num_devices s, device_rom_codes s)) as E
      by (unfold found_devices; by rewrite Hb).
    rewrite E in *. apply create_device_slot; done || lia.
Qed.

(** C8: [create_devices] (lines 111-133), entered with a bus, with
    [num_devices] between 0 and [MAX_DEVICES] and with the eight ROM code
    slots of the search, runs without fault; afterwards every slot below
    [num_devices] points to a handle that is bound to the bus, checks the CRC
    of its readings, is in solo mode exactly when one device was found and
    otherwise carries the ROM code found for its slot; the slots from
    [num_devices] on are NULL; the bus, the count and the ROM codes are as
    before. *)
Theorem create_devices_configures s bus :
  owb s = Some bus -> 0 <= num_devices s <= MAX_DEVICES ->
  length (device_rom_codes s) = Z.to_nat MAX_DEVICES ->
  wp create_devices (fun _ s' =>
    found_devices s' = found_devices s /\
    length (devices s') = Z.to_nat MAX_DEVICES /\
    (forall i, 0 <= i < num_devices s -> exists h,
       devices s' !! Z.to_nat i = Some (Some h) /\
       info_bus h = Some bus /\ info_use_crc h = true /\
       info_solo h = (num_devices s =? 1) /\
       (num_devices s <> 1 -> device_rom_codes s !! Z.to_nat i = Some (info_rom_code h))) /\
    (forall i, num_devices s <= i < MAX_DEVICES -> devices s' !! Z.to_nat i = Some None)) s.
Proof.
  intros Hb Hn Hlen. eapply wp_mono; [|by apply create_devices_spec].
  intros [] s' (Hf & Hslots & _). split_and!; [done|apply Hslots| |].
  - intros i Hi. destruct (slots_ok_lookup _ _ _ _ _ i Hslots) as (h & rom & ? & ? & Hh);
      [lia..|]. destruct Hh as (? & ? & ? & Hrom). exists h. split_and!; try done.
    intros Hne. rewrite Hrom; [done|]. by apply Z.eqb_neq.
  - intros i Hi. destruct Hslots as [_ Hslots].
    specialize (Hslots (Z.to_nat i) ltac:(unfold MAX_DEVICES in *; lia)).
    by rewrite decide_False in Hslots by lia.
Qed.

End Devices.

(** ** The theorem at the bus with three devices. *)

Lemma create_devices_configures_witness :
  wp create_devices (fun _ s' =>
    found_devices s' = found_devices (searched three_devices) /\
    length (devices s') = Z.to_nat MAX_DEVICES /\
    (forall i, 0 <= i < num_devices (searched three_devices) -> exists h,
       devices s' !! Z.to_nat i = Some (Some h) /\
       info_bus h = Some (BusRef 26) /\ info_use_crc h = true /\
       info_solo h = (num_devices (searched three_devices) =? 1) /\
       (num_devices (searched three_devices) <> 1 ->
        device_rom_codes (searched three_devices) !! Z.to_nat i = Some (info_rom_code h))) /\
    (forall i, num_devices (searched three_devices) <= i < MAX_DEVICES ->
       devices s' !! Z.to_nat i = Some None)) (searched three_devices).
Proof.
  apply (create_devices_configures (searched three_devices) (BusRef 26)); by vm_compute.
Defined.
