(* ===== verification/Sampling.v ===== *)
(** * Sampling: the body of [while (1)] (lines 154-186)

    The Sampler of the specification as a set of traces: one sample is the
    tick read, the broadcast conversion, the wait on the first device, one
    read per device, the header with the sample number, one line per device
    with its error count, and what the periodic delay does.  [sample_once]
    refines it from any state the device loop leaves behind; the counters
    count what the specification says they count; and the loop runs without
    fault for as many samples as an [int] can number. *)

From Stdlib Require Import ZArith Lia String.
From stdpp Require Import prelude strings.
From S2P Require Import Prelude Machine OneWire Ds18b20 Rtos Clock.
From S2P Require Import Script AppMain AppFacts Scenarios.

#[local] Open Scope Z_scope.
#[local] Open Scope prog_scope.

(** ** The Sampler's traces. *)

(** What lines 183-186 did: the elapsed time was a period or more, or it was
    less and the task slept. *)
Inductive Delay : Type :=
| NoDelay (now1 : Z)
| Delayed (now1 now2 ticks : Z).

Definition delay_calls (d : Delay) : list Call :=
  match d with
  | NoDelay now1 => [call_xTaskGetTickCount now1]
  | Delayed now1 now2 ticks =>
      [call_xTaskGetTickCount now1; call_xTaskGetTickCount now2; call_vTaskDelay ticks]
  end.

(** One sample: when it started, what was read, how it ended. *)
Record Sample : Type := mkSample {
  sm_start : Z;
  sm_temps : list Z;
  sm_delay : Delay;
}.

(** The calls that go to the 1-Wire bus, as opposed to the console and the
    scheduler. *)
Definition bus_call (c : Call) : bool :=
  match c with
  | call_printf _ _ | call_vTaskDelay _ | call_xTaskGetTickCount _ => false
  | _ => true
  end.

Definition read_calls (ts : list Z) : list Call :=
  imap (fun i t => call_ds18b20_read_temp (Z.of_nat i) t) ts.

Section Sampling.

Context {W : Type} `{Rtos W} `{Owb W} `{Ds18b20 W}.
Implicit Types s : AppState (W:=W).

(** [crc_errors[i]] after a reading [t]. *)
Definition bump (e t : Z) : Z := if t =? DS18B20_INVALID_READING then e + 1 else e.

(** [crc_errors] after the readings [ts] of the first devices. *)
Fixpoint count_errors (es ts : list Z) : list Z :=
  match es, ts with
  | e :: es', t :: ts' => bump e t :: count_errors es' ts'
  | _, _ => es
  end.

Definition print_calls (es ts : list Z) : list Call :=
  imap (fun i t => call_printf fmt_reading
          [PInt (Z.of_nat i); PFloat t; PInt (bump (es !!! i) t)]) ts.

(** The calls of the sample [smp], the [c + 1]-th, with the error counts
    [es] before it. *)
Definition sample_calls (bus : OneWireBus) (c : Z) (es : list Z) (smp : Sample)
  : list Call :=
  [call_xTaskGetTickCount (sm_start smp);
   call_ds18b20_convert_all bus;
   call_ds18b20_wait_for_conversion 0] ++
  read_calls (sm_temps smp) ++
  call_printf fmt_sample [PInt (c + 1)] :: print_calls es (sm_temps smp) ++
  delay_calls (sm_delay smp).

(** The delay is what the code computes from the ticks it read. *)
Definition delay_ok (t0 : Z) (d : Delay) : Prop :=
  match d with
  | NoDelay now1 => u32_ltb (u32_sub now1 t0) sample_period_ticks = false
  | Delayed now1 now2 ticks =>
      u32_ltb (u32_sub now1 t0) sample_period_ticks = true /\
      ticks = u32_sub sample_period_ticks (u32_sub now2 t0)
  end.

(** The calls of consecutive samples, the counters threaded through. *)
Fixpoint run_calls (bus : OneWireBus) (c : Z) (es : list Z) (smps : list Sample)
  : list Call :=
  match smps with
  | [] => []
  | smp :: smps' =>
      sample_calls bus c es smp ++
      run_calls bus (c + 1) (count_errors es (sm_temps smp)) smps'
  end.

(** The state the sampling loop needs: a bus, [n] devices with a handle
    each, eight error counters. *)
Definition ready (bus : OneWireBus) (n : Z) s : Prop :=
  owb s = Some bus /\ num_devices s = n /\ 0 < n <= MAX_DEVICES /\
  (length (devices s) = Z.to_nat MAX_DEVICES /\
   Forall is_Some (take (Z.to_nat n) (devices s))) /\
  length (crc_errors s) = Z.to_nat MAX_DEVICES.

#[export] Instance ready_dec bus n s : Decision (ready bus n s).
Proof. unfold ready. apply _. Defined.

(** What [sample_once] reads and does not write. *)
Definition fixtures s : option OneWireBus * Z * list (option DS18B20_Info) * nat :=
  (owb s, num_devices s, devices s, length (crc_errors s)).

(** What the print loop reads and does not write. *)
Definition measured s : list Z * Z * Z := (temps s, sample_count s, start_ticks s).

(** A sample of [n] devices whose delay is the one the code computes. *)
Definition sample_ok (n : Z) (smp : Sample) : Prop :=
  length (sm_temps smp) = Z.to_nat n /\ delay_ok (sm_start smp) (sm_delay smp).

(** [crc_errors] after the samples [smps]. *)
Definition run_errors (es : list Z) (smps : list Sample) : list Z :=
  foldl (fun es smp => count_errors es (sm_temps smp)) es smps.

(** [sample_once] took the sample [smp] from [s] to [s']. *)
Definition sampled_as (bus : OneWireBus) s (smp : Sample) s' : Prop :=
  sample_ok (num_devices s) smp /\
  calls s (sample_calls bus (sample_count s) (crc_errors s) smp) s' /\
  sample_count s' = sample_count s + 1 /\
  crc_errors s' = count_errors (crc_errors s) (sm_temps smp) /\
  take (Z.to_nat (num_devices s)) (temps s') = sm_temps smp /\
  start_ticks s' = sm_start smp /\
  fixtures s' = fixtures s.

(** The loop took the samples [smps] from [s] to [s']. *)
Definition ran (bus : OneWireBus) s (smps : list Sample) s' : Prop :=
  Forall (sample_ok (num_devices s)) smps /\
  calls s (run_calls bus (sample_count s) (crc_errors s) smps) s' /\
  sample_count s' = sample_count s + Z.of_nat (length smps) /\
  crc_errors s' = run_errors (crc_errors s) smps /\
  fixtures s' = fixtures s.

(** The counters can take one more increment. *)
Definition counters_ok s : Prop :=
  sample_count s < INT_MAX /\ Forall (fun e => e < INT_MAX) (crc_errors s).

(** The counters can take [k] more increments. *)
Definition budget (k : nat) s : Prop :=
  sample_count s + Z.of_nat k <= INT_MAX /\
  Forall (fun e => e + Z.of_nat k <= INT_MAX) (crc_errors s).

#[export] Instance counters_ok_dec s : Decision (counters_ok s).
Proof. unfold counters_ok. apply _. Defined.

#[export] Instance budget_dec k s : Decision (budget k s).
Proof. unfold budget. apply _. Defined.

#[local] Hint Unfold fixtures measured : frames.

(** ** Counting. *)

Lemma length_count_errors es ts : length (count_errors es ts) = length es.
Proof. revert ts. induction es as [|e es IH]; intros [|t ts]; cbn; by rewrite ?IH. Qed.

Lemma count_errors_nil es : count_errors es [] = es.
Proof. by destruct es. Qed.

Lemma count_errors_lookup_ge es ts (i : nat) :
  (length ts <= i)%nat -> count_errors es ts !! i = es !! i.
Proof.
  revert ts i. induction es as [|e es IH]; intros [|t ts] i Hi; cbn in *; try done.
  destruct i; [lia|]. cbn. apply IH. lia.
Qed.

Lemma count_errors_lookup_lt es ts (i : nat) e t :
  es !! i = Some e -> ts !! i = Some t -> count_errors es ts !! i = Some (bump e t).
Proof.
  revert ts i. induction es as [|e' es IH]; intros [|t' ts] [|i]; cbn; try done.
  - by intros [= ->] [= ->].
  - apply IH.
Qed.

Lemma count_errors_lookup es ts (i : nat) e :
  es !! i = Some e ->
  count_errors es ts !! i = Some (match ts !! i with Some t => bump e t | None => e end).
Proof.
  intros He. destruct (ts !! i) as [t|] eqn:Et.
  - by apply count_errors_lookup_lt.
  - rewrite count_errors_lookup_ge; [done|]. by apply lookup_ge_None.
Qed.

Lemma count_errors_snoc es ts t e :
  es !! length ts = Some e ->
  count_errors es (ts ++ [t]) = <[length ts := bump e t]> (count_errors es ts).
Proof.
  revert ts. induction es as [|e' es IH]; intros [|t' ts]; cbn; try done.
  - intros [= ->]. by rewrite count_errors_nil.
  - intros He. by rewrite (IH _ He).
Qed.

Lemma ready_device bus n s i :
  ready bus n s -> 0 <= i < n -> exists h, devices s !! Z.to_nat i = Some (Some h).
Proof.
  intros (_ & _ & Hn & [Hlen Hdev] & _) Hi. unfold MAX_DEVICES in *.
  destruct (lookup_lt_is_Some_2 (devices s) (Z.to_nat i)) as [d Hd]; [lia|].
  rewrite Forall_lookup in Hdev. destruct (Hdev (Z.to_nat i) d) as [h ->]; [|by exists h].
  rewrite lookup_take_lt; [done|lia].
Qed.

Lemma ready_fixtures bus n s s' : ready bus n s -> fixtures s' = fixtures s -> ready bus n s'.
Proof. unfold ready, fixtures. intros (? & ? & ? & ? & ?) [= -> -> -> ->]. done. Qed.

(** ** Lines 164-168: the reads. *)

Lemma read_calls_snoc ts t :
  read_calls (ts ++ [t]) = read_calls ts ++ [call_ds18b20_read_temp (Z.of_nat (length ts)) t].
Proof. unfold read_calls. rewrite imap_app. cbn. by rewrite Nat.add_0_r. Qed.

Lemma length_read_calls ts : length (read_calls ts) = length ts.
Proof. apply length_imap. Qed.

Lemma wp_read_temp s i h :
  0 <= i < Z.of_nat (length (temps s)) -> devices s !! Z.to_nat i = Some (Some h) ->
  wp (read_temp i) (fun _ s' => exists t,
    calls s [call_ds18b20_read_temp i t] s' /\
    temps s' = <[Z.to_nat i := t]> (temps s)) s.
Proof.
  intros Hi Hh. unfold read_temp. wp_steps.
  eapply wp_do_ds18b20_read_temp; [lia|done|]. intros t w _.
  apply wp_store_at; [done|]. by exists t.
Qed.

(** One more read extends what has been read so far. *)
Lemma read_temp_next s0 s s' (j : Z) t :
  0 <= j < Z.of_nat (length (temps s)) ->
  calls s0 (read_calls (take (Z.to_nat j) (temps s))) s ->
  calls s [call_ds18b20_read_temp j t] s' ->
  temps s' = <[Z.to_nat j := t]> (temps s) ->
  calls s0 (read_calls (take (Z.to_nat (j + 1)) (temps s'))) s'.
Proof.
  intros Hj Hc Hc' ->. replace (Z.to_nat (j + 1)) with (S (Z.to_nat j)) by lia.
  rewrite take_insert_snoc, read_calls_snoc by lia.
  rewrite length_take_le, Z2Nat.id by lia. by eapply calls_snoc.
Qed.

Lemma wp_read_temps s bus n :
  ready bus n s ->
  wp read_temps (fun _ s' =>
    calls s (read_calls (take (Z.to_nat n) (temps s'))) s' /\
    length (temps s') = Z.to_nat MAX_DEVICES /\ fixtures s' = fixtures s) s.
Proof.
  intros Hr. pose proof Hr as (Hb & Hn & Hle & _ & Hlen).
  unfold read_temps. wp_steps. cbn. rewrite Hn.
  apply (wp_for_lt (fun j s' =>
    calls s (read_calls (take (Z.to_nat j) (temps s'))) s' /\
    length (temps s') = Z.to_nat MAX_DEVICES /\ fixtures s' = fixtures s)); [lia| |].
  { split_and!; [unfold calls; cbn; by rewrite app_nil_r | done | done]. }
  intros j s' Hj (Hc & Hl & Hf). unfold MAX_DEVICES in *.
  assert (devices s' = devices s) as Hd by (unfold fixtures in Hf; congruence).
  destruct (ready_device _ _ _ j Hr) as [h Hh]; [lia|].
  eapply wp_mono; [|apply (steps_wp (unchanged fixtures)), (wp_read_temp s' j h);
    [apply _ | lia | by rewrite Hd]].
  intros [] s'' [(t & Hc' & Ht) Hf']. unfold unchanged in Hf'. split_and!.
  - eapply read_temp_next; [|done..]. lia.
  - by rewrite Ht, length_insert.
  - congruence.
Qed.

(** ** Lines 171-180: the header and the lines. *)

Lemma print_calls_snoc es ts t e :
  es !! length ts = Some e ->
  print_calls es (ts ++ [t]) = print_calls es ts ++
    [call_printf fmt_reading [PInt (Z.of_nat (length ts)); PFloat t; PInt (bump e t)]].
Proof.
  intros He. unfold print_calls. rewrite imap_app. cbn.
  by rewrite Nat.add_0_r, (list_lookup_total_correct _ _ _ He).
Qed.

Lemma wp_print_reading s i t e :
  0 <= i -> temps s !! Z.to_nat i = Some t -> crc_errors s !! Z.to_nat i = Some e ->
  e < INT_MAX ->
  wp (print_reading i) (fun _ s' =>
    calls s [call_printf fmt_reading [PInt i; PFloat t; PInt (bump e t)]] s' /\
    crc_errors s' = <[Z.to_nat i := bump e t]> (crc_errors s)) s.
Proof.
  intros Hi Ht He Hmax. pose proof (lookup_lt_Some _ _ _ He) as Hlt.
  unfold print_reading, bump. wp_steps. eapply wp_load_at; [done..|].
  destruct (t =? DS18B20_INVALID_READING); wp_steps.
  - eapply wp_load_at; [done..|]. wp_steps. apply wp_int_incr; [done|].
    apply wp_store_at; [lia|]. wp_steps. eapply wp_load_at; [done| |].
    { cbn. by apply list_lookup_insert_eq. }
    by apply wp_do_printf.
  - eapply wp_load_at; [done..|]. apply wp_do_printf. split; [done|].
    cbn. by rewrite list_insert_id.
Qed.

(** One more line extends what has been printed and counted so far. *)
Lemma print_reading_next es ts (j : Z) t e cs :
  0 <= j -> length es = Z.to_nat MAX_DEVICES -> j < MAX_DEVICES ->
  ts !! Z.to_nat j = Some t -> es !! Z.to_nat j = Some e ->
  cs = <[Z.to_nat j := bump e t]> (count_errors es (take (Z.to_nat j) ts)) ->
  cs = count_errors es (take (Z.to_nat (j + 1)) ts) /\
  print_calls es (take (Z.to_nat (j + 1)) ts) =
    print_calls es (take (Z.to_nat j) ts) ++
      [call_printf fmt_reading [PInt j; PFloat t; PInt (bump e t)]].
Proof.
  intros Hj Hlen Hmax Ht He ->. pose proof (lookup_lt_Some _ _ _ Ht) as Hlt.
  replace (Z.to_nat (j + 1)) with (S (Z.to_nat j)) by lia.
  rewrite (take_S_r _ _ _ Ht).
  assert (length (take (Z.to_nat j) ts) = Z.to_nat j) as El by (rewrite length_take; lia).
  rewrite (count_errors_snoc _ _ _ e), (print_calls_snoc _ _ _ e), El, Z2Nat.id
    by (by rewrite ?El). done.
Qed.

(** The print loop at index [j], started in [s] with the header printed. *)
Definition printed s (j : Z) s' : Prop :=
  calls s (call_printf fmt_sample [PInt (sample_count s + 1)] ::
           print_calls (crc_errors s) (take (Z.to_nat j) (temps s))) s' /\
  crc_errors s' = count_errors (crc_errors s) (take (Z.to_nat j) (temps s)) /\
  fixtures s' = fixtures s /\
  measured s' = (temps s, sample_count s + 1, start_ticks s).

Lemma wp_print_reading_printed s s' j :
  length (crc_errors s) = Z.to_nat MAX_DEVICES -> length (temps s) = Z.to_nat MAX_DEVICES ->
  Forall (fun e => e < INT_MAX) (crc_errors s) ->
  0 <= j < MAX_DEVICES -> printed s j s' ->
  wp (print_reading j) (fun _ => printed s (j + 1)) s'.
Proof.
  intros Hle Hlt Hmax Hj (Hc & Hes & Hf & Hm). unfold MAX_DEVICES in *.
  pose proof Hm as [= Ht _ _].
  destruct (lookup_lt_is_Some_2 (temps s) (Z.to_nat j)) as [t Et]; [lia|].
  destruct (lookup_lt_is_Some_2 (crc_errors s) (Z.to_nat j)) as [e Ee]; [lia|].
  eapply wp_mono; [|apply (steps_wp (unchanged (fun s => (fixtures s, measured s)))),
    (wp_print_reading s' j t e); [apply _ | lia | by rewrite Ht | |]].
  - intros [] s'' [[Hc' Hes'] [Hf' Hm']%pair_equal_spec]. rewrite Hes in Hes'.
    unfold printed.
    destruct (print_reading_next (crc_errors s) (temps s) j t e _
      ltac:(lia) Hle ltac:(unfold MAX_DEVICES; lia) Et Ee Hes') as [Hes'' ->].
    split_and!; [|done|congruence..].
    rewrite app_comm_cons. by eapply calls_snoc.
  - rewrite Hes, count_errors_lookup_ge; [done|]. rewrite length_take. lia.
  - by eapply (Forall_lookup_1 _ _ _ _ Hmax).
Qed.

Lemma wp_print_results s bus n :
  ready bus n s -> length (temps s) = Z.to_nat MAX_DEVICES ->
  sample_count s < INT_MAX -> Forall (fun e => e < INT_MAX) (crc_errors s) ->
  wp print_results (fun _ => printed s n) s.
Proof.
  intros (Hb & Hn & Hle & Hdev & Hlen) Hlt Hc Hmax. unfold print_results.
  wp_steps. apply wp_int_incr; [done|]. wp_steps. apply wp_do_printf. wp_steps. cbn.
  rewrite Hn. apply (wp_for_lt (printed s)); [lia| |].
  - unfold printed. cbn. by rewrite count_errors_nil.
  - intros j s' Hj. apply wp_print_reading_printed; try done. lia.
Qed.

(** ** Lines 183-186: the periodic delay. *)

Lemma wp_periodic_delay s :
  wp periodic_delay (fun _ s' => exists d,
    delay_ok (start_ticks s) d /\ calls s (delay_calls d) s') s.
Proof.
  unfold periodic_delay. wp_steps. apply wp_do_xTaskGetTickCount. intros now1 w1 _.
  wp_steps. cbn. destruct (u32_ltb _ _) eqn:E; wp_steps.
  - apply wp_do_xTaskGetTickCount. intros now2 w2 _. apply wp_do_vTaskDelay.
    exists (Delayed now1 now2 (u32_sub sample_period_ticks (u32_sub now2 (start_ticks s)))).
    split; [done|]. unfold calls. cbn. by rewrite <- !app_assoc.
  - by exists (NoDelay now1).
Qed.

(** ** Lines 154-186: one sample. *)

(** Lines 154-160: the tick, the conversion, the wait, then the rest. *)
Lemma wp_sample_head s bus n (k : prog AppState unit) (Q : unit -> AppState -> Prop) :
  ready bus n s ->
  (forall t0 s1, calls s [call_xTaskGetTickCount t0; call_ds18b20_convert_all bus;
                          call_ds18b20_wait_for_conversion 0] s1 ->
     fixtures s1 = fixtures s -> start_ticks s1 = t0 ->
     crc_errors s1 = crc_errors s -> sample_count s1 = sample_count s -> wp k Q s1) ->
  wp (t ← do_xTaskGetTickCount; modify (set_start_ticks t) ;; convert_and_wait ;; k) Q s.
Proof.
  intros Hr HQ. pose proof Hr as (Hb & Hn & Hle & _ & Hlen).
  destruct (ready_device _ _ _ 0 Hr) as [h0 Hh0]; [lia|].
  wp_steps. apply wp_do_xTaskGetTickCount. intros t0 w0 _. wp_steps.
  unfold convert_and_wait. wp_steps. eapply wp_do_ds18b20_convert_all; [done|].
  eapply wp_do_ds18b20_wait_for_conversion; [done..|].
  apply (HQ t0); try done. unfold calls. cbn. by rewrite <- !app_assoc.
Qed.

Lemma sample_once_spec s bus n :
  ready bus n s -> counters_ok s ->
  wp sample_once (fun _ s' => exists smp, sampled_as bus s smp s') s.
Proof.
  intros Hr [Hc Hmax]. pose proof Hr as (Hb & Hn & _).
  unfold sample_once. apply (wp_sample_head s bus n); [done|].
  intros t0 s1 Hc1 Hf1 Ht1 He1 Hs1. wp_steps.
  eapply wp_mono; [|apply (steps_wp (unchanged (fun s => (crc_errors s, sample_count s, start_ticks s)))),
    (wp_read_temps s1 bus n); [apply _ | by apply (ready_fixtures bus n s)]].
  intros [] s2 [(Hc2 & Hl2 & Hf2) [= He2 Hs2 Ht2]]. cbn beta. apply wp_bind.
  eapply wp_mono; [|apply (wp_print_results s2 bus n);
    [apply (ready_fixtures bus n s) | | |]; congruence].
  intros [] s3 (Hc3 & Hes3 & Hf3 & [= Htm3 Hs3 Ht3]). cbn beta.
  eapply wp_mono; [|apply (steps_wp (unchanged (fun s => (fixtures s, (measured s, crc_errors s))))),
    wp_periodic_delay; apply _].
  intros [] s4 [(d & Hd & Hc4) [Hf4 [[= Htm4 Hs4 Ht4] He4]%pair_equal_spec]%pair_equal_spec].
  exists (mkSample t0 (take (Z.to_nat n) (temps s2)) d).
  unfold sampled_as, sample_ok, sample_calls. cbn [sm_start sm_temps sm_delay].
  rewrite Hn. split_and!; try congruence.
  - destruct Hr as (_ & _ & ? & _). rewrite length_take, Hl2. unfold MAX_DEVICES in *. lia.
  - eapply calls_trans; [done|]. eapply calls_trans; [done|].
    rewrite app_comm_cons. eapply calls_trans; [|exact Hc4].
    by rewrite <- Hs1, <- Hs2, <- He1, <- He2.
Qed.

Lemma console_print_calls es ts : Forall (fun c => bus_call c = false) (print_calls es ts).
Proof. apply Forall_lookup. intros i c. unfold print_calls. rewrite list_lookup_imap.
  destruct (ts !! i); by intros [= <-]. Qed.

Lemma console_delay_calls d : Forall (fun c => bus_call c = false) (delay_calls d).
Proof. destruct d; by repeat constructor. Qed.

(** ** The loop. *)

Lemma bump_bounds e t : e <= bump e t <= e + 1.
Proof. unfold bump. destruct (_ =? _); lia. Qed.

Lemma count_errors_budget (k : nat) es ts :
  Forall (fun e => e + Z.of_nat (S k) <= INT_MAX) es ->
  Forall (fun e => e + Z.of_nat k <= INT_MAX) (count_errors es ts).
Proof.
  intros Hes. revert ts. induction Hes as [|e es He _ IH]; intros [|t ts]; cbn.
  - done.
  - done.
  - constructor; [lia|]. specialize (IH []). by rewrite count_errors_nil in IH.
  - constructor; [|done]. pose proof (bump_bounds e t). lia.
Qed.

Lemma budget_counters_ok k s : budget (S k) s -> counters_ok s.
Proof.
  intros [Hc He]. split; [lia|]. eapply Forall_impl; [done|]. cbn. intros. lia.
Qed.

Lemma budget_next bus k s smp s' : budget (S k) s -> sampled_as bus s smp s' -> budget k s'.
Proof.
  intros [Hc He] (_ & _ & Hs & Hes & _). unfold budget. rewrite Hs, Hes.
  split; [lia|]. by apply count_errors_budget.
Qed.

Lemma run_errors_bounds es smps (i : nat) e :
  es !! i = Some e ->
  exists e', run_errors es smps !! i = Some e' /\ e <= e' <= e + Z.of_nat (length smps).
Proof.
  revert es e. induction smps as [|smp smps IH]; intros es e He.
  { exists e. split; [done|]. cbn. lia. }
  change (run_errors es (smp :: smps)) with (run_errors (count_errors es (sm_temps smp)) smps).
  destruct (IH _ _ (count_errors_lookup es (sm_temps smp) i e He)) as (e' & -> & Hb).
  exists e'. split; [done|]. cbn [length]. revert Hb.
  destruct (sm_temps smp !! i) as [t|]; [pose proof (bump_bounds e t)|]; lia.
Qed.

Lemma ran_nil bus s : ran bus s [] s.
Proof. unfold ran. cbn. split_and!; [done|apply calls_nil|lia|done..]. Qed.

Lemma ran_cons bus s smp s1 smps s' :
  sampled_as bus s smp s1 -> ran bus s1 smps s' -> ran bus s (smp :: smps) s'.
Proof.
  intros (Hok & Hc & Hs & He & _ & _ & Hf) (Hoks & Hcs & Hss & Hes & Hfs).
  assert (num_devices s1 = num_devices s) as Hn by (unfold fixtures in Hf; congruence).
  rewrite Hn, Hs, He in *. unfold ran. cbn [run_calls run_errors foldl length].
  split_and!; [by constructor | by eapply calls_trans | lia | done | congruence].
Qed.

Lemma sampling_run_spec s bus n k :
  ready bus n s -> budget k s ->
  wp (repeat_n k sample_once) (fun _ s' => exists smps, length smps = k /\ ran bus s smps s') s.
Proof.
  revert s. induction k as [|k IH]; intros s Hr Hk.
  { exists []. split; [done|]. apply ran_nil. }
  cbn [repeat_n]. apply wp_bind.
  eapply wp_mono; [|apply (sample_once_spec s bus n); [done|by eapply budget_counters_ok]].
  intros [] s1 [smp Hsmp]. cbn beta.
  eapply wp_mono; [|apply IH; [|by eapply budget_next]].
  - intros [] s' (smps & <- & Hran). exists (smp :: smps). split; [done|]. by eapply ran_cons.
  - eapply ready_fixtures; [done|]. apply Hsmp.
Qed.

(** Lines 154-171 with [sample_count] at [INT_MAX]. *)
Lemma sample_once_overflow s bus n :
  ready bus n s -> sample_count s = INT_MAX ->
  faults sample_once (SignedOverflow "sample_count")
    (fun s' => length (new_calls s s') = Z.to_nat (3 + n)) s.
Proof.
  intros Hr Hc. pose proof Hr as (Hb & Hn & Hle & _).
  destruct (ready_device _ _ _ 0 Hr) as [h0 Hh0]; [lia|].
  unfold sample_once. apply faults_bind_ok, wp_do_xTaskGetTickCount. intros t0 w0 _.
  apply faults_bind_ok. wp_steps. apply faults_bind_ok.
  unfold convert_and_wait. wp_steps. eapply wp_do_ds18b20_convert_all; [done|].
  eapply wp_do_ds18b20_wait_for_conversion; [done..|]. apply faults_bind_ok.
  eapply wp_mono; [|apply (steps_wp (unchanged sample_count)), (wp_read_temps _ bus n);
    [apply _ | by apply (ready_fixtures bus n s)]].
  intros [] s2 [(Hc2 & Hl2 & _) Hs2]. apply faults_bind_fault.
  unfold print_results. apply faults_bind_ok. wp_steps. apply faults_bind_fault.
  unfold faults. rewrite int_incr_overflow by (rewrite Hs2; cbn; lia). split; [done|].
  rewrite (new_calls_app _ _ ([call_xTaskGetTickCount t0; call_ds18b20_convert_all bus;
    call_ds18b20_wait_for_conversion 0] ++ read_calls (take (Z.to_nat n) (temps s2)))).
  - rewrite length_app, length_read_calls, length_take, Hl2. unfold MAX_DEVICES in *. cbn. lia.
  - rewrite Hc2. cbn. by rewrite <- !app_assoc.
Qed.

(** The loop overflows [sample_count] in its 2^31-th sample, and not
    before. *)
Lemma sampling_overflow s bus n (k : nat) :
  ready bus n s -> sample_count s = 0 ->
  crc_errors s = replicate (Z.to_nat MAX_DEVICES) 0 -> INT_MAX < Z.of_nat k ->
  faults (repeat_n k sample_once) (SignedOverflow "sample_count") (fun _ => True) s.
Proof.
  intros Hr Hc He Hk. destruct (Z_of_nat_complete INT_MAX) as [M HM]; [done|].
  replace k with (M + S (k - S M))%nat by lia.
  unfold faults. rewrite repeat_n_add. apply faults_bind_ok.
  eapply wp_mono; [|apply (sampling_run_spec s bus n M); [done|]].
  - intros [] s' (smps & Hlen & _ & _ & Hsc & _ & Hf). cbn [repeat_n]. apply faults_bind_fault.
    eapply faults_mono; [|apply (sample_once_overflow s' bus n);
      [by apply (ready_fixtures bus n s) | rewrite Hsc, Hc, Hlen; lia]]. done.
  - split; [lia|]. rewrite He. apply Forall_replicate. lia.
Qed.

(** ** The theorems. *)

(** C3: refinement of the Sampler.  From a state with a bus, [n] devices
    with their handles and counters that can take [k] more increments, [k]
    iterations of [while (1)] run without fault, and the calls they make are
    those of [k] samples of the specification, one after the other: each is
    the tick read, the broadcast conversion, the wait on device 0, one read
    per device in order, the header with the next sample number, one line
    per device with its error count, and the delay computed from the ticks
    read. *)
Theorem sampling_refines_sampler s bus n k :
  ready bus n s -> budget k s ->
  is_ok (repeat_n k sample_once s) = true /\
  exists smps, length smps = k /\ Forall (sample_ok n) smps /\
    new_calls s (final (repeat_n k sample_once s)) =
      run_calls bus (sample_count s) (crc_errors s) smps.
Proof.
  intros Hr Hk. pose proof (sampling_run_spec s bus n k Hr Hk) as Hwp.
  split; [by eapply wp_is_ok|].
  apply wp_final in Hwp as ([] & smps & Hlen & Hok & Hc & _).
  exists smps. destruct Hr as (_ & <- & _). split_and!; [done..|by apply calls_new_calls].
Qed.

(** C11: the reads follow the conversion.  In every sample the wait for
    the conversion is followed at once by the reads of all [n] devices, in
    the order of their slots; nothing that the sample does after them goes
    to the bus: what is printed is printed after the last read
    (lines 162-163 say why). *)
Theorem reads_follow_conversion s bus n :
  ready bus n s -> counters_ok s ->
  wp sample_once (fun _ s' => exists t0 ts rest,
    new_calls s s' =
      [call_xTaskGetTickCount t0; call_ds18b20_convert_all bus;
       call_ds18b20_wait_for_conversion 0] ++ read_calls ts ++ rest /\
    length ts = Z.to_nat n /\ Forall (fun c => bus_call c = false) rest) s.
Proof.
  intros Hr Hc. eapply wp_mono; [|by apply (sample_once_spec s bus n)].
  intros [] s' ([t0 ts d] & [Hlen _] & Hcalls & _). destruct Hr as (_ & <- & _).
  exists t0, ts, (call_printf fmt_sample [PInt (sample_count s + 1)] ::
                  print_calls (crc_errors s) ts ++ delay_calls d).
  split_and!; [by apply calls_new_calls | done |].
  constructor; [done|]. apply Forall_app. split;
    [apply console_print_calls | apply console_delay_calls].
Qed.

(** C12: the error counters count the invalid readings.  After a sample,
    [crc_errors[i]] is one more than before when [i] is the slot of a device
    and the reading stored in [temps[i]] is [DS18B20_INVALID_READING], and is
    what it was in every other case. *)
Theorem crc_errors_count_invalid_readings s bus n :
  ready bus n s -> counters_ok s ->
  wp sample_once (fun _ s' => forall (i : nat) e, crc_errors s !! i = Some e ->
    crc_errors s' !! i =
      Some (if decide (Z.of_nat i < n /\ temps s' !! i = Some DS18B20_INVALID_READING)
            then e + 1 else e)) s.
Proof.
  intros Hr Hc. eapply wp_mono; [|by apply (sample_once_spec s bus n)].
  intros [] s' (smp & [Hlen _] & _ & _ & -> & Hts & _) i e He. destruct Hr as (_ & Hn & _).
  rewrite (count_errors_lookup _ _ _ _ He), <- Hts, Hn.
  destruct (decide (Z.of_nat i < n)) as [Hi|Hi].
  - rewrite lookup_take_lt by lia. rewrite <- Hts, Hn, length_take in Hlen.
    destruct (lookup_lt_is_Some_2 (temps s') i) as [t ->]; [lia|]. unfold bump.
    destruct (Z.eqb_spec t DS18B20_INVALID_READING) as [->|Hne].
    + by rewrite decide_True.
    + rewrite decide_False; [done|]. by intros [_ [= ->]].
  - rewrite lookup_take_ge by lia. rewrite decide_False; [done|]. by intros [? _].
Qed.

(** C20: the error counters never decrease.  Over [k] samples every
    counter grows by at least 0 and at most [k]. *)
Theorem crc_errors_monotone s bus n k :
  ready bus n s -> budget k s ->
  wp (repeat_n k sample_once) (fun _ s' => forall (i : nat) e, crc_errors s !! i = Some e ->
    exists e', crc_errors s' !! i = Some e' /\ e <= e' <= e + Z.of_nat k) s.
Proof.
  intros Hr Hk. eapply wp_mono; [|by apply (sampling_run_spec s bus n k)].
  intros [] s' (smps & <- & _ & _ & _ & -> & _) i e. apply run_errors_bounds.
Qed.

(** C21: the sample counter overflows.  When [sample_count] is [INT_MAX]
    at the head of the loop, the sample reads the devices and then stops in
    [++sample_count] (line 171), which is undefined for an [int]: the loop
    has no provision for the 2^31-th sample. *)
Theorem sample_count_overflow s bus n :
  ready bus n s -> sample_count s = INT_MAX ->
  fault_of (sample_once s) = Some (SignedOverflow "sample_count") /\
  length (new_calls s (final (sample_once s))) = Z.to_nat (3 + n).
Proof.
  intros Hr Hc.
  by apply (faults_fault_of sample_once _ (fun s' => length (new_calls s s') = Z.to_nat (3 + n))),
    (sample_once_overflow s bus n).
Qed.

End Sampling.

#[export] Hint Unfold fixtures measured : frames.

(** ** The theorems at the bus with three devices, whose second device
    fails its CRC check in the second sample. *)

Lemma sampling_refines_sampler_witness :
  is_ok (repeat_n 2 sample_once (sampled three_devices 0)) = true /\
  exists smps, length smps = 2%nat /\ Forall (sample_ok (W:=ScriptWorld) 3) smps /\
    new_calls (sampled three_devices 0)
      (final (repeat_n 2 sample_once (sampled three_devices 0))) =
      run_calls (W:=ScriptWorld) (BusRef 26) (sample_count (sampled three_devices 0))
        (crc_errors (sampled three_devices 0)) smps.
Proof.
  apply (sampling_refines_sampler (sampled three_devices 0) (BusRef 26) 3 2); by_compute.
Defined.

Lemma reads_follow_conversion_witness :
  wp sample_once (fun _ s' => exists t0 ts rest,
    new_calls (sampled three_devices 1) s' =
      [call_xTaskGetTickCount t0; call_ds18b20_convert_all (BusRef 26);
       call_ds18b20_wait_for_conversion 0] ++ read_calls ts ++ rest /\
    length ts = Z.to_nat 3 /\ Forall (fun c => bus_call c = false) rest)
    (sampled three_devices 1).
Proof.
  apply (reads_follow_conversion (sampled three_devices 1) (BusRef 26) 3); by_compute.
Defined.

Lemma crc_errors_count_invalid_readings_witness :
  wp sample_once (fun _ s' => forall (i : nat) e,
    crc_errors (sampled three_devices 1) !! i = Some e ->
    crc_errors s' !! i =
      Some (if decide (Z.of_nat i < 3 /\ temps s' !! i = Some DS18B20_INVALID_READING)
            then e + 1 else e)) (sampled three_devices 1).
Proof.
  apply (crc_errors_count_invalid_readings (sampled three_devices 1) (BusRef 26) 3);
    by_compute.
Defined.

Lemma crc_errors_monotone_witness :
  wp (repeat_n 3 sample_once) (fun _ s' => forall (i : nat) e,
    crc_errors (sampled three_devices 0) !! i = Some e ->
    exists e', crc_errors s' !! i = Some e' /\ e <= e' <= e + Z.of_nat 3)
    (sampled three_devices 0).
Proof.
  apply (crc_errors_monotone (sampled three_devices 0) (BusRef 26) 3 3); by_compute.
Defined.

Lemma sample_count_overflow_witness :
  fault_of (sample_once (set_sample_count INT_MAX (sampled one_device 0))) =
    Some (SignedOverflow "sample_count") /\
  length (new_calls (set_sample_count INT_MAX (sampled one_device 0))
            (final (sample_once (set_sample_count INT_MAX (sampled one_device 0))))) =
    Z.to_nat (3 + 1).
Proof.
  apply (sample_count_overflow (set_sample_count INT_MAX (sampled one_device 0)) (BusRef 26) 1);
    [by_compute | reflexivity].
Defined.
