(* ===== verification/Timing.v ===== *)
(** * Timing: the sample period (lines 154 and 183-186)

    Time is the tick count since boot, an integer that the program only
    sees modulo 2^32.  Under the contract of the clock ([ClockLaws]) a
    sample never ends before a full period has passed since its start was
    read, whatever the counter wraps; and the one thing the delay gets
    wrong: the counter is read once for the test and once more for the
    argument, and a period boundary that falls between the two reads turns
    the remainder of the period into almost 2^32 ticks. *)

From Stdlib Require Import ZArith Lia String.
From stdpp Require Import prelude strings.
From S2P Require Import Prelude Machine OneWire Ds18b20 Rtos Clock.
From S2P Require Import Script AppMain AppFacts Scenarios Sampling.

#[local] Open Scope Z_scope.
#[local] Open Scope prog_scope.

(** A bus on which the two tick reads of the first delay straddle the end
    of the period: the conversion takes 75 ticks, the first read 20, the
    second 10, everything else none. *)
Definition racy_latency (k : nat) : Z :=
  if decide (k = 22%nat) then 20 else if decide (k = 23%nat) then 10 else 0.

Definition racy_bus : Script :=
  mkScript 10 [rom_green] [] temps_one_fault racy_latency.

(** The first sample up to its delay. *)
Definition before_delay (sc : Script) : AppState :=
  final ((t ← do_xTaskGetTickCount; modify (set_start_ticks t) ;;
          convert_and_wait ;; read_temps ;; print_results)%prog (sampled sc 0)).

Section Timing.

Context {W : Type} `{Rtos W} `{Owb W} `{Ds18b20 W} `{Clock W} `{!ClockLaws W}.
Implicit Types s : AppState (W:=W).

(** The sample in progress started at tick [T0]. *)
Definition started_at (T0 : Z) s : Prop :=
  start_ticks s = u32 T0 /\ T0 <= now (world s).

(** What the rest of a sample respects: time passes, [start_ticks] stays. *)
#[local] Abbreviation in_sample := (both time_passes (unchanged start_ticks)).

Lemma sample_period_ticks_range : in_u32 sample_period_ticks.
Proof.
  pose proof tick_period_range. apply u32_div_range.
  rewrite u32_small; unfold in_u32, UINT32_MOD; lia.
Qed.

Lemma started_at_later T0 s s' : started_at T0 s -> in_sample s s' -> started_at T0 s'.
Proof. intros [Ht HT] [Hn Hs]. split; [congruence|]. unfold time_passes in Hn. lia. Qed.

(** Past a statement of the sample that is not the delay. *)
Lemma wlp_in_sample T0 s (m k : prog AppState unit) (Q : unit -> AppState -> Prop) :
  Steps in_sample m -> started_at T0 s ->
  (forall s', started_at T0 s' -> wlp k Q s') -> wlp (m ;; k) Q s.
Proof.
  intros Hm Hs Hk. apply (wlp_bind_steps in_sample); [done|].
  intros [] s' Hs'. by eapply Hk, started_at_later.
Qed.

(** The tick read is the count of an instant of the call. *)
Lemma wlp_do_xTaskGetTickCount (Q : Z -> AppState -> Prop) s :
  (forall T w, now (world s) <= T <= now w ->
     Q (u32 T) (emit (call_xTaskGetTickCount (u32 T)) w s)) ->
  wlp do_xTaskGetTickCount Q s.
Proof.
  intros HQ. unfold wlp, do_xTaskGetTickCount.
  destruct (now_xTaskGetTickCount (world s)) as (T & HT & Ht).
  destruct (xTaskGetTickCount (world s)) as [t w]. cbn in *. subst t. by apply HQ.
Qed.

(** Lines 183-186: whichever branch is taken, the period is over
    afterwards. *)
Lemma periodic_delay_time s T0 :
  started_at T0 s ->
  wlp periodic_delay (fun _ s' =>
    start_ticks s' = u32 T0 /\ T0 + sample_period_ticks <= now (world s')) s.
Proof.
  intros [Ht0 HT0]. pose proof sample_period_ticks_range as HP.
  unfold periodic_delay. apply wlp_bind, wlp_do_xTaskGetTickCount. intros T1 w1 HT1.
  apply wlp_bind. cbn [wlp gets]. cbn. rewrite Ht0.
  destruct (u32_ltb _ _) eqn:E.
  - apply wlp_bind, wlp_do_xTaskGetTickCount. intros T2 w2 HT2. cbn in HT2.
    cbn. rewrite u32_sub_u32. split; [done|].
    pose proof (now_vTaskDelay (u32_sub sample_period_ticks (u32 (T2 - T0))) w2) as Hd.
    rewrite (u32_small (u32_sub _ _)) in Hd by apply u32_sub_range.
    pose proof (u32_sub_makes_up sample_period_ticks (T2 - T0) HP). lia.
  - cbn. split; [done|].
    apply u32_ltb_ge in E. rewrite (u32_small _ HP), u32_sub_u32, u32_idemp in E.
    pose proof (u32_sub_le T0 T1). rewrite u32_sub_u32 in *. lia.
Qed.

(** Lines 154-186: a sample ends a period or more after its start was
    read. *)
Lemma sample_once_time s :
  wlp sample_once (fun _ s' => exists T0,
    now (world s) <= T0 /\ start_ticks s' = u32 T0 /\
    T0 + sample_period_ticks <= now (world s')) s.
Proof.
  unfold sample_once. apply wlp_bind, wlp_do_xTaskGetTickCount. intros T0 w0 HT0.
  apply wlp_bind. cbn [wlp modify].
  assert (started_at T0 (set_start_ticks (u32 T0) (emit (call_xTaskGetTickCount (u32 T0)) w0 s)))
    as Hs by (split; [done | cbn; lia]).
  revert Hs. generalize (set_start_ticks (u32 T0) (emit (call_xTaskGetTickCount (u32 T0)) w0 s)).
  intros s1 Hs1.
  do 3 (apply (wlp_in_sample T0 s1); [apply _ | done | clear s1 Hs1; intros s1 Hs1]).
  eapply wlp_mono; [|by apply (periodic_delay_time s1 T0)].
  intros [] s6 [? ?]. exists T0. split_and!; [lia|done..].
Qed.

(** A sample does what the Sampler says and takes a period or more. *)
Lemma sample_once_timed s bus n :
  ready bus n s -> counters_ok s ->
  wp sample_once (fun _ s' =>
    (exists smp, sampled_as bus s smp s') /\
    exists T0, now (world s) <= T0 /\ start_ticks s' = u32 T0 /\
               T0 + sample_period_ticks <= now (world s')) s.
Proof. intros Hr Hc. by apply wp_wlp_conj; [eapply sample_once_spec | apply sample_once_time]. Qed.

(** The argument of [vTaskDelay] when the first read is within the period
    and the second read gives the elapsed time [e2]. *)
Definition delay_ticks (e2 : Z) : Z :=
  if e2 <=? sample_period_ticks then sample_period_ticks - e2
  else UINT32_MOD - (e2 - sample_period_ticks).

(** The subtraction of line 185. *)
Lemma u32_sub_delay_ticks e2 :
  in_u32 e2 -> u32_sub sample_period_ticks e2 = delay_ticks e2.
Proof.
  intros He2. pose proof sample_period_ticks_range as HP.
  unfold delay_ticks, u32_sub, u32, in_u32, UINT32_MOD in *.
  destruct (Z.leb_spec e2 sample_period_ticks).
  - apply Z.mod_small. lia.
  - symmetry. apply (Z.mod_unique_pos _ _ (-1)); lia.
Qed.

(** Lines 183-186 when the first read is within the period. *)
Lemma periodic_delay_calls s now1 w1 now2 w2 :
  xTaskGetTickCount (world s) = (now1, w1) -> xTaskGetTickCount w1 = (now2, w2) ->
  u32_sub now1 (start_ticks s) < sample_period_ticks ->
  new_calls s (final (periodic_delay s)) =
    [call_xTaskGetTickCount now1; call_xTaskGetTickCount now2;
     call_vTaskDelay (delay_ticks (u32_sub now2 (start_ticks s)))].
Proof.
  intros E1 E2 Hlt. pose proof sample_period_ticks_range as HP.
  rewrite <- u32_sub_delay_ticks by apply u32_sub_range.
  unfold periodic_delay, bind, do_xTaskGetTickCount. rewrite E1. cbn.
  replace (u32_ltb _ _) with true.
  2:{ symmetry. apply u32_ltb_lt. by rewrite (u32_small _ HP), (u32_small _ (u32_sub_range _ _)). }
  cbn. rewrite E2. cbn. apply new_calls_app. cbn. by rewrite <- !app_assoc.
Qed.

(** ** The theorems. *)


(** C16: [k] samples take [k] periods.  From a state ready to sample,
    [k] iterations of [while (1)] end no earlier than [k] sample periods
    after they began: the program never samples faster than once per
    [SAMPLE_PERIOD]. *)
Theorem samples_take_their_periods s bus n (k : nat) :
  ready bus n s -> budget k s ->
  wp (repeat_n k sample_once) (fun _ s' =>
    now (world s) + Z.of_nat k * sample_period_ticks <= now (world s')) s.
Proof.
  revert s. induction k as [|k IH]; intros s Hr Hk; [cbn; lia|].
  cbn [repeat_n]. apply wp_bind.
  eapply wp_mono; [|apply (sample_once_timed s bus n); [done | by eapply budget_counters_ok]].
  intros [] s1 [[smp Hsmp] (T0 & ? & _ & ?)]. cbn beta.
  eapply wp_mono; [|apply IH; [|by eapply budget_next]].
  - intros [] s' Hs'. cbn beta in Hs'. lia.
  - eapply ready_fixtures; [done | apply Hsmp].
Qed.

(** C10: the reads wait for the conversion.  [convert_and_wait]
    (lines 156-160) runs without fault from a state with a bus and a handle
    in slot 0, makes the two calls, and ends no earlier than the worst-case
    conversion time of that handle's resolution after the instant [T] at
    which the conversion was started; [read_temps] is the next statement of
    the sample. *)
Theorem conversion_is_waited_for s bus h0 :
  owb s = Some bus -> devices s !! O = Some (Some h0) ->
  wp convert_and_wait (fun _ s' => exists T,
    now (world s) <= T /\
    T + conversion_time_ms (info_resolution h0) / portTICK_PERIOD_MS <= now (world s') /\
    new_calls s s' = [call_ds18b20_convert_all bus; call_ds18b20_wait_for_conversion 0]) s.
Proof.
  intros Hb Hh. unfold convert_and_wait. wp_steps.
  eapply wp_do_ds18b20_convert_all; [done|].
  eapply wp_do_ds18b20_wait_for_conversion; [done..|]. cbn.
  exists (now (ds18b20_convert_all bus (world s))). split_and!.
  - apply now_ds18b20_convert_all.
  - apply now_wait_for_conversion.
  - apply new_calls_app. cbn. by rewrite <- app_assoc.
Qed.


(** C23: the delay is the remainder of the period.  When both reads of
    the tick counter fall within the period, the task sleeps for the period
    less the time elapsed at the second read. *)
Theorem periodic_delay_remainder s now1 w1 now2 w2 :
  xTaskGetTickCount (world s) = (now1, w1) -> xTaskGetTickCount w1 = (now2, w2) ->
  u32_sub now1 (start_ticks s) < sample_period_ticks ->
  u32_sub now2 (start_ticks s) <= sample_period_ticks ->
  new_calls s (final (periodic_delay s)) =
    [call_xTaskGetTickCount now1; call_xTaskGetTickCount now2;
     call_vTaskDelay (sample_period_ticks - u32_sub now2 (start_ticks s))].
Proof.
  intros E1 E2 Hin Hout. rewrite (periodic_delay_calls s now1 w1 now2 w2) by done.
  unfold delay_ticks. by rewrite (proj2 (Z.leb_le _ _)).
Qed.

(** C24: a sample that overruns its period is followed at once by the
    next.  When the first read of the tick counter is a period or more after
    the start, the tick counter is read once and [vTaskDelay] is not
    called. *)
Theorem periodic_delay_overrun s now1 w1 :
  xTaskGetTickCount (world s) = (now1, w1) ->
  sample_period_ticks <= u32_sub now1 (start_ticks s) ->
  new_calls s (final (periodic_delay s)) = [call_xTaskGetTickCount now1].
Proof.
  intros E1 Hge. pose proof sample_period_ticks_range as HP.
  unfold periodic_delay, bind, do_xTaskGetTickCount. rewrite E1. cbn.
  replace (u32_ltb _ _) with false.
  2:{ symmetry. apply u32_ltb_ge. by rewrite (u32_small _ HP), (u32_small _ (u32_sub_range _ _)). }
  by apply new_calls_app.
Qed.

(** C7: the delay is wrong when the period ends between the two reads
    of the tick counter.  If the first read (the test, line 183) is within
    the period and the second (the argument, line 185) is past it, the
    subtraction wraps and the task sleeps for 2^32 ticks less the overrun
    instead of not at all. *)
Theorem periodic_delay_race s now1 w1 now2 w2 :
  xTaskGetTickCount (world s) = (now1, w1) -> xTaskGetTickCount w1 = (now2, w2) ->
  u32_sub now1 (start_ticks s) < sample_period_ticks ->
  sample_period_ticks < u32_sub now2 (start_ticks s) ->
  new_calls s (final (periodic_delay s)) =
    [call_xTaskGetTickCount now1; call_xTaskGetTickCount now2;
     call_vTaskDelay (UINT32_MOD - (u32_sub now2 (start_ticks s) - sample_period_ticks))].
Proof.
  intros E1 E2 Hin Hout. rewrite (periodic_delay_calls s now1 w1 now2 w2) by done.
  unfold delay_ticks. by rewrite (proj2 (Z.leb_gt _ _)).
Qed.

End Timing.

(** ** The theorems at concrete buses. *)


Lemma samples_take_their_periods_witness :
  wp (repeat_n 3 sample_once) (fun _ s' =>
    now (world (sampled three_devices 0)) + Z.of_nat 3 * sample_period_ticks
      <= now (world s')) (sampled three_devices 0).
Proof.
  apply (samples_take_their_periods (sampled three_devices 0) (BusRef 26) 3 3); by_compute.
Defined.

(** The first handle is at 12 bits: 750 ms, 75 ticks of 10 ms. *)
Lemma conversion_is_waited_for_witness :
  wp convert_and_wait (fun _ s' => exists T,
    now (world (sampled three_devices 0)) <= T /\
    T + conversion_time_ms
          (info_resolution (mkInfo (Some (BusRef 26)) rom_pink false
                              DS18B20_RESOLUTION_12_BIT true)) / portTICK_PERIOD_MS
      <= now (world s') /\
    new_calls (sampled three_devices 0) s' =
      [call_ds18b20_convert_all (BusRef 26); call_ds18b20_wait_for_conversion 0])
    (sampled three_devices 0).
Proof.
  apply (conversion_is_waited_for (sampled three_devices 0) (BusRef 26)
           (mkInfo (Some (BusRef 26)) rom_pink false DS18B20_RESOLUTION_12_BIT true));
    by vm_compute.
Defined.


(** With three devices the sample takes 86 ticks of the 100. *)
Lemma periodic_delay_remainder_witness :
  new_calls (before_delay three_devices) (final (periodic_delay (before_delay three_devices))) =
    [call_xTaskGetTickCount 313; call_xTaskGetTickCount 314;
     call_vTaskDelay (sample_period_ticks -
                      u32_sub 314 (start_ticks (before_delay three_devices)))].
Proof.
  apply (periodic_delay_remainder (before_delay three_devices)
           313 (xTaskGetTickCount (world (before_delay three_devices))).2
           314 (xTaskGetTickCount (xTaskGetTickCount (world (before_delay three_devices))).2).2);
    by vm_compute.
Defined.

(** On the slow bus 395 ticks have passed at the read, of the 100. *)
Lemma periodic_delay_overrun_witness :
  new_calls (before_delay slow_bus) (final (periodic_delay (before_delay slow_bus))) =
    [call_xTaskGetTickCount (xTaskGetTickCount (world (before_delay slow_bus))).1].
Proof.
  apply (periodic_delay_overrun (before_delay slow_bus)
           (xTaskGetTickCount (world (before_delay slow_bus))).1
           (xTaskGetTickCount (world (before_delay slow_bus))).2); by vm_compute.
Defined.

(** On the racy bus the reads give 95 and 105 ticks of the 100: the task
    sleeps for 2^32 - 5 ticks. *)
Lemma periodic_delay_race_witness :
  new_calls (before_delay racy_bus) (final (periodic_delay (before_delay racy_bus))) =
    [call_xTaskGetTickCount 295; call_xTaskGetTickCount 305;
     call_vTaskDelay (UINT32_MOD -
                      (u32_sub 305 (start_ticks (before_delay racy_bus)) - sample_period_ticks))].
Proof.
  apply (periodic_delay_race (before_delay racy_bus)
           295 (xTaskGetTickCount (world (before_delay racy_bus))).2
           305 (xTaskGetTickCount (xTaskGetTickCount (world (before_delay racy_bus))).2).2);
    by vm_compute.
Defined.
