(* ===== verification/Lifecycle.v ===== *)
(** * Lifecycle: [app_main] from entry to the sampling loop

    The phases composed: the settle delay and the creation of the bus, the
    search, the check of the known device, the handles, and then either the
    sampling loop, which has no exit, or, on an empty bus, the return through
    a clean-up loop that has nothing to free.  [system_calls] is the
    specification of the whole run as the list of its library calls, and
    [app_main_refines_system] states that the program makes exactly those. *)

From Stdlib Require Import ZArith Lia String.
From stdpp Require Import prelude strings.
From S2P Require Import Prelude Machine OneWire Ds18b20 Rtos Clock.
From S2P Require Import Script AppMain AppFacts Scenarios Enumeration Devices Sampling.

#[local] Open Scope Z_scope.
#[local] Open Scope prog_scope.

Section Lifecycle.

Context {W : Type} `{Rtos W} `{Owb W} `{Ds18b20 W} `{!Ds18b20Laws W}.
Implicit Types s : AppState (W:=W).

(** The states between the phases. *)
Definition after_startup s : AppState := final (startup s).
Definition after_search s : AppState := final (find_devices (after_startup s)).

(** What lines 90-205 do after the search. *)
Definition after_find_devices (n : nat) : prog (AppState (W:=W)) status :=
  verify_known_device ;; create_devices ;; sampling n.

(** The calls of lines 96-100. *)
Definition verify_calls (bus : OneWireBus) (p : bool) : list Call :=
  [call_owb_verify_rom bus known_device p;
   call_printf fmt_known
     [PStr (owb_string_from_rom_code known_device ROM_CODE_S_SIZE);
      PStr (if p then "present" else "not present")]].

(** The calls of lines 51-63. *)
Definition startup_calls (bus : OneWireBus) : list Call :=
  [call_printf fmt_initializing []; call_vTaskDelay startup_delay_ticks;
   call_owb_rmt_initialize gpio_num tx_channel rx_channel bus;
   call_owb_use_crc bus true].

(** The calls of lines 111-188 for the devices [roms]: a handle each, then
    the samples [smps] from counters at zero. *)
Definition device_phase_calls (bus : OneWireBus) (roms : list OneWireBus_ROMCode)
    (smps : list Sample) : list Call :=
  create_calls bus (Z.of_nat (length roms) =? 1) roms ++
  run_calls bus 0 (replicate (Z.to_nat MAX_DEVICES) 0) smps.

(** The calls of a run of [app_main] on a bus that answers the search
    with [roms] (and leaves [r_end] in the search state), the question for
    the known device with [p], and the conversions with [smps]. *)
Definition system_calls (bus : OneWireBus) (roms : list OneWireBus_ROMCode)
    (r_end : OneWireBus_ROMCode) (p : bool) (smps : list Sample) : list Call :=
  startup_calls bus ++ find_calls bus roms r_end ++ verify_calls bus p ++
  device_phase_calls bus roms smps.

(** ** Lines 51-63. *)

Lemma startup_spec s :
  exists bus, startup s = Ok tt (after_startup s) /\ owb (after_startup s) = Some bus /\
    calls s (startup_calls bus) (after_startup s).
Proof.
  unfold after_startup, startup, bind, do_printf, do_vTaskDelay, modify,
    do_owb_rmt_initialize. cbn.
  destruct (owb_rmt_initialize _ _ _ _) as [bus w]. cbn. exists bus.
  split_and!; [done..|by_trace].
Qed.

(** ** Lines 90-100. *)

Lemma wp_verify_known_device s bus :
  owb s = Some bus ->
  wp verify_known_device (fun _ s' => exists p, calls s (verify_calls bus p) s') s.
Proof.
  intros Hb. unfold verify_known_device. wp_steps.
  eapply wp_do_owb_verify_rom; [done|]. intros p w _. wp_steps. apply wp_do_printf.
  exists p. by_trace.
Qed.

(** ** Lines 111-133, then the counters of lines 148-149. *)

Lemma slots_ok_ready s bus roms :
  owb s = Some bus -> 0 < num_devices s <= MAX_DEVICES ->
  slots_ok bus (num_devices s) roms (num_devices s) (devices s) ->
  length (crc_errors s) = Z.to_nat MAX_DEVICES ->
  ready bus (num_devices s) s.
Proof.
  intros Hb Hn Hslots Hlen. split_and!; [done|done|lia|lia|apply Hslots| |done].
  apply Forall_lookup. intros i d [Hd Hi]%lookup_take_Some.
  destruct (slots_ok_lookup _ _ _ _ _ (Z.of_nat i) Hslots) as (h & _ & Hh & _); [lia..|].
  rewrite Nat2Z.id in Hh. by replace d with (Some h) by congruence.
Qed.

Lemma budget_zero (n : nat) s :
  Z.of_nat n <= INT_MAX -> sample_count s = 0 ->
  crc_errors s = replicate (Z.to_nat MAX_DEVICES) 0 -> budget n s.
Proof.
  intros Hn Hc He. split; [lia|]. rewrite He. apply Forall_replicate. lia.
Qed.

(** ** Lines 148-196. *)

(** With a device: the loop, for as many samples as are asked for. *)
Lemma wp_sampling s bus roms (n : nat) :
  owb s = Some bus -> 0 < num_devices s <= MAX_DEVICES ->
  slots_ok bus (num_devices s) roms (num_devices s) (devices s) ->
  Z.of_nat n <= INT_MAX ->
  wp (sampling n) (fun r s' =>
    r = StillSampling /\ sample_count s' = Z.of_nat n /\
    exists smps, length smps = n /\ Forall (sample_ok (num_devices s)) smps /\
      calls s (run_calls bus 0 (replicate (Z.to_nat MAX_DEVICES) 0) smps) s') s.
Proof.
  intros Hb Hn Hslots Hmax. unfold sampling. wp_steps. cbn.
  replace (0 <? num_devices s) with true by (symmetry; apply Z.ltb_lt; lia). wp_steps.
  eapply wp_mono; [|apply (sampling_run_spec _ bus (num_devices s) n)].
  - intros [] s' (smps & <- & Hok & Hc & Hsc & _).
    split_and!; [done|rewrite Hsc; cbn; lia|by exists smps].
  - by apply (slots_ok_ready (set_sample_count 0 (set_crc_errors _ s)) bus roms).
  - by apply budget_zero.
Qed.

(** Without: the clean-up loop does not iterate. *)
Lemma wp_sampling_empty s (n : nat) :
  num_devices s <= 0 -> wp (sampling n) (fun r s' => r = Returned /\ calls s [] s') s.
Proof.
  intros Hn. unfold sampling. wp_steps. cbn.
  replace (0 <? num_devices s) with false by (symmetry; apply Z.ltb_ge; lia). wp_steps.
  unfold cleanup. wp_steps. unfold wp. rewrite for_lt_nonpos by done.
  split; [done|]. unfold calls. cbn. by rewrite app_nil_r.
Qed.

Lemma create_devices_empty s :
  num_devices s <= 0 ->
  create_devices s = Ok tt (set_devices (replicate (Z.to_nat MAX_DEVICES) None) s).
Proof.
  intros Hn. unfold create_devices, bind, modify, gets. cbn -[replicate].
  by rewrite for_lt_nonpos.
Qed.

(** Lines 111-196 with a device. *)
Lemma wp_create_and_sample s bus (n : nat) :
  owb s = Some bus -> 0 < num_devices s <= MAX_DEVICES ->
  length (device_rom_codes s) = Z.to_nat MAX_DEVICES -> Z.of_nat n <= INT_MAX ->
  wp (create_devices ;; sampling n) (fun r s' =>
    r = StillSampling /\ sample_count s' = Z.of_nat n /\
    exists smps, length smps = n /\ Forall (sample_ok (num_devices s)) smps /\
      calls s (create_calls bus (num_devices s =? 1)
                 (take (Z.to_nat (num_devices s)) (device_rom_codes s)) ++
               run_calls bus 0 (replicate (Z.to_nat MAX_DEVICES) 0) smps) s') s.
Proof.
  intros Hb Hn Hlen Hmax. apply wp_bind.
  eapply wp_mono; [|apply (create_devices_spec s bus); [done|lia|done]].
  intros [] s2 ([= Hb2 Hn2 Hr2] & Hslots & Hc). rewrite <- Hn2 in Hslots, Hn |- *.
  eapply wp_mono; [|apply (wp_sampling s2 bus (device_rom_codes s)); [congruence|done..]].
  intros r s' (-> & Hsc & smps & Hlen' & Hok & Hc'). split_and!; [done..|].
  exists smps. split_and!; [done..|]. rewrite Hn2. by eapply calls_trans.
Qed.

(** Lines 111-196 without. *)
Lemma wp_create_and_return s (n : nat) :
  num_devices s <= 0 ->
  wp (create_devices ;; sampling n) (fun r s' => r = Returned /\ calls s [] s') s.
Proof.
  intros Hn. unfold wp. rewrite (bind_Ok _ _ _ _ _ (create_devices_empty s Hn)).
  by apply (wp_sampling_empty (set_devices _ s)).
Qed.

(** Lines 90-196 from the state the search leaves. *)
Lemma wp_after_find_devices s bus (n : nat) :
  owb s = Some bus -> 0 <= num_devices s <= MAX_DEVICES ->
  length (device_rom_codes s) = Z.to_nat MAX_DEVICES -> Z.of_nat n <= INT_MAX ->
  wp (after_find_devices n) (fun r s' =>
    if decide (0 < num_devices s) then
      r = StillSampling /\ sample_count s' = Z.of_nat n /\
      exists p smps, length smps = n /\ Forall (sample_ok (num_devices s)) smps /\
        calls s (verify_calls bus p ++
                 create_calls bus (num_devices s =? 1)
                   (take (Z.to_nat (num_devices s)) (device_rom_codes s)) ++
                 run_calls bus 0 (replicate (Z.to_nat MAX_DEVICES) 0) smps) s'
    else r = Returned /\ exists p, calls s (verify_calls bus p) s') s.
Proof.
  intros Hb Hn Hlen Hmax. unfold after_find_devices. apply wp_bind.
  eapply wp_mono; [|apply (steps_wp (unchanged found_devices)), (wp_verify_known_device s bus);
    [apply _|done]].
  intros [] s1 [[p Hp] [= Hb1 Hn1 Hr1]]. case_decide as Hk.
  - eapply wp_mono; [|apply (wp_create_and_sample s1 bus); [congruence|lia|congruence|done]].
    intros r s3 (-> & Hsc & smps & Hlen' & Hok & Hc). rewrite Hn1, Hr1 in *.
    split_and!; [done..|]. exists p, smps. split_and!; [done..|]. by eapply calls_trans.
  - eapply wp_mono; [|apply wp_create_and_return; lia].
    intros r s3 [-> Hc]. split; [done|]. exists p.
    rewrite <- (app_nil_r (verify_calls bus p)). by eapply calls_trans.
Qed.

(** [app_main] is the search followed by the rest. *)
Lemma app_main_after_search s (n : nat) :
  is_ok (find_devices (after_startup s)) = true ->
  exists bus, app_main n s = after_find_devices n (after_search s) /\
    owb (after_search s) = Some bus /\
    0 <= num_devices (after_search s) <= MAX_DEVICES /\
    length (device_rom_codes (after_search s)) = Z.to_nat MAX_DEVICES.
Proof.
  intros Hok. destruct (startup_spec s) as (bus & Hs & Hb & _). exists bus.
  split; [|by apply find_devices_ok_state]. unfold app_main.
  rewrite (bind_Ok _ _ _ _ _ Hs). unfold after_find_devices.
  apply (bind_Ok find_devices (fun _ => verify_known_device ;; create_devices ;; sampling n) _ tt).
  unfold after_search.
  by destruct (find_devices (after_startup s)) as [[] ?|].
Qed.

(** ** The theorems. *)

(** C1: [app_main] implements the system of the specification, call
    for call.  When the search ends without fault, it was answered with at
    most [MAX_DEVICES] ROM codes [roms], and the calls of the whole run of
    [app_main], from the first line of the console to the [n]th sample, are
    exactly [system_calls]: the start-up (banner, settle delay, bus on the
    RMT driver, CRC on), the search with a line per ROM code and the count,
    the question for the known device and its line, then for each of [roms]
    in order a handle (allocated, bound to the bus in solo mode when there
    is one device and to its ROM code otherwise, CRC on, 12 bits), then [n]
    samples, each one tick read, one conversion for all devices, one wait,
    one read per device in slot order, the report and the delay that the
    ticks read give.  With no device there is no handle and no sample, and
    [app_main] returns; with a device it is still sampling after [n]
    samples, for every [n] an [int] can count. *)
Theorem app_main_refines_system s (n : nat) :
  is_ok (find_devices (after_startup s)) = true -> Z.of_nat n <= INT_MAX ->
  exists bus roms r_end p smps,
    (length roms <= Z.to_nat MAX_DEVICES)%nat /\
    length smps = (if decide (roms = []) then 0%nat else n) /\
    Forall (sample_ok (Z.of_nat (length roms))) smps /\
    app_main n s =
      Ok (if decide (roms = []) then Returned else StillSampling) (final (app_main n s)) /\
    new_calls s (final (app_main n s)) = system_calls bus roms r_end p smps.
Proof.
  intros Hok Hn. destruct (startup_spec s) as (bus & _ & Hb & Hc0).
  destruct (find_devices_calls _ bus Hb Hok) as (roms & r_end & Hlen & Hc1 & Hn1 & Hr1).
  destruct (find_devices_ok_state _ bus Hb Hok) as (Hb2 & Hnd & Hlen2).
  destruct (app_main_after_search s n Hok) as (_ & -> & _). fold (after_search s) in *.
  pose proof (wp_after_find_devices _ bus n Hb2 Hnd Hlen2 Hn) as Hwp.
  unfold wp in Hwp. destruct (after_find_devices n _) as [r s'|]; [|done]. cbn [final].
  rewrite Hn1, Hr1, Nat2Z.id, take_padded in Hwp by done.
  exists bus, roms, r_end. unfold system_calls, device_phase_calls.
  destruct roms as [|r0 roms']; [rewrite decide_False in Hwp by (cbn; lia)
                                |rewrite decide_True in Hwp by (cbn; lia)].
  - destruct Hwp as (-> & p & Hc2). exists p, []. split_and!; [done..|].
    cbn [create_calls run_calls imap concat app]. rewrite app_nil_r.
    by apply calls_new_calls, (calls_trans _ _ (after_startup s)), (calls_trans _ _ (after_search s)).
  - destruct Hwp as (-> & _ & p & smps & Hl & Hsm & Hc2). exists p, smps. split_and!; [done..|].
    by apply calls_new_calls, (calls_trans _ _ (after_startup s)), (calls_trans _ _ (after_search s)).
Qed.

(** C13: with a device on the bus [app_main] never returns.  When the
    search ends without fault and finds at least one device, then for every
    number [n] of samples that an [int] can count, [app_main] is still in
    its sampling loop after [n] samples, without fault, and [sample_count]
    is [n]: [while (1)] has no exit, so the Sampler never reaches the state
    Stopped of the specification and lines 190-196 are never run with a
    handle to free. *)
Theorem app_main_keeps_sampling s (n : nat) :
  is_ok (find_devices (after_startup s)) = true ->
  0 < num_devices (after_search s) -> Z.of_nat n <= INT_MAX ->
  app_main n s = Ok StillSampling (final (app_main n s)) /\
  sample_count (final (app_main n s)) = Z.of_nat n.
Proof.
  intros Hok Hk Hn. destruct (app_main_after_search s n Hok) as (bus & -> & Hb & Hnd & Hlen).
  pose proof (wp_after_find_devices _ bus n Hb Hnd Hlen Hn) as Hwp.
  unfold wp in Hwp. destruct (after_find_devices n _) as [r s'|]; [|done].
  rewrite decide_True in Hwp by done. by destruct Hwp as (-> & ? & _).
Qed.

(** C14: on an empty bus [app_main] returns.  When the search ends
    without fault and finds no device, [app_main] asks for the known device,
    prints the answer and returns: no handle is created, no conversion is
    started, and the clean-up loop of lines 192-195 frees nothing. *)
Theorem app_main_without_devices s (n : nat) :
  is_ok (find_devices (after_startup s)) = true ->
  num_devices (after_search s) = 0 -> Z.of_nat n <= INT_MAX ->
  exists bus p,
    app_main n s = Ok Returned (final (app_main n s)) /\
    new_calls (after_search s) (final (app_main n s)) = verify_calls bus p.
Proof.
  intros Hok Hk Hn. destruct (app_main_after_search s n Hok) as (bus & -> & Hb & Hnd & Hlen).
  pose proof (wp_after_find_devices _ bus n Hb Hnd Hlen Hn) as Hwp.
  unfold wp in Hwp. destruct (after_find_devices n _) as [r s'|]; [|done].
  rewrite decide_False in Hwp by lia. destruct Hwp as (-> & p & Hc). exists bus, p. split; [done|]. by apply calls_new_calls.
Qed.

(** C26: the bus is created on GPIO 26, whatever the configuration says.
    [startup] never faults and makes four calls: the banner, the settle
    delay of 2000 ms in ticks, [owb_rmt_initialize] with pin 26 and the RMT
    channels 1 (transmit) and 0 (receive), and [owb_use_crc] with [true].
    The pin is the literal of line 59; [GPIO_DS18B20_0], which is
    [CONFIG_ONE_WIRE_GPIO], is not used. *)
Theorem bus_created_on_gpio_26 (CONFIG_ONE_WIRE_GPIO : Z) s :
  exists bus,
    startup s = Ok tt (final (startup s)) /\
    new_calls s (final (startup s)) =
      [call_printf fmt_initializing []; call_vTaskDelay (u32 (2000 / portTICK_PERIOD_MS));
       call_owb_rmt_initialize 26 RMT_CHANNEL_1 RMT_CHANNEL_0 bus;
       call_owb_use_crc bus true] /\
    (call_owb_rmt_initialize (GPIO_DS18B20_0 CONFIG_ONE_WIRE_GPIO)
         RMT_CHANNEL_1 RMT_CHANNEL_0 bus ∈ new_calls s (final (startup s)) <->
     CONFIG_ONE_WIRE_GPIO = 26).
Proof.
  destruct (startup_spec s) as (bus & Hs & _ & Hc%calls_new_calls). exists bus.
  unfold after_startup, startup_calls in *. rewrite Hc. split_and!; [done..|].
  unfold GPIO_DS18B20_0. rewrite !elem_of_cons, elem_of_nil. split.
  - by intros [?|[?|[[= ->]|[?|[]]]]].
  - intros ->. auto.
Qed.

End Lifecycle.

(** ** The theorems at concrete buses. *)

Lemma app_main_refines_system_witness :
  exists bus roms r_end p smps,
    (length roms <= Z.to_nat MAX_DEVICES)%nat /\
    length smps = (if decide (roms = []) then 0%nat else 2%nat) /\
    Forall (sample_ok (Z.of_nat (length roms))) smps /\
    app_main 2 (boot three_devices 0) =
      Ok (if decide (roms = []) then Returned else StillSampling)
         (final (app_main 2 (boot three_devices 0))) /\
    new_calls (boot three_devices 0) (final (app_main 2 (boot three_devices 0))) =
      system_calls (W:=ScriptWorld) bus roms r_end p smps.
Proof.
  apply (app_main_refines_system (boot three_devices 0) 2); by vm_compute.
Defined.

Lemma app_main_keeps_sampling_witness :
  app_main 5 (boot three_devices 0) =
    Ok StillSampling (final (app_main 5 (boot three_devices 0))) /\
  sample_count (final (app_main 5 (boot three_devices 0))) = Z.of_nat 5.
Proof.
  apply (app_main_keeps_sampling (boot three_devices 0) 5); by vm_compute.
Defined.

Lemma app_main_without_devices_witness :
  exists bus p,
    app_main 5 (boot no_device 0) = Ok Returned (final (app_main 5 (boot no_device 0))) /\
    new_calls (after_search (boot no_device 0)) (final (app_main 5 (boot no_device 0))) =
      verify_calls (W:=ScriptWorld) bus p.
Proof.
  apply (app_main_without_devices (boot no_device 0) 5); by vm_compute.
Defined.
