(* ===== verification/Safety.v ===== *)
(** * Safety: the undefined behaviour of [app_main], all of it

    A run of [app_main] stops in undefined behaviour in two cases and in no
    other: the search is answered with more than [MAX_DEVICES] ROM codes, and
    the ninth is stored past the end of [device_rom_codes] (line 78); or
    there is a device and the loop comes to its 2^31-th sample, where
    [++sample_count] overflows an [int] (line 171).  No NULL handle is ever
    given to the library, no other array is read or written out of bounds,
    no error counter overflows before the sample counter does, and no loop
    runs out of the fuel the model gives it. *)

From Stdlib Require Import ZArith Lia String.
From stdpp Require Import prelude strings.
From S2P Require Import Prelude Machine OneWire Ds18b20 Rtos Clock.
From S2P Require Import Script AppMain AppFacts Scenarios Enumeration Devices Sampling.
From S2P Require Import Lifecycle.

#[local] Open Scope Z_scope.
#[local] Open Scope prog_scope.

Section Safety.

Context {W : Type} `{Rtos W} `{Owb W} `{Ds18b20 W} `{!Ds18b20Laws W}.
Implicit Types s : AppState (W:=W).

(** The fault of a run of [app_main] for [n] samples in which the search
    ended without fault ([found_ok]) with [nd] devices. *)
Definition app_main_fault (found_ok : bool) (nd : Z) (n : nat) : option fault :=
  if found_ok then
    if decide (0 < nd /\ INT_MAX < Z.of_nat n) then Some (SignedOverflow "sample_count")
    else None
  else Some (OutOfBounds "device_rom_codes" MAX_DEVICES).

(** ** Lines 148-188 past the last sample an [int] can count. *)

Lemma sampling_faults s bus roms (n : nat) :
  owb s = Some bus -> 0 < num_devices s <= MAX_DEVICES ->
  slots_ok bus (num_devices s) roms (num_devices s) (devices s) ->
  INT_MAX < Z.of_nat n ->
  faults (sampling n) (SignedOverflow "sample_count") (fun _ => True) s.
Proof.
  intros Hb Hn Hslots Hmax. unfold sampling. do 3 (apply faults_bind_ok; wp_steps). cbn.
  replace (0 <? num_devices s) with true by (symmetry; apply Z.ltb_lt; lia).
  apply faults_bind_fault, (sampling_overflow _ bus (num_devices s)); [|done..].
  by apply (slots_ok_ready (set_sample_count 0 (set_crc_errors _ s)) bus roms).
Qed.

Lemma after_find_devices_faults s bus (n : nat) :
  owb s = Some bus -> 0 < num_devices s <= MAX_DEVICES ->
  length (device_rom_codes s) = Z.to_nat MAX_DEVICES -> INT_MAX < Z.of_nat n ->
  faults (after_find_devices n) (SignedOverflow "sample_count") (fun _ => True) s.
Proof.
  intros Hb Hn Hlen Hmax. unfold after_find_devices. apply faults_bind_ok.
  eapply wp_mono; [|apply (steps_wp (unchanged found_devices)), (wp_verify_known_device s bus);
    [apply _|done]].
  intros [] s1 [_ [= Hb1 Hn1 Hr1]]. apply faults_bind_ok.
  eapply wp_mono; [|apply (create_devices_spec s1 bus); [congruence|lia|congruence]].
  intros [] s2 ([= Hb2 Hn2 Hr2] & Hslots & _). rewrite <- Hn2 in Hslots.
  apply (sampling_faults s2 bus (device_rom_codes s1)); [congruence|lia|done..].
Qed.

(** ** Lines 90-196 with no device. *)

Lemma after_find_devices_empty s bus (n : nat) :
  owb s = Some bus -> num_devices s <= 0 ->
  wp (after_find_devices n) (fun r _ => r = Returned) s.
Proof.
  intros Hb Hn. unfold after_find_devices. apply wp_bind.
  eapply wp_mono; [|apply (steps_wp (unchanged num_devices)), (wp_verify_known_device s bus);
    [apply _|done]].
  intros [] s1 [_ Hn1]. eapply wp_mono; [|apply wp_create_and_return; congruence].
  by intros r s3 [-> _].
Qed.

(** ** The theorem. *)

(** C2: the undefined behaviour of [app_main] is an array overrun in
    the search or the overflow of the sample counter, and nothing else.  For
    every world and every number [n] of samples, the run of [app_main] up to
    its [n]th sample stops with a write to [device_rom_codes[MAX_DEVICES]]
    when the search loop faults; otherwise, with [SignedOverflow] of
    [sample_count] when a device was found and [n] is more than [INT_MAX];
    otherwise it does not fault: it dereferences no NULL handle, keeps every
    other array access in bounds, and overflows no error counter. *)
Theorem app_main_undefined_behaviour s (n : nat) :
  fault_of (app_main n s) =
  app_main_fault (is_ok (find_devices (after_startup s))) (num_devices (after_search s)) n.
Proof.
  unfold app_main_fault. destruct (is_ok _) eqn:Hok.
  - destruct (app_main_after_search s n Hok) as (bus & -> & Hb & Hnd & Hlen).
    case_decide as Hc; [|destruct (decide (0 < num_devices (after_search s)))].
    + refine (proj1 (faults_fault_of _ _ (fun _ => True) _ _)).
      apply (after_find_devices_faults _ bus); done || lia.
    + eapply wp_fault_of, (wp_after_find_devices _ bus); [done..|lia].
    + eapply wp_fault_of, (after_find_devices_empty _ bus); [done|lia].
  - destruct (startup_spec s) as (bus & Hs & Hb & _). unfold app_main.
    rewrite (bind_Ok _ _ _ _ _ Hs), fault_of_bind by done. by apply (find_devices_fault _ bus).
Qed.

End Safety.

(** ** The theorem on a bus with nine devices, and on one with three. *)

Lemma app_main_undefined_behaviour_witness :
  fault_of (app_main 5 (boot nine_devices 0)) =
    Some (OutOfBounds "device_rom_codes" MAX_DEVICES) /\
  fault_of (app_main 5 (boot three_devices 0)) = None.
Proof.
  rewrite (app_main_undefined_behaviour (boot nine_devices 0) 5),
    (app_main_undefined_behaviour (boot three_devices 0) 5). by vm_compute.
Defined.
