(* ===== verification/Phases.v ===== *)
(** * Phases: the lifecycle of the program

    The state machine of the Sampler in the specification,
    [Init -> Enumerating -> Configured -> Sampling* -> Stopped], as an
    automaton over the calls the program makes: each phase allows some
    calls, and a run may stay in its phase or move to a later one, never
    back.  Every run of [app_main], faulting or not, is a run of this
    automaton; what holds of all its runs (by induction on them) holds of
    the program: the bus is not searched and no handle is created or
    configured once a conversion has been started, and no handle is freed
    before the last conversion. *)

From Stdlib Require Import ZArith Lia String.
From stdpp Require Import prelude strings.
From S2P Require Import Prelude Machine OneWire Ds18b20 Rtos Clock.
From S2P Require Import Script AppMain AppFacts Scenarios.

#[local] Open Scope Z_scope.
#[local] Open Scope prog_scope.

Inductive phase : Type := Init | Enumerating | Configured | Sampling | Stopped.

#[export] Instance phase_eq_dec : EqDecision phase.
Proof. solve_decision. Defined.

Definition phase_rank (p : phase) : nat :=
  match p with
  | Init => 0 | Enumerating => 1 | Configured => 2 | Sampling => 3 | Stopped => 4
  end.

Definition phase_le (p q : phase) : Prop := (phase_rank p <= phase_rank q)%nat.

#[export] Instance phase_le_dec p q : Decision (phase_le p q).
Proof. unfold phase_le. apply _. Defined.

(** The calls of each phase.  [printf] is allowed wherever the program
    reports; the scheduler is called while starting and while sampling. *)
Definition allowed (p : phase) (c : Call) : bool :=
  match p, c with
  | Init, (call_printf _ _ | call_vTaskDelay _ | call_owb_rmt_initialize _ _ _ _
           | call_owb_use_crc _ _) => true
  | Enumerating, (call_printf _ _ | call_owb_search_first _ _ _
                  | call_owb_search_next _ _ _ | call_owb_verify_rom _ _ _) => true
  | Configured, (call_printf _ _ | call_ds18b20_malloc _ | call_ds18b20_init _ _ _
                 | call_ds18b20_init_solo _ _ | call_ds18b20_use_crc _ _
                 | call_ds18b20_set_resolution _ _) => true
  | Sampling, (call_printf _ _ | call_xTaskGetTickCount _ | call_vTaskDelay _
               | call_ds18b20_convert_all _ | call_ds18b20_wait_for_conversion _
               | call_ds18b20_read_temp _ _) => true
  | Stopped, call_ds18b20_free _ => true
  | _, _ => false
  end.

(** One call: made in the phase the run is in, or in a later one. *)
Inductive step : phase -> Call -> phase -> Prop :=
| step_call p q c : phase_le p q -> allowed q c = true -> step p c q.

Inductive run : phase -> list Call -> phase -> Prop :=
| run_nil p : run p [] p
| run_cons p c q l r : step p c q -> run q l r -> run p (c :: l) r.

(** The traces of the automaton from phase [p] that do not reach
    [Stopped]. *)
Definition accepts (p : phase) (l : list Call) : Prop :=
  exists q, run p l q /\ phase_le q Sampling.

(** The calls that set the bus and the handles up. *)
Definition setup_call (c : Call) : bool :=
  match c with
  | call_owb_rmt_initialize _ _ _ _ | call_owb_use_crc _ _
  | call_owb_search_first _ _ _ | call_owb_search_next _ _ _ | call_owb_verify_rom _ _ _
  | call_ds18b20_malloc _ | call_ds18b20_init _ _ _ | call_ds18b20_init_solo _ _
  | call_ds18b20_use_crc _ _ | call_ds18b20_set_resolution _ _ => true
  | _ => false
  end.

(** The calls of a sample that go to the bus. *)
Definition sample_call (c : Call) : bool :=
  match c with
  | call_ds18b20_convert_all _ | call_ds18b20_wait_for_conversion _
  | call_ds18b20_read_temp _ _ => true
  | _ => false
  end.

(** ** The automaton. *)

(** Close a case on the phases: by computation, or because a phase would
    come before an earlier one. *)
Ltac by_phase := first [done | unfold phase_le in *; cbn in *; lia].

#[export] Instance phase_le_preorder : PreOrder phase_le.
Proof. split; unfold phase_le; [intros p; lia | intros p q r; lia]. Qed.

Lemma run_phase_le p l q : run p l q -> phase_le p q.
Proof.
  induction 1 as [p | p c q l r [p' q' c' Hle _] _ IH]; [done | by etrans].
Qed.

(** A run can be entered from an earlier phase. *)
Lemma run_from_earlier p p' l q :
  phase_le p p' -> run p' l q -> exists q', run p l q' /\ phase_le q' q.
Proof.
  intros Hle Hrun. destruct Hrun as [p' | p' c q l r [p1 q1 c1 Hle' Hc] Hrun].
  - exists p. split; [constructor | done].
  - exists r. split; [|done]. econstructor; [|done]. constructor; [by etrans | done].
Qed.

Lemma run_cons_inv p c l r :
  run p (c :: l) r -> exists q, phase_le p q /\ allowed q c = true /\ run q l r.
Proof. inversion 1 as [|? ? q ? ? Hs Hl]; subst. destruct Hs. eauto. Qed.

Lemma run_app p l1 q l2 r : run p l1 q -> run q l2 r -> run p (l1 ++ l2) r.
Proof. induction 1; cbn; [done | econstructor; eauto]. Qed.

Lemma run_app_inv p l1 l2 r : run p (l1 ++ l2) r -> exists q, run p l1 q /\ run q l2 r.
Proof.
  revert p. induction l1 as [|c l1 IH]; cbn; intros p Hrun.
  - exists p. split; [constructor | done].
  - apply run_cons_inv in Hrun as (q & ? & ? & Hl). destruct (IH _ Hl) as (q' & ? & ?).
    exists q'. split; [|done]. econstructor; [by constructor | done].
Qed.

(** Calls of one phase are a run that stays in it. *)
Lemma run_allowed p l : Forall (fun c => allowed p c = true) l -> run p l p.
Proof. induction 1; [constructor|]. apply (run_cons p x p); [by constructor | done]. Qed.

(** In a run from [p] to [q] every call is a call of a phase between. *)
Lemma run_between p l q :
  run p l q ->
  Forall (fun c => exists r, phase_le p r /\ phase_le r q /\ allowed r c = true) l.
Proof.
  induction 1 as [p | p c q l r [p' q' c' Hle Hc] Hrun IH]; constructor.
  - exists q'. split; [done|]. split; [by eapply run_phase_le | done].
  - eapply Forall_impl; [done|]. cbn. intros c0 (r0 & ? & ? & ?).
    exists r0. split; [by etrans | done].
Qed.

(** Once a sample has gone to the bus, the set-up is over. *)
Lemma run_setup_is_over p l1 c l2 q :
  run p (l1 ++ c :: l2) q -> sample_call c = true ->
  Forall (fun c' => setup_call c' = false) l2.
Proof.
  intros (q1 & _ & (q2 & _ & Ha & Hrun)%run_cons_inv)%run_app_inv Hc.
  assert (q2 = Sampling) as -> by (destruct q2, c; done).
  eapply Forall_impl; [by apply run_between|]. cbn.
  intros c' (r & Hle & _ & Hr). destruct r, c'; by_phase.
Qed.

(** Calls of phase [p], then a trace accepted from a later phase. *)
Lemma accepts_allowed p l p' l' :
  phase_le p p' -> Forall (fun c => allowed p c = true) l -> accepts p' l' ->
  accepts p (l ++ l').
Proof.
  intros Hle Hl (q & Hrun & Hq). induction Hl as [|c l Hc _ IH]; cbn.
  - destruct (run_from_earlier p p' l' q Hle Hrun) as (q' & ? & ?).
    exists q'. split; [done | by etrans].
  - destruct IH as (q' & ? & ?). exists q'. split; [|done].
    apply (run_cons p c p); [by constructor | done].
Qed.

Lemma accepts_nil p : phase_le p Sampling -> accepts p [].
Proof. exists p. split; [constructor | done]. Qed.

(** ** The program. *)

Section Phases.

Context {W : Type} `{Rtos W} `{Owb W} `{Ds18b20 W}.
Implicit Types s : AppState (W:=W).

(** From [s] to [s'] the program made calls that the automaton accepts
    from phase [p]. *)
Definition follows (p : phase) s s' : Prop :=
  exists l, trace s' = trace s ++ l /\ accepts p l.

(** Only the trace of the first state matters. *)
Lemma follows_same_trace p s0 s s' : trace s0 = trace s -> follows p s0 s' -> follows p s s'.
Proof. unfold follows. by intros ->. Qed.

(** A statement of phase [p], then the rest from a later phase. *)
Lemma follows_then {A B} p p' (m : prog AppState A) (k : A -> prog AppState B) s :
  Steps (emits (fun c => allowed p c = true)) m -> phase_le p p' -> phase_le p' Sampling ->
  (forall a s', follows p' s' (final (k a s'))) ->
  follows p s (final (bind m k s)).
Proof.
  intros Hm Hle Hp' Hk. destruct (steps_emits m _ s Hm) as (l & El & Hl).
  unfold bind. destruct (m s) as [a s1|f s1]; cbn in *.
  - destruct (Hk a s1) as (l' & El' & Hl'). exists (l ++ l').
    rewrite El', El, app_assoc. split; [done | by eapply accepts_allowed].
  - exists l. split; [done|]. rewrite <- (app_nil_r l).
    by eapply accepts_allowed, accepts_nil.
Qed.

(** A statement of phase [p] at the end. *)
Lemma follows_last {A} p (m : prog AppState A) s :
  Steps (emits (fun c => allowed p c = true)) m -> phase_le p Sampling ->
  follows p s (final (m s)).
Proof.
  intros Hm Hp. destruct (steps_emits m _ s Hm) as (l & El & Hl).
  exists l. split; [done|]. rewrite <- (app_nil_r l). by eapply accepts_allowed, accepts_nil.
Qed.

(** Lines 148-196: the loop is of phase [Sampling]; the clean-up, the only
    statement of phase [Stopped], runs when there is nothing to free. *)
Lemma follows_sampling (n : nat) s : follows Sampling s (final (sampling n s)).
Proof.
  unfold sampling, bind at 1 2 3, modify, gets. cbn.
  destruct (0 <? num_devices s) eqn:Hn.
  - eapply follows_same_trace;
      [|apply (follows_last Sampling (repeat_n n sample_once ;; ret StillSampling));
        [apply _ | by_phase]]. done.
  - unfold cleanup, bind, gets. cbn. rewrite for_lt_nonpos by (apply Z.ltb_ge in Hn; lia).
    cbn. exists []. split; [by rewrite app_nil_r | by apply accepts_nil].
Qed.

Lemma app_main_run (n : nat) s : follows Init s (final (app_main n s)).
Proof.
  unfold app_main.
  apply (follows_then Init Enumerating); [apply _ | by_phase..|]. intros _ s1.
  apply (follows_then Enumerating Enumerating); [apply _ | by_phase..|]. intros _ s2.
  apply (follows_then Enumerating Configured); [apply _ | by_phase..|]. intros _ s3.
  apply (follows_then Configured Sampling); [apply _ | by_phase..|]. intros _ s4.
  apply follows_sampling.
Qed.

(** ** The theorems. *)

(** C9: [app_main] follows the lifecycle of the specification.  Whatever
    the world answers, for every number of samples and whether the run
    faults or not, the calls of [app_main] are a run of the automaton
    [Init -> Enumerating -> Configured -> Sampling] in which the phases only
    advance; the run never enters [Stopped], the phase of [ds18b20_free]. *)
Theorem app_main_follows_lifecycle (n : nat) s :
  accepts Init (new_calls s (final (app_main n s))).
Proof.
  destruct (app_main_run n s) as (l & El & Hl). by rewrite (new_calls_app _ _ l).
Qed.

(** C15: the set-up is over when the first conversion starts.  After a
    call of a sample that goes to the bus (a conversion, a wait, a read),
    [app_main] never again creates or configures the bus or a handle and
    never searches the bus: devices that appear later are not seen. *)
Theorem setup_ends_before_sampling (n : nat) s l1 c l2 :
  new_calls s (final (app_main n s)) = l1 ++ c :: l2 -> sample_call c = true ->
  Forall (fun c' => setup_call c' = false) l2.
Proof.
  intros El Hc. destruct (app_main_run n s) as (l & El' & q & Hrun & _).
  rewrite (new_calls_app _ _ l) in El by done. subst l.
  by eapply run_setup_is_over.
Qed.

(** C27: [app_main] frees nothing.  No run of [app_main] calls
    [ds18b20_free]: the loop of lines 192-195 is reached only with
    [num_devices] at zero. *)
Theorem app_main_frees_nothing (n : nat) s :
  Forall (fun c => forall i, c <> call_ds18b20_free i) (new_calls s (final (app_main n s))).
Proof.
  destruct (app_main_run n s) as (l & El & q & Hrun & Hq).
  rewrite (new_calls_app _ _ l) by done.
  eapply Forall_impl; [by apply run_between|]. cbn.
  intros c (r & _ & Hr & Ha) i ->. destruct r; by_phase.
Qed.

End Phases.

(** ** The theorems at the bus with three devices: the first conversion is
    the 29th call. *)

Lemma setup_ends_before_sampling_witness :
  Forall (fun c' => setup_call c' = false)
    (drop 29 (new_calls (boot three_devices 0) (final (app_main 2 (boot three_devices 0))))).
Proof.
  apply (setup_ends_before_sampling 2 (boot three_devices 0)
    (take 28 (new_calls (boot three_devices 0) (final (app_main 2 (boot three_devices 0)))))
    (call_ds18b20_convert_all (BusRef 26))); by vm_compute.
Defined.
